(** * ps9s: the structured-value path engine and the screen reducers

    A shallow embedding of the Go sources of ps9s:
    - the path engine of the edit screen ([parsePath], [getJSONValue],
      [updateJSONValue], [parseNumber]) and of the view screen
      ([flattenJSONForView]);
    - the reducers of the parameter list screen, of the edit screen, of the
      view screen and of the root model ([Update]);
    - the pool of clients ([NewClientPoolWithRegion]) and the profiles of
      the environment ([GetProfilesFromEnv]).

    Go values decoded by [encoding/json] into [interface{}] are modelled by
    the inductive type [json]; a run-time panic is an explicit outcome of the
    [go] monad; the pieces of Go's standard library that the sources call
    ([fmt.Sscanf], [strconv.ParseFloat], [fmt.Sprintf], [sort.Strings],
    [strings.Index]) are modelled in the modules [GoStrings] and [GoFmt]. *)

From Stdlib Require Import ZArith NArith Bool Ascii String List.
From Stdlib Require Import Sorted Permutation Lia.
From Stdlib Require Import PrimFloat SpecFloat FloatOps.
From stdpp Require Import base option list sorting gmap strings pretty.

#[local] Set Warnings "-register-all".

Local Open Scope string_scope.

(** ** Outcomes of Go code: a value, or a run-time panic *)

Inductive go (A : Type) : Type :=
| Ret (a : A)
| Panic.
Arguments Ret {A} a.
Arguments Panic {A}.

#[global] Instance go_ret : MRet go := fun A a => Ret a.
#[global] Instance go_bind : MBind go := fun A B k m =>
  match m with
  | Ret a => k a
  | Panic => Panic
  end.

(** ** Strings as Go has them: sequences of bytes *)

Module GoStrings.

Definition byte_val (c : ascii) : N := N_of_ascii c.

(** [string(ch)] for a byte [ch]: the byte is read as a code point and
    encoded in UTF-8, one byte below 0x80 and two bytes from 0x80 on. *)
Definition string_of_byte (ch : ascii) : string :=
  let n := byte_val ch in
  if (n <? 128)%N then String ch EmptyString
  else String (ascii_of_N (192 + n / 64))
         (String (ascii_of_N (128 + n mod 64)) EmptyString).

(** [strings.Index(s, sep)], with [None] for -1. *)
Definition Index (s sep : string) : option nat := String.index 0 sep s.

(** [s[lo:hi]] for [lo <= hi <= len(s)]. *)
Definition slice (s : string) (lo hi : nat) : string :=
  String.substring lo (hi - lo) s.

Definition is_empty (s : string) : bool :=
  match s with EmptyString => true | _ => false end.

Definition mem (c : ascii) (set : string) : bool :=
  existsb (Ascii.eqb c) (list_ascii_of_string set).

(** [sort.Strings]: the strings in increasing byte-wise order. The order
    is total and antisymmetric, so every sorting algorithm returns the same
    list; here it is stdpp's merge sort. *)
Definition Strings (l : list string) : list string :=
  merge_sort String.le l.

End GoStrings.

(** ** The slice of package [fmt] and [strconv] that the sources call

    [fmt.Sscanf(s, "%d", &i)] and [fmt.Sscanf(s, "%f", &f)] skip leading
    white space, read the longest prefix of the input that has the shape of
    a number and convert it; what follows that prefix is left unread and is
    not an error. A scan that fails leaves the target variable as it was. *)

Module GoFmt.
Import GoStrings.

Definition decimalDigits : string := "0123456789".
Definition hexadecimalDigits : string := "0123456789aAbBcCdDeEfF".
Definition sign : string := "+-".
Definition period : string := ".".
Definition exponent : string := "eEpP".

(** The scanner's state: the token buffer and the unread input. *)
Record ss : Type := { buf : string; input : string }.

(** [s.accept(ok)]: the next character is consumed into the buffer when it
    is one of [ok]. *)
Definition accept (ok : string) (s : ss) : bool * ss :=
  match input s with
  | String c rest =>
      if mem c ok then (true, {| buf := buf s ++ String c ""; input := rest |})
      else (false, s)
  | EmptyString => (false, s)
  end.

(** [for s.accept(ok) {}] *)
Fixpoint accept_loop (ok : string) (b inp : string) : ss :=
  match inp with
  | String c rest =>
      if mem c ok then accept_loop ok (b ++ String c "") rest
      else {| buf := b; input := inp |}
  | EmptyString => {| buf := b; input := inp |}
  end.

Definition accept_all (ok : string) (s : ss) : ss :=
  accept_loop ok (buf s) (input s).

(** [s.accept(a) && s.accept(b) && s.accept(c)]: what was accepted before
    the chain breaks stays in the buffer. *)
Definition accept3 (a b c : string) (s : ss) : bool * ss :=
  let '(r1, s1) := accept a s in
  if r1 then
    let '(r2, s2) := accept b s1 in
    if r2 then accept c s2 else (false, s2)
  else (false, s1).

(** White space of [isSpace] in its UTF-8 encoding: the number of bytes
    of the white-space character the three bytes start with, 0 when they
    start with none. The line feed is dealt with by [SkipSpace]. *)
Definition space_width (b1 b2 b3 : N) : nat :=
  if ((9 <=? b1) && (b1 <=? 13) || (b1 =? 32))%N then 1
  else if ((b1 =? 194) && ((b2 =? 133) || (b2 =? 160)))%N then 2
  else if ((b1 =? 225) && (b2 =? 154) && (b3 =? 128))%N then 3
  else if ((b1 =? 226) && (b2 =? 128)
           && ((128 <=? b3) && (b3 <=? 138) || (b3 =? 168) || (b3 =? 169)
               || (b3 =? 175)))%N then 3
  else if ((b1 =? 226) && (b2 =? 129) && (b3 =? 159))%N then 3
  else if ((b1 =? 227) && (b2 =? 128) && (b3 =? 128))%N then 3
  else 0.

(** [s.SkipSpace()] under [Sscanf], where a line feed is an error
    ([None]); otherwise the input from its first character that is not
    white space. *)
Fixpoint SkipSpace (inp : string) : option string :=
  match inp with
  | EmptyString => Some inp
  | String c1 r1 =>
      if (byte_val c1 =? 10)%N then None
      else
        match r1 with
        | EmptyString =>
            match space_width (byte_val c1) 0 0 with
            | 1 => SkipSpace r1
            | _ => Some inp
            end
        | String c2 r2 =>
            match r2 with
            | EmptyString =>
                match space_width (byte_val c1) (byte_val c2) 0 with
                | 1 => SkipSpace r1
                | 2 => SkipSpace r2
                | _ => Some inp
                end
            | String c3 r3 =>
                match space_width (byte_val c1) (byte_val c2) (byte_val c3) with
                | 1 => SkipSpace r1
                | 2 => SkipSpace r2
                | 3 => SkipSpace r3
                | _ => Some inp
                end
            end
        end
  end.

Definition digit_val (c : ascii) : Z := Z.of_N (byte_val c) - 48.

Definition is_digit (c : ascii) : bool :=
  ((48 <=? byte_val c) && (byte_val c <=? 57))%N.

(** The value of a string of decimal digits. *)
Definition digits_val (s : string) : Z :=
  fold_left (fun acc c => acc * 10 + digit_val c)%Z (list_ascii_of_string s) 0%Z.

Definition MinInt64 : Z := (- 2 ^ 63)%Z.
Definition MaxInt64 : Z := (2 ^ 63 - 1)%Z.

(** [strconv.ParseInt(tok, 10, 64)]: an optional sign and at least one
    digit, nothing else; a value outside int64 is an error. *)
Definition ParseInt (tok : string) : option Z :=
  let '(neg, ds) :=
    match tok with
    | String "-" r => (true, r)
    | String "+" r => (false, r)
    | _ => (false, tok)
    end in
  if is_empty ds || negb (forallb is_digit (list_ascii_of_string ds)) then None
  else
    let v := if neg then (- digits_val ds)%Z else digits_val ds in
    if ((MinInt64 <=? v) && (v <=? MaxInt64))%Z then Some v else None.

(** [fmt.Sscanf(s, "%d", &i)] for an [int] (64 bits): [Some i] when the
    call returns no error, [None] when it returns one. *)
Definition Sscanf_d (s : string) : option Z :=
  match SkipSpace s with
  | None => None
  | Some inp =>
      let '(_, s1) := accept sign {| buf := ""; input := inp |} in
      match input s1 with
      | String c _ =>
          if is_digit c then ParseInt (buf (accept_all decimalDigits s1))
          else None
      | EmptyString => None
      end
  end.

(** *** Floating point: [float64] is the kernel's binary64 [float] *)

(** The positive rational [n/d] rounded to the nearest binary64, ties to
    even: a quotient of at least 64 bits with a sticky bit below it is
    handed to the Standard Library's [binary_normalize]. *)
Definition round_ratio (neg : bool) (n d : Z) : spec_float :=
  let k := Z.max 0 (64 + Z.log2 d - Z.log2 n) in
  let q := (n * 2 ^ k / d)%Z in
  let sticky := if (n * 2 ^ k mod d =? 0)%Z then 0%Z else 1%Z in
  binary_normalize prec emax (cond_Zopp neg (2 * q + sticky)) (- k - 1) neg.

(** [m * base^x] for [m > 0] as a binary64; [None] when the rounded value
    overflows (strconv's [ErrRange]). Exponents beyond every binary64 are
    cut short: the result is the same and no huge power is computed. *)
Definition float_of_scaled (neg : bool) (m : Z) (base : Z) (x : Z)
  : option float :=
  if (m =? 0)%Z then Some (if neg then neg_zero else zero)
  else if (0 <=? x)%Z && (1100 <? Z.log2 m + x * Z.log2 base)%Z then None
  else if (x <? 0)%Z && (Z.log2 m + 1 + x * Z.log2 base <? - 1100)%Z
  then Some (if neg then neg_zero else zero)
  else
    let r := if (0 <=? x)%Z then round_ratio neg (m * base ^ x) 1
             else round_ratio neg m (base ^ (- x)) in
    match r with
    | S754_infinity _ => None
    | _ => Some (SF2Prim r)
    end.

Definition lower (c : ascii) : ascii :=
  ascii_of_N (N.lor (byte_val c) 32).

Definition is_hex_letter (c : ascii) : bool :=
  ((97 <=? byte_val (lower c)) && (byte_val (lower c) <=? 102))%N.

Definition hex_letter_val (c : ascii) : Z := Z.of_N (byte_val (lower c)) - 87.

(** The mantissa loop of strconv's [readFloat]: digits, at most one period,
    underscores passed over. Returns the unread input, whether a digit was
    seen, the value of the digits read as one integer, and the number of
    digits after the period. *)
Fixpoint read_mantissa (hex : bool) (inp : string) (sawdot sawdigits : bool)
  (m fd : Z) : string * bool * Z * Z :=
  match inp with
  | String c r =>
      if Ascii.eqb c "_" then read_mantissa hex r sawdot sawdigits m fd
      else if Ascii.eqb c "." then
        if sawdot then (inp, sawdigits, m, fd)
        else read_mantissa hex r true sawdigits m fd
      else if is_digit c then
        read_mantissa hex r sawdot true
          ((if hex then 16 else 10) * m + digit_val c)%Z
          (if sawdot then fd + 1 else fd)%Z
      else if hex && is_hex_letter c then
        read_mantissa hex r sawdot true (16 * m + hex_letter_val c)%Z
          (if sawdot then fd + 1 else fd)%Z
      else (inp, sawdigits, m, fd)
  | EmptyString => (inp, sawdigits, m, fd)
  end.

(** The exponent digits of [readFloat]: the value stops growing at five
    digits, underscores are passed over. *)
Fixpoint read_exp_digits (inp : string) (e : Z) : string * Z :=
  match inp with
  | String c r =>
      if Ascii.eqb c "_" then read_exp_digits r e
      else if is_digit c then
        read_exp_digits r (if (e <? 10000)%Z then e * 10 + digit_val c else e)%Z
      else (inp, e)
  | EmptyString => (inp, e)
  end.

(** strconv's [underscoreOK]: an underscore stands only between digits, or
    between a base prefix and a digit. [saw] is the last character's class:
    0 digit or base prefix, 1 underscore, 2 anything else, 3 the start. *)
Fixpoint underscore_loop (hex : bool) (inp : string) (saw : nat) : bool :=
  match inp with
  | String c r =>
      if is_digit c || hex && is_hex_letter c then underscore_loop hex r 0
      else if Ascii.eqb c "_" then
        match saw with 0 => underscore_loop hex r 1 | _ => false end
      else match saw with 1 => false | _ => underscore_loop hex r 2 end
  | EmptyString => match saw with 1 => false | _ => true end
  end.

Definition underscoreOK (s : string) : bool :=
  let s1 := match s with
            | String "-" r => r
            | String "+" r => r
            | _ => s
            end in
  match s1 with
  | String "0" (String c r) =>
      let l := lower c in
      if Ascii.eqb l "b" || Ascii.eqb l "o" || Ascii.eqb l "x"
      then underscore_loop (Ascii.eqb l "x") r 0
      else underscore_loop false s1 3
  | _ => underscore_loop false s1 3
  end.

Definition eq_fold (s t : string) : bool :=
  String.eqb (string_of_list_ascii (map lower (list_ascii_of_string s))) t.

(** [strconv.ParseFloat(s, 64)]: [Some f] when it returns no error. The
    whole of [s] has to be a number: the special values, or a decimal or
    hexadecimal mantissa with an optional exponent (a [p] exponent is
    required after a hexadecimal mantissa). *)
Definition ParseFloat (s : string) : option float :=
  let '(neg, body) :=
    match s with
    | String "-" r => (true, r)
    | String "+" r => (false, r)
    | _ => (false, s)
    end in
  if eq_fold body "inf" || eq_fold body "infinity"
  then Some (if neg then neg_infinity else infinity)
  else if eq_fold s "nan" then Some nan
  else
    let '(hex, digits) :=
      match body with
      | String "0" (String c (String c' r)) =>
          if Ascii.eqb (lower c) "x" then (true, String c' r) else (false, body)
      | _ => (false, body)
      end in
    let '(rest, sawdigits, m, fd) := read_mantissa hex digits false false 0 0 in
    if negb sawdigits then None
    else
      let scale := if hex then (4 * fd)%Z else fd in
      let expChar := if hex then "p"%char else "e"%char in
      let finish (rest' : string) (e : Z) :=
        if negb (is_empty rest') then None
        else if negb (underscoreOK s) then None
        else float_of_scaled neg m (if hex then 2 else 10) (e - scale) in
      match rest with
      | String c r =>
          if Ascii.eqb (lower c) expChar then
            let '(eneg, r1) :=
              match r with
              | String "-" r' => (true, r')
              | String "+" r' => (false, r')
              | _ => (false, r)
              end in
            match r1 with
            | String d _ =>
                if is_digit d then
                  let '(rest', e) := read_exp_digits r1 0 in
                  finish rest' (if eneg then - e else e)%Z
                else None
            | EmptyString => None
            end
          else None
      | EmptyString => if hex then None else finish rest 0%Z
      end.

(** [strconv.Atoi] on a 64-bit platform. *)
Definition Atoi (s : string) : option Z := ParseInt s.

(** [math.Ldexp(f, m)]: [f * 2^m], rounded once. *)
Definition Ldexp (f : float) (m : Z) : float :=
  match Prim2SF f with
  | S754_finite sg mant e =>
      let m' := Z.max (- 5000) (Z.min 5000 m) in
      let x := (e + m')%Z in
      SF2Prim (if (0 <=? x)%Z then round_ratio sg (Zpos mant * 2 ^ x) 1
               else round_ratio sg (Zpos mant) (2 ^ (- x)))
  | _ => f
  end.

(** The scanner's [floatToken]: the longest prefix of the input with the
    shape of a floating-point number; its syntax is not checked here. *)
Definition floatToken (inp : string) : string :=
  let s0 := {| buf := ""; input := inp |} in
  let '(isnan, s1) := accept3 "nN" "aA" "nN" s0 in
  if isnan then buf s1
  else
    let '(_, s2) := accept sign s1 in
    let '(isinf, s3) := accept3 "iI" "nN" "fF" s2 in
    if isinf then buf s3
    else
      let '(z, s4) := accept "0" s3 in
      let '(x, s5) := if z then accept "xX" s4 else (false, s4) in
      let digits := if x then hexadecimalDigits ++ "_" else decimalDigits ++ "_" in
      let exp := if x then "pP" else exponent in
      let s6 := accept_all digits s5 in
      let '(dot, s7) := accept period s6 in
      let s8 := if dot then accept_all digits s7 else s7 in
      let '(e, s9) := accept exp s8 in
      if e then
        let '(_, s10) := accept sign s9 in
        buf (accept_all (decimalDigits ++ "_") s10)
      else buf s9.

Definition hasX (s : string) : bool := mem "x" s || mem "X" s.

(** The scanner's [convertFloat]: a decimal mantissa may carry a binary
    exponent after a lower-case [p], which the scanner applies itself. *)
Definition convertFloat (tok : string) : option float :=
  match Index tok "p" with
  | Some p =>
      if hasX tok then ParseFloat tok
      else
        match ParseFloat (slice tok 0 p), Atoi (slice tok (p + 1) (String.length tok)) with
        | Some f, Some m => Some (Ldexp f m)
        | _, _ => None
        end
  | None => ParseFloat tok
  end.

(** [fmt.Sscanf(s, "%f", &f)] for a [float64]: [Some f] when the call
    returns no error. *)
Definition Sscanf_f (s : string) : option float :=
  match SkipSpace s with
  | None => None
  | Some EmptyString => None
  | Some inp => convertFloat (floatToken inp)
  end.

(** *** Conversions between [float64] and [int64] *)

(** [int64(f)]: the fraction is discarded. For a value that does not fit
    (NaN and the infinities too) Go leaves the result to the platform; this
    is amd64, where the conversion yields the least int64. *)
Definition int64_of_float (f : float) : Z :=
  match Prim2SF f with
  | S754_zero _ => 0%Z
  | S754_finite sg m e =>
      let a := if (0 <=? e)%Z then (Zpos m * 2 ^ e)%Z else (Zpos m / 2 ^ (- e))%Z in
      let v := if sg then (- a)%Z else a in
      if ((MinInt64 <=? v) && (v <=? MaxInt64))%Z then v else MinInt64
  | _ => MinInt64
  end.

(** [float64(i)] for an int64: the nearest binary64. *)
Definition float_of_int64 (i : Z) : float :=
  SF2Prim (binary_normalize prec emax i 0 false).

(** *** Printing with [%v] *)

(** [fmt.Sprintf("%d", i)] and [%v] of an integer. *)
Definition FormatInt (i : Z) : string := pretty i.

(** The decimal digits of [n > 0], and their number. *)
Definition num_digits (n : Z) : Z := Z.of_nat (String.length (pretty n)).

(** The position of the decimal point: the least [dp] with
    [n/d < 10^dp], searched from an estimate by the binary logarithm. *)
Fixpoint find_dp (fuel : nat) (n d : Z) (dp : Z) : Z :=
  match fuel with
  | O => dp
  | S fuel' =>
      let below := if (0 <=? dp)%Z then (n <? d * 10 ^ dp)%Z
                   else (n * 10 ^ (- dp) <? d)%Z in
      if below then dp else find_dp fuel' n d (dp + 1)
  end.

Definition decimal_point (n d : Z) : Z :=
  let est := ((Z.log2 n - Z.log2 d - 1) * 30102 / 100000 - 1)%Z in
  find_dp 8 n d est.

(** The shortest decimal that reads back as the float: for each number of
    digits the two neighbours of [n/d] at that precision are tried, the
    nearer first. Returns the digits as an integer and the power of ten
    that scales them. *)
Fixpoint shortest_digits (fuel : nat) (nd : Z) (neg : bool) (f : float)
  (n d dp : Z) : Z * Z :=
  match fuel with
  | O => (0%Z, 0%Z)
  | S fuel' =>
      let x := (dp - nd)%Z in
      let '(num, den) := if (0 <=? x)%Z then (n, d * 10 ^ x)%Z
                         else (n * 10 ^ (- x), d)%Z in
      let lo := (num / den)%Z in
      let r := (num mod den)%Z in
      let up_first := ((den <? 2 * r) || (den =? 2 * r) && Z.odd lo)%Z in
      let ok c := match float_of_scaled neg c 10 x with
                  | Some g => PrimFloat.eqb g f
                  | None => false
                  end in
      let c1 := if up_first then (lo + 1)%Z else lo in
      let c2 := if up_first then lo else (lo + 1)%Z in
      if (0 <? c1)%Z && ok c1 then (c1, x)
      else if (0 <? c2)%Z && ok c2 then (c2, x)
      else shortest_digits fuel' (nd + 1) neg f n d dp
  end.

Fixpoint strip_zeros (fuel : nat) (c x : Z) : Z * Z :=
  match fuel with
  | O => (c, x)
  | S fuel' => if (c mod 10 =? 0)%Z then strip_zeros fuel' (c / 10) (x + 1) else (c, x)
  end.

Definition zeros (k : Z) : string :=
  string_of_list_ascii (repeat "0"%char (Z.to_nat k)).

(** strconv's [%e] layout of the digits [ds] with the decimal point after
    the first [dp] of them. *)
Definition fmtE (neg : bool) (ds : string) (dp : Z) : string :=
  let e := (dp - 1)%Z in
  let ea := Z.abs e in
  (if neg then "-" else "")
  ++ String.substring 0 1 ds
  ++ (if (1 <? String.length ds)%nat
      then "." ++ String.substring 1 (String.length ds - 1) ds else "")
  ++ "e" ++ (if (e <? 0)%Z then "-" else "+")
  ++ (if (ea <? 10)%Z then "0" else "") ++ pretty ea.

(** strconv's [%f] layout with as many fraction digits as the digits need. *)
Definition fmtF (neg : bool) (ds : string) (dp : Z) : string :=
  let nd := Z.of_nat (String.length ds) in
  (if neg then "-" else "")
  ++ (if (0 <? dp)%Z
      then String.substring 0 (Z.to_nat (Z.min nd dp)) ds ++ zeros (dp - nd)
      else "0")
  ++ (if (dp <? nd)%Z
      then "." ++ zeros (- dp) ++ String.substring (Z.to_nat (Z.max 0 dp)) (String.length ds) ds
      else "").

(** [fmt.Sprintf("%v", f)] for a float64: strconv's ['g'] format with the
    shortest digits, the exponent form when the decimal exponent is below
    -4 or at least 6. *)
Definition FormatFloat (f : float) : string :=
  match Prim2SF f with
  | S754_nan => "NaN"
  | S754_infinity sg => if sg then "-Inf" else "+Inf"
  | S754_zero sg => if sg then "-0" else "0"
  | S754_finite sg m e =>
      let '(n, d) := if (0 <=? e)%Z then (Zpos m * 2 ^ e, 1)%Z
                     else (Zpos m, 2 ^ (- e))%Z in
      let dp0 := decimal_point n d in
      let '(c0, x0) := shortest_digits 17 1 sg f n d dp0 in
      let '(c, x) := strip_zeros 400 c0 x0 in
      let ds := pretty c in
      let dp := (num_digits c + x)%Z in
      if ((dp - 1 <? - 4) || (6 <=? dp - 1))%Z then fmtE sg ds dp
      else fmtF sg ds dp
  end.

End GoFmt.





(** ** Structured values: what [json.Unmarshal] stores in an [interface{}]

    [nil], [bool], [float64], [string], [[]interface{}] and
    [map[string]interface{}]; [updateJSONValue] also stores [int64]. A map
    is kept as the list of its entries in some order: Go fixes no iteration
    order, [obj_lookup] reads the first entry of a key and [obj_store]
    keeps one entry a key. *)

Unset Elimination Schemes.
Inductive json : Type :=
| JNull
| JBool (b : bool)
| JFloat (f : float)
| JInt (i : Z)
| JString (s : string)
| JArray (l : list json)
| JObject (m : list (string * json)).
Set Elimination Schemes.

(** [val, exists := obj[key]] *)
Fixpoint obj_lookup (key : string) (m : list (string * json)) : option json :=
  match m with
  | [] => None
  | (k, v) :: m' => if String.eqb k key then Some v else obj_lookup key m'
  end.

(** [obj[key] = v] *)
Fixpoint obj_store (key : string) (v : json) (m : list (string * json))
  : list (string * json) :=
  match m with
  | [] => [(key, v)]
  | (k, x) :: m' =>
      if String.eqb k key then (k, v) :: m' else (k, x) :: obj_store key v m'
  end.

(** [arr[i]]: a panic unless [0 <= i < len(arr)]. *)
Definition arr_index (arr : list json) (i : Z) : go json :=
  if (i <? 0)%Z then Panic
  else match arr !! Z.to_nat i with
       | Some v => Ret v
       | None => Panic
       end.

(** [arr[i] = v]: a panic unless [0 <= i < len(arr)]. *)
Definition arr_store (arr : list json) (i : Z) (v : json) : go (list json) :=
  if (i <? 0)%Z then Panic
  else if (Z.of_nat (length arr) <=? i)%Z then Panic
  else Ret (<[Z.to_nat i := v]> arr).

(** [fmt.Sprintf("%v", v)]: strings bare, [nil] as [<nil>], the elements
    of a slice between brackets, the entries of a map in the order of their
    keys. *)
Fixpoint Sprintf_v (v : json) : string :=
  match v with
  | JNull => "<nil>"
  | JBool b => if b then "true" else "false"
  | JFloat f => GoFmt.FormatFloat f
  | JInt i => GoFmt.FormatInt i
  | JString s => s
  | JArray l => "[" ++ String.concat " " (List.map Sprintf_v l) ++ "]"
  | JObject m =>
      let fix entry (m' : list (string * json)) (k : string) : string :=
        match m' with
        | [] => ""
        | (k', x) :: r =>
            if String.eqb k' k then k ++ ":" ++ Sprintf_v x else entry r k
        end in
      "map[" ++ String.concat " "
                  (List.map (entry m) (GoStrings.Strings (List.map fst m)))
      ++ "]"
  end.

(** ** The edit screen's path engine (parameter_edit.go) *)

Module ParameterEdit.

(** [pathPart] represents a part of a JSON path. *)
Record pathPart : Type := { key : string; isArray : bool; index : Z }.

(** The loop of [parsePath] over the bytes of the path that are still to
    be read. [skip] is the distance the loop has yet to jump: at a [[] that
    follows a key, [i += endBracket] moves to the closing bracket and the
    loop's own [i++] steps over it, so the [endBracket] bytes after the
    [[] are passed over. An unterminated [[] after a key returns [nil]. *)
Fixpoint parseLoop (rest : string) (skip : nat) (parts : list pathPart)
  (current : string) : list pathPart :=
  match rest with
  | EmptyString =>
      if GoStrings.is_empty current then parts
      else app parts [{| key := current; isArray := false; index := 0 |}]
  | String ch rest' =>
      match skip with
      | S skip' => parseLoop rest' skip' parts current
      | O =>
          if Ascii.eqb ch "." then
            if GoStrings.is_empty current then parseLoop rest' 0 parts current
            else parseLoop rest' 0
                   (app parts [{| key := current; isArray := false; index := 0 |}])
                   ""
          else if Ascii.eqb ch "[" then
            if GoStrings.is_empty current then parseLoop rest' 0 parts current
            else
              match GoStrings.Index rest "]" with
              | None => []
              | Some endBracket =>
                  let indexStr := GoStrings.slice rest 1 endBracket in
                  let index := default 0%Z (GoFmt.Sscanf_d indexStr) in
                  parseLoop rest' endBracket
                    (app parts [{| key := current; isArray := true; index := index |}])
                    ""
              end
          else if Ascii.eqb ch "]" then parseLoop rest' 0 parts current
          else parseLoop rest' 0 parts (current ++ GoStrings.string_of_byte ch)
      end
  end.

(** [parsePath] parses a dot notation path with array indices. The result
    is a slice: [nil] and the empty slice are both the empty list. *)
Definition parsePath (path : string) : list pathPart :=
  parseLoop path 0 [] "".

(** The loop of [getJSONValue]: [None] where the function returns [""]. An
    array part is applied to the current value itself: its key is not
    looked up. *)
Fixpoint resolve (current : json) (parts : list pathPart) : go (option json) :=
  match parts with
  | [] => Ret (Some current)
  | part :: parts' =>
      if isArray part then
        match current with
        | JArray arr =>
            if (Z.of_nat (length arr) <=? index part)%Z then Ret None
            else v ← arr_index arr (index part); resolve v parts'
        | _ => Ret None
        end
      else
        match current with
        | JObject obj =>
            match obj_lookup (key part) obj with
            | Some val => resolve val parts'
            | None => Ret None
            end
        | _ => Ret None
        end
  end.

(** The final conversion of [getJSONValue]. *)
Definition render (v : json) : string :=
  match v with
  | JString s => s
  | JNull => "null"
  | _ => Sprintf_v v
  end.

(** [getJSONValue] retrieves a value from JSON using dot notation path. *)
Definition getJSONValue (data : json) (path : string) : go string :=
  let parts := parsePath path in
  if (length parts =? 0)%nat then Ret ""
  else
    r ← resolve data parts;
    match r with
    | None => Ret ""
    | Some current => Ret (render current)
    end.

(** [parseNumber] attempts to parse a string as a number; [None] is its
    [nil]. *)
Definition parseNumber (s : string) : option json :=
  match GoFmt.Sscanf_f s with
  | Some f =>
      if PrimFloat.eqb (GoFmt.float_of_int64 (GoFmt.int64_of_float f)) f
      then Some (JInt (GoFmt.int64_of_float f))
      else Some (JFloat f)
  | None => None
  end.

(** The value [updateJSONValue] stores for the text [newValue]. *)
Definition parsedValue (newValue : string) : json :=
  if String.eqb newValue "null" then JNull
  else if String.eqb newValue "true" then JBool true
  else if String.eqb newValue "false" then JBool false
  else match parseNumber newValue with
       | Some num => num
       | None => JString newValue
       end.

(** What an update of a value yields: the value after the update, or the
    error it stopped with before changing anything. *)
Inductive updated : Type :=
| Stored (t : json)
| Failed (err : string).

(** The body of [updateJSONValue] below the parsing: [part] is the part at
    hand and [rest] the parts after it. While [rest] is not empty the loop
    moves [current] to the child that [part] names; at the last part the
    new value is stored. Slices and maps are references in Go, so the store
    is seen from the root: here every value on the way is rebuilt around
    its changed child. *)
Fixpoint updateAt (current : json) (part : pathPart) (rest : list pathPart)
  (v : json) : go updated :=
  match rest with
  | [] =>
      if isArray part then
        match current with
        | JArray arr =>
            if (Z.of_nat (length arr) <=? index part)%Z
            then Ret (Failed "index out of range at final position")
            else arr' ← arr_store arr (index part) v; Ret (Stored (JArray arr'))
        | _ => Ret (Failed "expected array at final position")
        end
      else
        match current with
        | JObject obj => Ret (Stored (JObject (obj_store (key part) v obj)))
        | _ => Ret (Failed "expected object at final position")
        end
  | next :: rest' =>
      if isArray part then
        match current with
        | JArray arr =>
            if (Z.of_nat (length arr) <=? index part)%Z
            then Ret (Failed ("index out of range at " ++ key part))
            else
              child ← arr_index arr (index part);
              r ← updateAt child next rest' v;
              match r with
              | Stored child' =>
                  arr' ← arr_store arr (index part) child'; Ret (Stored (JArray arr'))
              | Failed err => Ret (Failed err)
              end
        | _ => Ret (Failed ("expected array at " ++ key part))
        end
      else
        match current with
        | JObject obj =>
            match obj_lookup (key part) obj with
            | Some child =>
                r ← updateAt child next rest' v;
                match r with
                | Stored child' =>
                    Ret (Stored (JObject (obj_store (key part) child' obj)))
                | Failed err => Ret (Failed err)
                end
            | None => Ret (Failed ("key not found: " ++ key part))
            end
        | _ => Ret (Failed ("expected object at " ++ key part))
        end
  end.

(** [updateJSONValue] updates a value in nested JSON structure using dot
    notation path: the data after the call, and the error returned
    ([None] for [nil]). *)
Definition updateJSONValue (data : json) (path newValue : string)
  : go (json * option string) :=
  match parsePath path with
  | [] => Ret (data, Some ("invalid path: " ++ path))
  | part :: rest =>
      r ← updateAt data part rest (parsedValue newValue);
      match r with
      | Stored data' => Ret (data', None)
      | Failed err => Ret (data, Some err)
      end
  end.

End ParameterEdit.

(** ** The view screen's flattening (parameter_view.go) *)

Module ParameterView.

(** [jsonKeyItem] represents a JSON key in the list. *)
Record jsonKeyItem : Type := { key : string; value : string }.

(** [flattenJSONForView] flattens JSON for viewing with selection. For a
    map the keys are collected and sorted, and each key's value is looked
    up and flattened under the extended prefix ([at_key] is that lookup,
    folded into the recursion); a slice is ranged over with its index. *)
Fixpoint flattenJSONForView (data : json) (prefix : string) : list jsonKeyItem :=
  match data with
  | JObject v =>
      let keys := GoStrings.Strings (List.map fst v) in
      let fix at_key (m : list (string * json)) (k newPrefix : string)
        : list jsonKeyItem :=
        match m with
        | [] => []
        | (k', value) :: m' =>
            if String.eqb k' k then flattenJSONForView value newPrefix
            else at_key m' k newPrefix
        end in
      List.concat
        (List.map
           (fun k =>
              at_key v k (if GoStrings.is_empty prefix then k
                          else prefix ++ "." ++ k))
           keys)
  | JArray v =>
      let fix range (l : list json) (i : nat) : list jsonKeyItem :=
        match l with
        | [] => []
        | value :: l' =>
            app (flattenJSONForView value
                   (prefix ++ "[" ++ GoFmt.FormatInt (Z.of_nat i) ++ "]"))
                (range l' (S i))
        end in
      range v 0%nat
  | JString val => [{| key := prefix; value := val |}]
  | JNull => [{| key := prefix; value := "null" |}]
  | val => [{| key := prefix; value := Sprintf_v val |}]
  end.

End ParameterView.


(** ** Messages, commands and the collaborators of the screens *)

(** [aws.Parameter]; the time stamp is kept as a number. *)
Record AwsParameter : Type := {
  Name : string;
  Type_ : string;
  Value : string;
  ARN : string;
  Version : Z;
  LastModifiedDate : Z;
  DataType : string
}.

(** [aws.Client]: the handle is fixed by the profile and the region it
    was created for. *)
Record Client : Type := { client_profile : string; client_region : string }.

(** [config.RecentEntry] *)
Record RecentEntry : Type := { Profile : string; Region : string }.

#[global] Instance RecentEntry_eq_dec : EqDecision RecentEntry.
Proof. solve_decision. Defined.

(** The messages of package [types], the two messages of bubbletea that
    the sources inspect, and [LibMsg] for every other message of the
    libraries (spinner ticks, cursor blinks). A key message carries its
    [String()]. Go errors are kept as their text. *)
Inductive Msg : Type :=
| WindowSizeMsg (Width Height : Z)
| KeyMsg (key : string)
| ProfileSelectedMsg (profile : string)
| RegionSelectedMsg (region : string)
| ViewParameterMsg (param : AwsParameter)
| EditParameterMsg (param : AwsParameter) (JSONKey : string)
| BackMsg
| SaveSuccessMsg (param : AwsParameter)
| ErrorMsg (Err : string)
| ParametersLoadedMsg (Parameters : list AwsParameter)
| ParameterValueLoadedMsg (param : AwsParameter)
| SwitchRecentMsg (profile region : string)
| GoToProfileSelectionMsg
| LibMsg (name : string).

(** A [tea.Cmd]: [Nil] is the nil command, [Send msg] the closure that
    returns [msg], [Lib] a command of a library component, and the last
    three are the closures that call the parameter store and return its
    answer as a message. [PutParameter] keeps what the closure of
    [saveParameter] captures. *)
Inductive Cmd : Type :=
| Nil
| Send (msg : Msg)
| Quit
| Lib (name : string)
| Batch (cmds : list Cmd)
| ListParameters (client : Client)
| GetParameter (client : option Client) (name : string)
| PutParameter (client : option Client) (param : option AwsParameter) (newValue : string).

(** What the files under the configuration directory are asked to hold. *)
Inductive Effect : Type :=
| SaveRegionMapping (ProfileRegions : gmap string string)
| SaveRecentEntries (entries : list RecentEntry).

(** The message the closure of [saveParameter] returns once the store has
    answered with [result] ([None] for no error). *)
Definition putResult (param : AwsParameter) (newValue : string)
  (result : option string) : Msg :=
  match result with
  | Some err => ErrorMsg err
  | None =>
      SaveSuccessMsg
        {| Name := Name param; Type_ := Type_ param; Value := newValue;
           ARN := ARN param; Version := Version param;
           LastModifiedDate := LastModifiedDate param;
           DataType := DataType param |}
  end.

(** What lies outside the sources: the components of the bubbles library
    (their state and the methods the screens call), [strings.ToLower],
    the JSON codec, the creation of a client, and the three screens that no
    claim looks into. *)
Class Externals : Type := {
  textarea_Model : Type;
  textarea_Value : textarea_Model -> string;
  textarea_SetValue : textarea_Model -> string -> textarea_Model;
  textarea_Focus : textarea_Model -> textarea_Model;
  textarea_SetWidth : textarea_Model -> Z -> textarea_Model;
  textarea_SetHeight : textarea_Model -> Z -> textarea_Model;
  textarea_Update : textarea_Model -> Msg -> textarea_Model * Cmd;
  spinner_Model : Type;
  spinner_Update : spinner_Model -> Msg -> spinner_Model * Cmd;
  list_Model : Type;
  list_SetItems : list_Model -> list AwsParameter -> list_Model;
  list_SelectedItem : list_Model -> option AwsParameter;
  list_SetTitle : list_Model -> string -> list_Model;
  list_SetWidth : list_Model -> Z -> list_Model;
  list_SetHeight : list_Model -> Z -> list_Model;
  list_Update : list_Model -> Msg -> list_Model * Cmd;
  textinput_Model : Type;
  textinput_Value : textinput_Model -> string;
  textinput_SetValue : textinput_Model -> string -> textinput_Model;
  textinput_Focus : textinput_Model -> textinput_Model;
  textinput_Blur : textinput_Model -> textinput_Model;
  textinput_Update : textinput_Model -> Msg -> textinput_Model * Cmd;
  ToLower : string -> string;
  (** [json.Unmarshal] into an [interface{}]: [Some] when [err == nil]. *)
  Unmarshal : string -> option json;
  (** [json.MarshalIndent(v, "", "  ")]: the text, or the error. *)
  MarshalIndent : json -> string + string;
  (** [aws.NewClientWithRegion]: the client, or the error. *)
  NewClientWithRegion : string -> string -> Client + string;
  ProfileSelectorModel : Type;
  ProfileSelector_Update : ProfileSelectorModel -> Msg -> ProfileSelectorModel * Cmd;
  ProfileSelector_SetSize : ProfileSelectorModel -> Z -> Z -> ProfileSelectorModel;
  RegionSelectorModel : Type;
  RegionSelector_Update : RegionSelectorModel -> Msg -> RegionSelectorModel * Cmd;
  RegionSelector_SetSize : RegionSelectorModel -> Z -> Z -> RegionSelectorModel;
  RegionSelector_SetDefaultRegion : RegionSelectorModel -> string -> RegionSelectorModel;
  ParameterViewModel : Type;
  ParameterView_Update : ParameterViewModel -> Msg -> ParameterViewModel * Cmd;
  ParameterView_SetSize : ParameterViewModel -> Z -> Z -> ParameterViewModel;
  ParameterView_SetContext : ParameterViewModel -> string -> string -> ParameterViewModel;
  ParameterView_LoadParameter :
    ParameterViewModel -> AwsParameter -> option Client -> ParameterViewModel * Cmd
}.

(** [isValidJSON] checks if a string is valid JSON. *)
Definition isValidJSON `{Externals} (s : string) : bool :=
  match Unmarshal s with Some _ => true | None => false end.

(** [json.Unmarshal] into a [map[string]interface{}]: an object fills the
    map, [null] leaves it nil (the inner [None]) and is no error, any
    other value is an error. *)
Definition Unmarshal_map `{Externals} (s : string)
  : option (option (list (string * json))) :=
  match Unmarshal s with
  | Some (JObject m) => Some (Some m)
  | Some JNull => Some None
  | _ => None
  end.

(** ** The edit screen (parameter_edit.go) *)

Module ParameterEditModel.
Section WithExternals.
Context `{Externals}.

(** [ParameterEditModel] represents the parameter edit screen. [jsonData]
    is a map, nil ([None]) until a JSON object is loaded. *)
Record t : Type := {
  parameter : option AwsParameter;
  client : option Client;
  isJSON : bool;
  jsonData : option (list (string * json));
  textarea : textarea_Model;
  selectedKey : string;
  spinner : spinner_Model;
  saving : bool;
  err : option string;
  width : Z;
  height : Z;
  currentProfile : string;
  currentRegion : string
}.

Definition with_textarea (ta : textarea_Model) (m : t) : t :=
  {| parameter := parameter m; client := client m; isJSON := isJSON m;
     jsonData := jsonData m; textarea := ta; selectedKey := selectedKey m;
     spinner := spinner m; saving := saving m; err := err m;
     width := width m; height := height m;
     currentProfile := currentProfile m; currentRegion := currentRegion m |}.

Definition with_spinner (s : spinner_Model) (m : t) : t :=
  {| parameter := parameter m; client := client m; isJSON := isJSON m;
     jsonData := jsonData m; textarea := textarea m; selectedKey := selectedKey m;
     spinner := s; saving := saving m; err := err m;
     width := width m; height := height m;
     currentProfile := currentProfile m; currentRegion := currentRegion m |}.

Definition with_saving (b : bool) (e : option string) (m : t) : t :=
  {| parameter := parameter m; client := client m; isJSON := isJSON m;
     jsonData := jsonData m; textarea := textarea m; selectedKey := selectedKey m;
     spinner := spinner m; saving := b; err := e;
     width := width m; height := height m;
     currentProfile := currentProfile m; currentRegion := currentRegion m |}.

Definition with_jsonData (d : option (list (string * json))) (m : t) : t :=
  {| parameter := parameter m; client := client m; isJSON := isJSON m;
     jsonData := d; textarea := textarea m; selectedKey := selectedKey m;
     spinner := spinner m; saving := saving m; err := err m;
     width := width m; height := height m;
     currentProfile := currentProfile m; currentRegion := currentRegion m |}.

(** [SetSize] updates the dimensions of the parameter edit screen. *)
Definition SetSize (m : t) (w h : Z) : t :=
  {| parameter := parameter m; client := client m; isJSON := isJSON m;
     jsonData := jsonData m;
     textarea := textarea_SetHeight (textarea_SetWidth (textarea m) (w - 4)) (h - 10);
     selectedKey := selectedKey m;
     spinner := spinner m; saving := saving m; err := err m;
     width := w; height := h;
     currentProfile := currentProfile m; currentRegion := currentRegion m |}.

(** [SetContext] sets the profile and region context for the edit screen. *)
Definition SetContext (m : t) (profile region : string) : t :=
  {| parameter := parameter m; client := client m; isJSON := isJSON m;
     jsonData := jsonData m; textarea := textarea m; selectedKey := selectedKey m;
     spinner := spinner m; saving := saving m; err := err m;
     width := width m; height := height m;
     currentProfile := profile; currentRegion := region |}.

(** A map handed to the path engine as an [interface{}]: a nil map reads
    as a map without entries. *)
Definition as_value (d : option (list (string * json))) : json :=
  JObject (default [] d).

(** [updateJSONValue] on the map of the screen. A store into a nil map
    panics: that is the case of a nil map and a path of one key part. *)
Definition updateJSONData (d : option (list (string * json)))
  (path newValue : string) : go (option (list (string * json)) * option string) :=
  match d, ParameterEdit.parsePath path with
  | None, [part] =>
      if ParameterEdit.isArray part
      then Ret (None, Some "expected array at final position")
      else Panic
  | _, _ =>
      r ← ParameterEdit.updateJSONValue (as_value d) path newValue;
      match r with
      | (JObject m', None) => Ret (Some m', None)
      | (_, e) => Ret (d, e)
      end
  end.

(** [LoadParameter] loads a parameter for editing. *)
Definition LoadParameter (m : t) (param : AwsParameter) (cl : option Client)
  (jsonKey : string) : go (t * Cmd) :=
  let raw (m0 : t) :=
    {| parameter := Some param; client := cl; isJSON := false;
       jsonData := jsonData m0;
       textarea := textarea_Focus (textarea_SetValue (textarea m0) (Value param));
       selectedKey := jsonKey; spinner := spinner m0; saving := false; err := None;
       width := width m0; height := height m0;
       currentProfile := currentProfile m0; currentRegion := currentRegion m0 |} in
  if isValidJSON (Value param) && negb (GoStrings.is_empty jsonKey) then
    match Unmarshal_map (Value param) with
    | Some data =>
        value ← ParameterEdit.getJSONValue (as_value data) jsonKey;
        Ret ({| parameter := Some param; client := cl; isJSON := true;
                jsonData := data;
                textarea := textarea_Focus (textarea_SetValue (textarea m) value);
                selectedKey := jsonKey; spinner := spinner m; saving := false;
                err := None; width := width m; height := height m;
                currentProfile := currentProfile m;
                currentRegion := currentRegion m |},
             Lib "textarea.Blink")
    | None => Ret (raw m, Lib "textarea.Blink")
    end
  else Ret (raw m, Lib "textarea.Blink").

(** [saveParameter] saves the edited parameter value: the screen with
    [saving] set and the map as the write left it, and the command. *)
Definition saveParameter (m : t) : go (t * Cmd) :=
  let m1 := with_saving true None m in
  let newValue := textarea_Value (textarea m1) in
  if isJSON m1 && negb (GoStrings.is_empty (selectedKey m1)) then
    r ← updateJSONData (jsonData m1) (selectedKey m1) newValue;
    match r with
    | (_, Some e) => Ret (m1, Send (ErrorMsg ("failed to update JSON: " ++ e)))
    | (data', None) =>
        let m2 := with_jsonData data' m1 in
        match MarshalIndent (as_value data') with
        | inr e => Ret (m2, Send (ErrorMsg ("failed to marshal JSON: " ++ e)))
        | inl jsonBytes =>
            Ret (m2, Batch [Lib "spinner.Tick";
                            PutParameter (client m2) (parameter m2) jsonBytes])
        end
    end
  else
    Ret (m1, Batch [Lib "spinner.Tick";
                    PutParameter (client m1) (parameter m1) newValue]).

(** [Update] handles messages for the parameter edit screen. In
    [return m, m.saveParameter()] the call is evaluated before [m] is
    copied, as the Go compiler does: the screen returned is the one
    [saveParameter] has marked as saving. *)
Definition Update (m : t) (msg : Msg) : go (t * Cmd) :=
  match msg with
  | WindowSizeMsg w h => Ret (SetSize m w h, Nil)
  | SaveSuccessMsg _ => Ret (with_saving false (err m) m, Send BackMsg)
  | ErrorMsg e => Ret (with_saving false (Some e) m, Nil)
  | KeyMsg k =>
      if saving m then Ret (m, Nil)
      else if String.eqb k "esc" then Ret (m, Send BackMsg)
      else if String.eqb k "ctrl+s" then saveParameter m
      else if String.eqb k "ctrl+c" then Ret (m, Quit)
      else
        let '(ta, cmd) := textarea_Update (textarea m) msg in
        Ret (with_textarea ta m, cmd)
  | _ =>
      if saving m then
        let '(s, cmd) := spinner_Update (spinner m) msg in
        Ret (with_spinner s m, cmd)
      else Ret (m, Nil)
  end.

End WithExternals.
End ParameterEditModel.

(** ** Recent entries (package config) *)

(** Modelled from the spec: [config.AddRecentEntry], whose source is not
    among the files at hand. The spec has the pair promoted to the front of
    the list, without duplicates, and the list bounded by its capacity. *)
Definition AddRecentEntry (entries : list RecentEntry) (entry : RecentEntry)
  (max : nat) : list RecentEntry :=
  take max (entry :: List.filter (fun e => negb (bool_decide (e = entry))) entries).

(** ** The parameter list screen (parameter_list.go) *)

Module ParameterListModel.
Section WithExternals.
Context `{Externals}.

(** [ParameterListModel] represents the parameter list screen; its field
    [list] is [list_] here. *)
Record t : Type := {
  parameters : list AwsParameter;
  filtered : list AwsParameter;
  list_ : list_Model;
  searchInput : textinput_Model;
  spinner : spinner_Model;
  loading : bool;
  searchActive : bool;
  client : option Client;
  err : option string;
  currentProfile : string;
  currentRegion : string;
  recents : list RecentEntry
}.

Definition with_list (l : list_Model) (m : t) : t :=
  {| parameters := parameters m; filtered := filtered m; list_ := l;
     searchInput := searchInput m; spinner := spinner m; loading := loading m;
     searchActive := searchActive m; client := client m; err := err m;
     currentProfile := currentProfile m; currentRegion := currentRegion m;
     recents := recents m |}.

Definition with_filtered (f : list AwsParameter) (m : t) : t :=
  {| parameters := parameters m; filtered := f; list_ := list_ m;
     searchInput := searchInput m; spinner := spinner m; loading := loading m;
     searchActive := searchActive m; client := client m; err := err m;
     currentProfile := currentProfile m; currentRegion := currentRegion m;
     recents := recents m |}.

Definition with_search (active : bool) (ti : textinput_Model) (m : t) : t :=
  {| parameters := parameters m; filtered := filtered m; list_ := list_ m;
     searchInput := ti; spinner := spinner m; loading := loading m;
     searchActive := active; client := client m; err := err m;
     currentProfile := currentProfile m; currentRegion := currentRegion m;
     recents := recents m |}.

Definition with_spinner (s : spinner_Model) (m : t) : t :=
  {| parameters := parameters m; filtered := filtered m; list_ := list_ m;
     searchInput := searchInput m; spinner := s; loading := loading m;
     searchActive := searchActive m; client := client m; err := err m;
     currentProfile := currentProfile m; currentRegion := currentRegion m;
     recents := recents m |}.

(** [updateList] updates the list items with filtered parameters. *)
Definition updateList (m : t) : t :=
  with_list (list_SetItems (list_ m) (filtered m)) m.

(** [updateListTitle] updates the title to include profile and region. *)
Definition updateListTitle (m : t) : t :=
  let profile := if GoStrings.is_empty (currentProfile m) then "-"
                 else currentProfile m in
  let region := if GoStrings.is_empty (currentRegion m) then "-"
                else currentRegion m in
  let nf := GoFmt.FormatInt (Z.of_nat (length (filtered m))) in
  let np := GoFmt.FormatInt (Z.of_nat (length (parameters m))) in
  if negb (length (filtered m) =? length (parameters m))%nat then
    with_list
      (list_SetTitle (list_ m)
         (profile ++ " : " ++ region ++ " : Parameters (" ++ nf ++ "/" ++ np ++ ")"))
      m
  else
    with_list
      (list_SetTitle (list_ m)
         (profile ++ " : " ++ region ++ " : Parameters (" ++ np ++ ")"))
      m.

(** [filterParameters] filters the parameter list based on search input. *)
Definition filterParameters (m : t) : t :=
  let query := ToLower (textinput_Value (searchInput m)) in
  let m1 :=
    if GoStrings.is_empty query then with_filtered (parameters m) m
    else
      with_filtered
        (List.filter
           (fun p => bool_decide (is_Some (GoStrings.Index (ToLower (Name p)) query)))
           (parameters m))
        m in
  updateListTitle (updateList m1).

(** [LoadParameters] starts loading parameters from AWS. *)
Definition LoadParameters (m : t) (cl : Client) : t * Cmd :=
  ({| parameters := parameters m; filtered := filtered m; list_ := list_ m;
      searchInput := searchInput m; spinner := spinner m; loading := true;
      searchActive := searchActive m; client := Some cl; err := None;
      currentProfile := currentProfile m; currentRegion := currentRegion m;
      recents := recents m |},
   Batch [Lib "spinner.Tick"; ListParameters cl]).

(** [SetRecents] updates recent entries shown on the list screen. *)
Definition SetRecents (m : t) (entries : list RecentEntry) : t :=
  {| parameters := parameters m; filtered := filtered m; list_ := list_ m;
     searchInput := searchInput m; spinner := spinner m; loading := loading m;
     searchActive := searchActive m; client := client m; err := err m;
     currentProfile := currentProfile m; currentRegion := currentRegion m;
     recents := entries |}.

(** [SetContext] sets profile/region context for the list. *)
Definition SetContext (m : t) (profile region : string) : t :=
  updateListTitle
    {| parameters := parameters m; filtered := filtered m; list_ := list_ m;
       searchInput := searchInput m; spinner := spinner m; loading := loading m;
       searchActive := searchActive m; client := client m; err := err m;
       currentProfile := profile; currentRegion := region;
       recents := recents m |}.

(** [SetSize] updates the dimensions of the parameter list; the window
    size message is handled the same way. *)
Definition SetSize (m : t) (w h : Z) : t :=
  let h1 := (h - 7)%Z in
  let h2 := if searchActive m then (h1 - 2)%Z else h1 in
  let h3 := if (0 <? length (recents m))%nat then (h2 - 7)%Z else h2 in
  with_list (list_SetHeight (list_SetWidth (list_ m) w) h3) m.

(** The zero-based index that one of the keys "1" to "5" selects:
    [int(msg.String()[0] - '1')]. *)
Definition recentIndex (k : string) : option nat :=
  if String.eqb k "1" then Some 0%nat
  else if String.eqb k "2" then Some 1%nat
  else if String.eqb k "3" then Some 2%nat
  else if String.eqb k "4" then Some 3%nat
  else if String.eqb k "5" then Some 4%nat
  else None.

(** The end of [Update], reached by every message that no case returns
    from: the spinner is updated while loading, the list otherwise. *)
Definition updateComponents (m : t) (msg : Msg) : t * Cmd :=
  if loading m then
    let '(s, cmd) := spinner_Update (spinner m) msg in (with_spinner s m, cmd)
  else
    let '(l, cmd) := list_Update (list_ m) msg in (with_list l m, cmd).

(** The regular navigation keys of [Update], when the list is not loading
    and the search is not active. *)
Definition navigate (m : t) (k : string) (msg : Msg) : t * Cmd :=
  if String.eqb k "enter" || String.eqb k "e" then
    match list_SelectedItem (list_ m) with
    | Some param => (m, Send (ViewParameterMsg param))
    | None => updateComponents m msg
    end
  else if String.eqb k "p" then (m, Send GoToProfileSelectionMsg)
  else if String.eqb k "backspace" || String.eqb k "esc" then (m, Send BackMsg)
  else if String.eqb k "q" || String.eqb k "ctrl+c" then (m, Quit)
  else
    match recentIndex k with
    | Some idx =>
        match recents m !! idx with
        | Some e =>
            if String.eqb (Profile e) (currentProfile m)
               && String.eqb (Region e) (currentRegion m)
            then (m, Nil)
            else (m, Send (SwitchRecentMsg (Profile e) (Region e)))
        | None => updateComponents m msg
        end
    | None => updateComponents m msg
    end.

(** [Update] handles messages for the parameter list. *)
Definition Update (m : t) (msg : Msg) : t * Cmd :=
  match msg with
  | ParametersLoadedMsg params =>
      (updateListTitle
         (updateList
            {| parameters := params; filtered := params; list_ := list_ m;
               searchInput := searchInput m; spinner := spinner m;
               loading := false; searchActive := searchActive m;
               client := client m; err := err m;
               currentProfile := currentProfile m;
               currentRegion := currentRegion m; recents := recents m |}),
       Nil)
  | ErrorMsg e =>
      ({| parameters := parameters m; filtered := filtered m; list_ := list_ m;
          searchInput := searchInput m; spinner := spinner m; loading := false;
          searchActive := searchActive m; client := client m; err := Some e;
          currentProfile := currentProfile m; currentRegion := currentRegion m;
          recents := recents m |},
       Nil)
  | WindowSizeMsg w h => (SetSize m w h, Nil)
  | KeyMsg k =>
      if String.eqb k "/" && negb (searchActive m) && negb (loading m) then
        (with_search true (textinput_Focus (searchInput m)) m, Lib "textinput.Blink")
      else if searchActive m then
        if String.eqb k "esc" then
          (updateList
             (with_filtered (parameters m)
                (with_search false
                   (textinput_SetValue (textinput_Blur (searchInput m)) "") m)),
           Nil)
        else if String.eqb k "enter" then
          (with_search false (textinput_Blur (searchInput m)) m, Nil)
        else
          let '(ti, cmd) := textinput_Update (searchInput m) msg in
          (filterParameters (with_search (searchActive m) ti m), cmd)
      else if negb (loading m) then navigate m k msg
      else updateComponents m msg
  | _ => updateComponents m msg
  end.

End WithExternals.
End ParameterListModel.

(** ** The root model (package ui) *)

Module Ui.
Section WithExternals.
Context `{Externals}.

(** [Screen] represents the current screen being displayed. *)
Inductive Screen : Type :=
| ProfileSelectorScreen
| RegionSelectorScreen
| ParameterListScreen
| ParameterViewScreen
| ParameterEditScreen.

(** [Model] represents the root application model. The client pool and
    the region mapping are a map and a pointer to a map in Go; the model is
    their only holder, so they are kept as fields. *)
Record Model : Type := {
  currentScreen : Screen;
  profileSelector : ProfileSelectorModel;
  regionSelector : RegionSelectorModel;
  parameterList : ParameterListModel.t;
  parameterView : ParameterViewModel;
  parameterEdit : ParameterEditModel.t;
  profiles : list string;
  currentProfile : string;
  currentRegion : string;
  awsClients : gmap string Client;
  regionMapping : gmap string string;
  recents : list RecentEntry;
  switchingToRecent : bool;
  width : Z;
  height : Z
}.

Definition with_screen (s : Screen) (m : Model) : Model :=
  {| currentScreen := s; profileSelector := profileSelector m;
     regionSelector := regionSelector m; parameterList := parameterList m;
     parameterView := parameterView m; parameterEdit := parameterEdit m;
     profiles := profiles m; currentProfile := currentProfile m;
     currentRegion := currentRegion m; awsClients := awsClients m;
     regionMapping := regionMapping m; recents := recents m;
     switchingToRecent := switchingToRecent m;
     width := width m; height := height m |}.

Definition with_profileSelector (p : ProfileSelectorModel) (m : Model) : Model :=
  {| currentScreen := currentScreen m; profileSelector := p;
     regionSelector := regionSelector m; parameterList := parameterList m;
     parameterView := parameterView m; parameterEdit := parameterEdit m;
     profiles := profiles m; currentProfile := currentProfile m;
     currentRegion := currentRegion m; awsClients := awsClients m;
     regionMapping := regionMapping m; recents := recents m;
     switchingToRecent := switchingToRecent m;
     width := width m; height := height m |}.

Definition with_regionSelector (r : RegionSelectorModel) (m : Model) : Model :=
  {| currentScreen := currentScreen m; profileSelector := profileSelector m;
     regionSelector := r; parameterList := parameterList m;
     parameterView := parameterView m; parameterEdit := parameterEdit m;
     profiles := profiles m; currentProfile := currentProfile m;
     currentRegion := currentRegion m; awsClients := awsClients m;
     regionMapping := regionMapping m; recents := recents m;
     switchingToRecent := switchingToRecent m;
     width := width m; height := height m |}.

Definition with_parameterList (l : ParameterListModel.t) (m : Model) : Model :=
  {| currentScreen := currentScreen m; profileSelector := profileSelector m;
     regionSelector := regionSelector m; parameterList := l;
     parameterView := parameterView m; parameterEdit := parameterEdit m;
     profiles := profiles m; currentProfile := currentProfile m;
     currentRegion := currentRegion m; awsClients := awsClients m;
     regionMapping := regionMapping m; recents := recents m;
     switchingToRecent := switchingToRecent m;
     width := width m; height := height m |}.

Definition with_parameterView (v : ParameterViewModel) (m : Model) : Model :=
  {| currentScreen := currentScreen m; profileSelector := profileSelector m;
     regionSelector := regionSelector m; parameterList := parameterList m;
     parameterView := v; parameterEdit := parameterEdit m;
     profiles := profiles m; currentProfile := currentProfile m;
     currentRegion := currentRegion m; awsClients := awsClients m;
     regionMapping := regionMapping m; recents := recents m;
     switchingToRecent := switchingToRecent m;
     width := width m; height := height m |}.

Definition with_parameterEdit (e : ParameterEditModel.t) (m : Model) : Model :=
  {| currentScreen := currentScreen m; profileSelector := profileSelector m;
     regionSelector := regionSelector m; parameterList := parameterList m;
     parameterView := parameterView m; parameterEdit := e;
     profiles := profiles m; currentProfile := currentProfile m;
     currentRegion := currentRegion m; awsClients := awsClients m;
     regionMapping := regionMapping m; recents := recents m;
     switchingToRecent := switchingToRecent m;
     width := width m; height := height m |}.

(** The shared state: profile, region, clients, region mapping, recent
    entries and the flag that keeps them in place. *)
Definition with_shared (profile region : string) (clients : gmap string Client)
  (mapping : gmap string string) (rs : list RecentEntry) (flag : bool)
  (m : Model) : Model :=
  {| currentScreen := currentScreen m; profileSelector := profileSelector m;
     regionSelector := regionSelector m; parameterList := parameterList m;
     parameterView := parameterView m; parameterEdit := parameterEdit m;
     profiles := profiles m; currentProfile := profile;
     currentRegion := region; awsClients := clients;
     regionMapping := mapping; recents := rs;
     switchingToRecent := flag;
     width := width m; height := height m |}.

(** [updateCurrentScreen] routes the message to the currently active
    screen. *)
Definition updateCurrentScreen (m : Model) (msg : Msg) : go (Model * Cmd) :=
  match currentScreen m with
  | ProfileSelectorScreen =>
      let '(p, cmd) := ProfileSelector_Update (profileSelector m) msg in
      Ret (with_profileSelector p m, cmd)
  | RegionSelectorScreen =>
      let '(r, cmd) := RegionSelector_Update (regionSelector m) msg in
      Ret (with_regionSelector r m, cmd)
  | ParameterListScreen =>
      let '(l, cmd) := ParameterListModel.Update (parameterList m) msg in
      Ret (with_parameterList l m, cmd)
  | ParameterViewScreen =>
      let '(v, cmd) := ParameterView_Update (parameterView m) msg in
      Ret (with_parameterView v m, cmd)
  | ParameterEditScreen =>
      r ← ParameterEditModel.Update (parameterEdit m) msg;
      Ret (with_parameterEdit r.1 m, r.2)
  end.

(** [Update] handles messages for the root model: the model, the command
    and what was written to the configuration files on the way. *)
Definition Update (m : Model) (msg : Msg) : go (Model * Cmd * list Effect) :=
  match msg with
  | WindowSizeMsg w h =>
      let m1 :=
        {| currentScreen := currentScreen m;
           profileSelector := ProfileSelector_SetSize (profileSelector m) w h;
           regionSelector := RegionSelector_SetSize (regionSelector m) w h;
           parameterList := ParameterListModel.SetSize (parameterList m) w h;
           parameterView := ParameterView_SetSize (parameterView m) w h;
           parameterEdit := ParameterEditModel.SetSize (parameterEdit m) w h;
           profiles := profiles m; currentProfile := currentProfile m;
           currentRegion := currentRegion m; awsClients := awsClients m;
           regionMapping := regionMapping m; recents := recents m;
           switchingToRecent := switchingToRecent m;
           width := w; height := h |} in
      r ← updateCurrentScreen m1 msg; Ret (r, [])
  | ProfileSelectedMsg profile =>
      let m1 :=
        with_screen RegionSelectorScreen
          (with_shared profile (currentRegion m) (awsClients m) (regionMapping m)
             (recents m) (switchingToRecent m) m) in
      match regionMapping m !! profile with
      | Some lastRegion =>
          Ret (with_regionSelector
                 (RegionSelector_SetDefaultRegion (regionSelector m1) lastRegion) m1,
               Nil, [])
      | None => Ret (m1, Nil, [])
      end
  | RegionSelectedMsg region =>
      let mapping := <[currentProfile m := region]> (regionMapping m) in
      let m1 :=
        with_screen ParameterListScreen
          (with_shared (currentProfile m) region (awsClients m) mapping
             (recents m) (switchingToRecent m) m) in
      match NewClientWithRegion (currentProfile m) region with
      | inr _ => Ret (m1, Nil, [SaveRegionMapping mapping])
      | inl cl =>
          let m2 :=
            with_shared (currentProfile m1) (currentRegion m1)
              (<[currentProfile m1 := cl]> (awsClients m1)) (regionMapping m1)
              (recents m1) (switchingToRecent m1) m1 in
          let '(l, cmd) :=
            ParameterListModel.LoadParameters
              (ParameterListModel.SetContext (parameterList m2)
                 (currentProfile m2) region)
              cl in
          Ret (with_parameterList l m2, cmd, [SaveRegionMapping mapping])
      end
  | ParametersLoadedMsg params =>
      let promote := (0 <? length params)%nat && negb (switchingToRecent m) in
      let rs :=
        if promote
        then AddRecentEntry (recents m)
               {| Profile := currentProfile m; Region := currentRegion m |} 5
        else recents m in
      let m1 :=
        with_shared (currentProfile m) (currentRegion m) (awsClients m)
          (regionMapping m) rs false
          (if promote
           then with_parameterList
                  (ParameterListModel.SetRecents (parameterList m) rs) m
           else m) in
      r ← updateCurrentScreen m1 msg;
      Ret (r, if promote then [SaveRecentEntries rs] else [])
  | ViewParameterMsg param =>
      let m1 := with_screen ParameterViewScreen m in
      let '(v, cmd) :=
        ParameterView_LoadParameter
          (ParameterView_SetContext (parameterView m1)
             (currentProfile m1) (currentRegion m1))
          param (awsClients m1 !! currentProfile m1) in
      Ret (with_parameterView v m1, cmd, [])
  | EditParameterMsg param JSONKey =>
      let m1 := with_screen ParameterEditScreen m in
      r ← ParameterEditModel.LoadParameter
            (ParameterEditModel.SetContext (parameterEdit m1)
               (currentProfile m1) (currentRegion m1))
            param (awsClients m1 !! currentProfile m1) JSONKey;
      Ret (with_parameterEdit r.1 m1, r.2, [])
  | SaveSuccessMsg param =>
      let '(v, cmd) :=
        ParameterView_LoadParameter
          (ParameterView_SetContext (parameterView m)
             (currentProfile m) (currentRegion m))
          param (awsClients m !! currentProfile m) in
      Ret (with_screen ParameterViewScreen (with_parameterView v m), cmd, [])
  | SwitchRecentMsg profile region =>
      let mapping := <[profile := region]> (regionMapping m) in
      let m1 :=
        with_shared profile region (awsClients m) mapping (recents m)
          (switchingToRecent m) m in
      match NewClientWithRegion profile region with
      | inr _ => Ret (m1, Nil, [SaveRegionMapping mapping])
      | inl cl =>
          let m2 :=
            with_shared profile region (<[profile := cl]> (awsClients m1))
              mapping (recents m1) true m1 in
          let '(l, cmd) :=
            ParameterListModel.LoadParameters
              (ParameterListModel.SetContext (parameterList m2) profile region)
              cl in
          Ret (with_screen ParameterListScreen (with_parameterList l m2), cmd,
               [SaveRegionMapping mapping])
      end
  | GoToProfileSelectionMsg =>
      Ret (with_screen ProfileSelectorScreen m, Nil, [])
  | BackMsg =>
      Ret (match currentScreen m with
           | RegionSelectorScreen => with_screen ProfileSelectorScreen m
           | ParameterListScreen => with_screen RegionSelectorScreen m
           | ParameterViewScreen => with_screen ParameterListScreen m
           | ParameterEditScreen => with_screen ParameterViewScreen m
           | ProfileSelectorScreen => m
           end, Nil, [])
  | KeyMsg k =>
      if String.eqb k "ctrl+c" then Ret (m, Quit, [])
      else r ← updateCurrentScreen m msg; Ret (r, [])
  | _ => r ← updateCurrentScreen m msg; Ret (r, [])
  end.

End WithExternals.
End Ui.

(** ** The list form of the flattening (parameter_view.go) *)

(** [flattenJSON] flattens a JSON structure into dot notation key-value
    pairs, each one line of text. *)
Fixpoint flattenJSON (data : json) (prefix : string) : list string :=
  match data with
  | JObject v =>
      let keys := GoStrings.Strings (List.map fst v) in
      let fix at_key (m : list (string * json)) (k newPrefix : string)
        : list string :=
        match m with
        | [] => []
        | (k', value) :: m' =>
            if String.eqb k' k then flattenJSON value newPrefix
            else at_key m' k newPrefix
        end in
      List.concat
        (List.map
           (fun k =>
              at_key v k (if GoStrings.is_empty prefix then k
                          else prefix ++ "." ++ k))
           keys)
  | JArray v =>
      let fix range (l : list json) (i : nat) : list string :=
        match l with
        | [] => []
        | value :: l' =>
            app (flattenJSON value
                   (prefix ++ "[" ++ GoFmt.FormatInt (Z.of_nat i) ++ "]"))
                (range l' (S i))
        end in
      range v 0%nat
  | JString val => [prefix ++ ": " ++ val]
  | JNull => [prefix ++ ": " ++ "null"]
  | val => [prefix ++ ": " ++ Sprintf_v val]
  end.


(** ** The view screen (parameter_view.go) *)

(** [s[i]] on a slice: a panic unless [0 <= i < len(s)]. *)
Definition slice_index {A : Type} (s : list A) (i : Z) : go A :=
  if (i <? 0)%Z then Panic
  else match s !! Z.to_nat i with
       | Some x => Ret x
       | None => Panic
       end.

(** What the view screen uses of the libraries besides [Externals]: the
    viewport of bubbles, the fresh spinner, and the styles of lipgloss as
    the functions that render a text. *)
Class ViewExternals `{Externals} : Type := {
  viewport_Model : Type;
  (** [viewport.New(w, h)] with the padding style of the screen set. *)
  viewport_New : Z -> Z -> viewport_Model;
  viewport_SetContent : viewport_Model -> string -> viewport_Model;
  viewport_SetWidth : viewport_Model -> Z -> viewport_Model;
  viewport_SetHeight : viewport_Model -> Z -> viewport_Model;
  viewport_Width : viewport_Model -> Z;
  viewport_Update : viewport_Model -> Msg -> viewport_Model * Cmd;
  spinner_New : spinner_Model;
  LabelStyle_Render : string -> string;
  (** The style of the selected line. *)
  Selected_Render : string -> string;
  (** The bordered box of the given width. *)
  Box_Render : Z -> string -> string
}.

Module ParameterViewModel.
Section WithExternals.
Context `{ViewExternals}.

(** The messages the screen handles: those of package [types] and of
    bubbletea, and its own two. *)
Inductive ViewMsg : Type :=
| Shared (msg : Msg)
| copyResultMsg (Err : option string) (Text : string)
| clearStatusMsg.

(** The commands the screen returns: those of [Cmd]; the closure that
    returns an [EditParameterMsg] with the parameter pointer of the
    screen, nil or not; and the batch of the closure that writes a text to
    the clipboard and the one that clears the status two seconds later. *)
Inductive ViewCmd : Type :=
| Plain (cmd : Cmd)
| SendEdit (param : option AwsParameter) (JSONKey : string)
| CopyThenClear (toCopy : string).

(** [ParameterViewModel] represents the parameter view screen. *)
Record t : Type := {
  parameter : option AwsParameter;
  client : option Client;
  viewport : viewport_Model;
  spinner : spinner_Model;
  loading : bool;
  ready : bool;
  err : option string;
  status : string;
  isJSON : bool;
  jsonKeys : list ParameterView.jsonKeyItem;
  currentProfile : string;
  currentRegion : string;
  selectedIndex : Z
}.

Definition with_viewport (vp : viewport_Model) (m : t) : t :=
  {| parameter := parameter m; client := client m; viewport := vp;
     spinner := spinner m; loading := loading m; ready := ready m;
     err := err m; status := status m; isJSON := isJSON m;
     jsonKeys := jsonKeys m; currentProfile := currentProfile m;
     currentRegion := currentRegion m; selectedIndex := selectedIndex m |}.

Definition with_spinner (s : spinner_Model) (m : t) : t :=
  {| parameter := parameter m; client := client m; viewport := viewport m;
     spinner := s; loading := loading m; ready := ready m;
     err := err m; status := status m; isJSON := isJSON m;
     jsonKeys := jsonKeys m; currentProfile := currentProfile m;
     currentRegion := currentRegion m; selectedIndex := selectedIndex m |}.

Definition with_status (s : string) (m : t) : t :=
  {| parameter := parameter m; client := client m; viewport := viewport m;
     spinner := spinner m; loading := loading m; ready := ready m;
     err := err m; status := s; isJSON := isJSON m;
     jsonKeys := jsonKeys m; currentProfile := currentProfile m;
     currentRegion := currentRegion m; selectedIndex := selectedIndex m |}.

Definition with_selectedIndex (i : Z) (m : t) : t :=
  {| parameter := parameter m; client := client m; viewport := viewport m;
     spinner := spinner m; loading := loading m; ready := ready m;
     err := err m; status := status m; isJSON := isJSON m;
     jsonKeys := jsonKeys m; currentProfile := currentProfile m;
     currentRegion := currentRegion m; selectedIndex := i |}.

(** [NewParameterView] creates a new parameter view screen. *)
Definition NewParameterView : t :=
  {| parameter := None; client := None; viewport := viewport_New 80 20;
     spinner := spinner_New; loading := false; ready := false;
     err := None; status := ""; isJSON := false; jsonKeys := [];
     currentProfile := ""; currentRegion := ""; selectedIndex := 0 |}.

(** [SetContext] sets the profile and region context for the view
    screen. *)
Definition SetContext (m : t) (profile region : string) : t :=
  {| parameter := parameter m; client := client m; viewport := viewport m;
     spinner := spinner m; loading := loading m; ready := ready m;
     err := err m; status := status m; isJSON := isJSON m;
     jsonKeys := jsonKeys m; currentProfile := profile;
     currentRegion := region; selectedIndex := selectedIndex m |}.

(** [SetSize] updates the dimensions of the parameter view. *)
Definition SetSize (m : t) (width height : Z) : t :=
  with_viewport
    (viewport_SetHeight (viewport_SetWidth (viewport m) (width - 4)) (height - 10))
    m.

(** [LoadParameter] loads a parameter for viewing (fetches full details
    with value). *)
Definition LoadParameter (m : t) (param : AwsParameter) (cl : option Client)
  : t * Cmd :=
  ({| parameter := Some param; client := cl; viewport := viewport m;
      spinner := spinner m; loading := true; ready := ready m;
      err := None; status := ""; isJSON := isJSON m;
      jsonKeys := jsonKeys m; currentProfile := currentProfile m;
      currentRegion := currentRegion m; selectedIndex := selectedIndex m |},
   Batch [Lib "spinner.Tick"; GetParameter cl (Name param)]).

(** The lines of the value in [formatParameterDetails]: the selected one
    marked and styled, the others indented. *)
Fixpoint valueLines (items : list ParameterView.jsonKeyItem) (i selected : Z)
  : list string :=
  match items with
  | [] => []
  | item :: items' =>
      let line := ParameterView.key item ++ ": " ++ ParameterView.value item in
      (if (i =? selected)%Z then Selected_Render ("▸ " ++ line) else "  " ++ line)
        :: valueLines items' (i + 1) selected
  end.

(** [formatParameterDetails] formats the parameter details for display. *)
Definition formatParameterDetails (m : t) (p : AwsParameter) : string :=
  let valueContent :=
    if isJSON m && (0 <? length (jsonKeys m))%nat
    then String.concat (String "010"%char "") (valueLines (jsonKeys m) 0 (selectedIndex m))
    else Value p in
  LabelStyle_Render "Type: " ++ Type_ p ++ String "010"%char (String "010"%char "")
  ++ LabelStyle_Render "Value:" ++ String "010"%char (String "010"%char "")
  ++ Box_Render (viewport_Width (viewport m) - 6) valueContent.

(** [m.viewport.SetContent(m.formatParameterDetails(m.parameter))]: the
    dereference of a nil parameter panics. *)
Definition refresh (m : t) : go t :=
  match parameter m with
  | Some p => Ret (with_viewport (viewport_SetContent (viewport m)
                                    (formatParameterDetails m p)) m)
  | None => Panic
  end.

(** The end of [Update]: the spinner is updated while loading, the
    viewport otherwise. *)
Definition updateComponents (m : t) (msg : Msg) : t * ViewCmd :=
  if loading m then
    let '(s, cmd) := spinner_Update (spinner m) msg in (with_spinner s m, Plain cmd)
  else
    let '(vp, cmd) := viewport_Update (viewport m) msg in
    (with_viewport vp m, Plain cmd).

(** The keys of [Update], when the screen is not loading. *)
Definition handleKey (m : t) (k : string) : go (t * ViewCmd) :=
  let onKeys := isJSON m && (0 <? length (jsonKeys m))%nat in
  if String.eqb k "e" then
    if onKeys then
      item ← slice_index (jsonKeys m) (selectedIndex m);
      Ret (m, SendEdit (parameter m) (ParameterView.key item))
    else Ret (m, SendEdit (parameter m) "")
  else if String.eqb k "c" then
    match parameter m with
    | None => Ret (m, Plain Nil)
    | Some p =>
        if onKeys then
          item ← slice_index (jsonKeys m) (selectedIndex m);
          Ret (m, CopyThenClear (ParameterView.value item))
        else Ret (m, CopyThenClear (Value p))
    end
  else if (String.eqb k "up" || String.eqb k "k") && onKeys then
    if (0 <? selectedIndex m)%Z then
      m' ← refresh (with_selectedIndex (selectedIndex m - 1) m); Ret (m', Plain Nil)
    else Ret (m, Plain Nil)
  else if (String.eqb k "down" || String.eqb k "j") && onKeys then
    if (selectedIndex m <? Z.of_nat (length (jsonKeys m)) - 1)%Z then
      m' ← refresh (with_selectedIndex (selectedIndex m + 1) m); Ret (m', Plain Nil)
    else Ret (m, Plain Nil)
  else if String.eqb k "backspace" || String.eqb k "esc" then
    Ret (m, Plain (Send BackMsg))
  else if String.eqb k "q" || String.eqb k "ctrl+c" then Ret (m, Plain Quit)
  else Ret (updateComponents m (KeyMsg k)).

(** [Update] handles messages for the parameter view. *)
Definition Update (m : t) (msg : ViewMsg) : go (t * ViewCmd) :=
  match msg with
  | Shared (ParameterValueLoadedMsg param) =>
      let isj := isValidJSON (Value param) in
      let keys :=
        if isj then
          match Unmarshal (Value param) with
          | Some data => ParameterView.flattenJSONForView data ""
          | None => jsonKeys m
          end
        else jsonKeys m in
      let m1 :=
        {| parameter := Some param; client := client m; viewport := viewport m;
           spinner := spinner m; loading := false; ready := ready m;
           err := err m; status := status m; isJSON := isj;
           jsonKeys := keys; currentProfile := currentProfile m;
           currentRegion := currentRegion m; selectedIndex := 0 |} in
      Ret (with_viewport
             (viewport_SetContent (viewport m1) (formatParameterDetails m1 param)) m1,
           Plain Nil)
  | Shared (ErrorMsg e) =>
      Ret ({| parameter := parameter m; client := client m; viewport := viewport m;
              spinner := spinner m; loading := false; ready := ready m;
              err := Some e; status := status m; isJSON := isJSON m;
              jsonKeys := jsonKeys m; currentProfile := currentProfile m;
              currentRegion := currentRegion m;
              selectedIndex := selectedIndex m |},
           Plain Nil)
  | copyResultMsg e _ =>
      Ret (with_status
             (match e with
              | Some text => "Copy failed: " ++ text
              | None => "Copied to clipboard"
              end) m,
           Plain Nil)
  | clearStatusMsg => Ret (with_status "" m, Plain Nil)
  | Shared (WindowSizeMsg w h) =>
      if negb (ready m) then
        let m1 := with_viewport (viewport_New (w - 4) (h - 10)) m in
        let m2 :=
          match parameter m1 with
          | Some p =>
              with_viewport
                (viewport_SetContent (viewport m1) (formatParameterDetails m1 p)) m1
          | None => m1
          end in
        Ret ({| parameter := parameter m2; client := client m2;
                viewport := viewport m2; spinner := spinner m2;
                loading := loading m2; ready := true; err := err m2;
                status := status m2; isJSON := isJSON m2; jsonKeys := jsonKeys m2;
                currentProfile := currentProfile m2;
                currentRegion := currentRegion m2;
                selectedIndex := selectedIndex m2 |},
             Plain Nil)
      else
        Ret (with_viewport
               (viewport_SetHeight (viewport_SetWidth (viewport m) (w - 4)) (h - 10))
               m,
             Plain Nil)
  | Shared (KeyMsg k) =>
      if loading m then Ret (m, Plain Nil) else handleKey m k
  | Shared msg' => Ret (updateComponents m msg')
  end.

End WithExternals.
End ParameterViewModel.

(** ** The pool of clients (client.go) *)

Section ClientPool.
Context `{Externals}.

(** [NewClient] creates an AWS SSM client for the specified profile. *)
Definition NewClient (profile : string) : Client + string :=
  NewClientWithRegion profile "".

(** The loop of [NewClientPoolWithRegion] over the profiles still to come,
    the pool filled so far at hand: the first client that cannot be
    created ends it with the error. *)
Fixpoint poolLoop (profiles : list string) (region : string)
  (pool : gmap string Client) : gmap string Client + string :=
  match profiles with
  | [] => inl pool
  | profile :: rest =>
      match NewClientWithRegion profile region with
      | inr err =>
          inr ("failed to create client for profile " ++ profile ++ ": " ++ err)
      | inl client => poolLoop rest region (<[profile := client]> pool)
      end
  end.

(** [NewClientPoolWithRegion] creates AWS clients for multiple profiles
    with optional region override. *)
Definition NewClientPoolWithRegion (profiles : list string) (region : string)
  : gmap string Client + string :=
  poolLoop profiles region ∅.

(** [NewClientPool] creates AWS clients for multiple profiles. *)
Definition NewClientPool (profiles : list string) : gmap string Client + string :=
  NewClientPoolWithRegion profiles "".

End ClientPool.

(** ** The profiles of the environment (package config) *)

(** [strings.Split(s, sep)] for a separator of one byte: the pieces of [s]
    between the separators, one more than there are separators. *)
Fixpoint splitLoop (sep : ascii) (s : string) (piece : string) : list string :=
  match s with
  | EmptyString => [piece]
  | String c r =>
      if Ascii.eqb c sep then piece :: splitLoop sep r ""
      else splitLoop sep r (piece ++ String c "")
  end.

Definition Split (s : string) (sep : ascii) : list string := splitLoop sep s "".

(** [strings.TrimSpace] is left to the library. *)
Class StringsPackage : Type := { TrimSpace : string -> string }.

(** [GetProfilesFromEnv] reads PS9S_AWS_PROFILES environment variable and
    returns a list of AWS profile names; [getenv] is [os.Getenv]. *)
Definition GetProfilesFromEnv `{StringsPackage} (getenv : string -> string)
  : list string + string :=
  let envValue := getenv "PS9S_AWS_PROFILES" in
  if GoStrings.is_empty envValue then
    let currentProfile := getenv "AWS_PROFILE" in
    inl [if GoStrings.is_empty currentProfile then "default" else currentProfile]
  else
    let profiles :=
      List.filter (fun trimmed => negb (GoStrings.is_empty trimmed))
        (List.map TrimSpace (Split envValue ",")) in
    if (length profiles =? 0)%nat
    then inr "no valid profiles found in PS9S_AWS_PROFILES"
    else inl profiles.

(** ** The vocabulary of the statements *)

(** A byte of a key that [parsePath] appends unchanged: ASCII, and none
    of the three bytes the grammar reserves. *)
Definition plain_byte (c : ascii) : bool :=
  (GoStrings.byte_val c <? 128)%N
  && negb (Ascii.eqb c ".") && negb (Ascii.eqb c "[") && negb (Ascii.eqb c "]").

Definition plain (s : string) : bool :=
  forallb plain_byte (list_ascii_of_string s).

(** A key token: not empty, plain bytes only. *)
Definition key_token (s : string) : bool :=
  negb (GoStrings.is_empty s) && plain s.

(** No closing bracket in the text. *)
Definition unclosed (s : string) : bool :=
  forallb (fun c => negb (Ascii.eqb c "]")) (list_ascii_of_string s).

Definition keyPart (k : string) : ParameterEdit.pathPart :=
  {| ParameterEdit.key := k; ParameterEdit.isArray := false; ParameterEdit.index := 0 |}.

Definition arrayPart (k : string) (i : Z) : ParameterEdit.pathPart :=
  {| ParameterEdit.key := k; ParameterEdit.isArray := true; ParameterEdit.index := i |}.


(** Every map of the value has one entry a key, as a Go map has. *)
Fixpoint unique_keys (t : json) : Prop :=
  match t with
  | JArray l =>
      (fix all (l : list json) : Prop :=
         match l with
         | [] => True
         | x :: l' => unique_keys x /\ all l'
         end) l
  | JObject m =>
      List.NoDup (List.map fst m)
      /\ (fix all (m : list (string * json)) : Prop :=
            match m with
            | [] => True
            | e :: m' => unique_keys (snd e) /\ all m'
            end) m
  | _ => True
  end.

(** The same value with the entries of its maps in another order, at any
    depth: what two iterations over the same Go maps may show. *)
#[local] Unset Elimination Schemes.
Inductive reordered : json -> json -> Prop :=
| reordered_refl (t : json) : reordered t t
| reordered_array (l1 l2 : list json) :
    Forall2 reordered l1 l2 -> reordered (JArray l1) (JArray l2)
| reordered_object (m1 m2 m3 : list (string * json)) :
    Forall2 (fun e1 e2 => fst e1 = fst e2 /\ reordered (snd e1) (snd e2)) m1 m2 ->
    Permutation m2 m3 ->
    reordered (JObject m1) (JObject m3).
#[local] Set Elimination Schemes.

(** The prefix under which the value of key [k] is flattened. *)
Definition keyPrefix (prefix k : string) : string :=
  if GoStrings.is_empty prefix then k else prefix ++ "." ++ k.

(** The prefix under which element [i] of a slice is flattened. *)
Definition indexPrefix (prefix : string) (i : nat) : string :=
  prefix ++ "[" ++ GoFmt.FormatInt (Z.of_nat i) ++ "]".

(** The elements of a slice from index [i] on, flattened in turn. *)
Fixpoint flattenFrom (prefix : string) (l : list json) (i : nat)
  : list ParameterView.jsonKeyItem :=
  match l with
  | [] => []
  | v :: l' =>
      app (ParameterView.flattenJSONForView v (indexPrefix prefix i))
          (flattenFrom prefix l' (S i))
  end.

(** The value of key [k], flattened; nothing for a key the map lacks. *)
Definition flattenAt (prefix : string) (m : list (string * json)) (k : string)
  : list ParameterView.jsonKeyItem :=
  match obj_lookup k m with
  | Some v => ParameterView.flattenJSONForView v (keyPrefix prefix k)
  | None => []
  end.

(** A message that is neither a completed listing nor a switch to a
    recent entry. *)
Definition keeps_recency (msg : Msg) : bool :=
  match msg with
  | ParametersLoadedMsg _ | SwitchRecentMsg _ _ => false
  | _ => true
  end.

(** The root model after the messages of a list, handled one after
    another. *)
Fixpoint after_messages `{Externals} (m : Ui.Model) (msgs : list Msg)
  : go Ui.Model :=
  match msgs with
  | [] => Ret m
  | msg :: msgs' => r ← Ui.Update m msg; after_messages r.1.1 msgs'
  end.

(** An effect that writes the recent entries to their file. *)
Definition saves_recents (eff : Effect) : bool :=
  match eff with
  | SaveRecentEntries _ => true
  | SaveRegionMapping _ => false
  end.

(** One of the three bytes the path grammar reserves. *)
Definition reserved (c : ascii) : bool :=
  Ascii.eqb c "." || Ascii.eqb c "[" || Ascii.eqb c "]".

Definition unreserved (s : string) : bool :=
  forallb (fun c => negb (reserved c)) (list_ascii_of_string s).

(** A part as [parsePath] builds them: a key that is not empty and holds
    no reserved byte, and index 0 in a key part. *)
Definition part_ok (p : ParameterEdit.pathPart) : bool :=
  negb (GoStrings.is_empty (ParameterEdit.key p))
  && unreserved (ParameterEdit.key p)
  && (ParameterEdit.isArray p || (ParameterEdit.index p =? 0)%Z).

(** Two parts that name the same child of a value. *)
Definition same_child (p q : ParameterEdit.pathPart) : bool :=
  if ParameterEdit.isArray p
  then ParameterEdit.isArray q && (ParameterEdit.index p =? ParameterEdit.index q)%Z
  else negb (ParameterEdit.isArray q)
       && String.eqb (ParameterEdit.key p) (ParameterEdit.key q).


(** The word [w], written in lower case, with the letters at which [caps]
    holds in upper case. *)
Fixpoint in_case (caps : list bool) (w : string) : string :=
  match w, caps with
  | String c r, b :: caps' =>
      String (if b then ascii_of_N (GoStrings.byte_val c - 32) else c)
        (in_case caps' r)
  | _, _ => w
  end.

(** The line of the list form for an item of the view. *)
Definition line_of (item : ParameterView.jsonKeyItem) : string :=
  ParameterView.key item ++ ": " ++ ParameterView.value item.

(** The bytes of a key as [parsePath] appends them: each byte converted
    to a string on its own, so that a byte from 0x80 on becomes two. *)
Fixpoint widen (s : string) : string :=
  match s with
  | EmptyString => EmptyString
  | String c r => GoStrings.string_of_byte c ++ widen r
  end.

Definition ascii_only (s : string) : bool :=
  forallb (fun c => (GoStrings.byte_val c <? 128)%N) (list_ascii_of_string s).




(** The root model after [n] Back messages in a row. *)
Fixpoint after_backs `{Externals} (n : nat) (m : Ui.Model) : go Ui.Model :=
  match n with
  | O => Ret m
  | S n' => r ← Ui.Update m BackMsg; after_backs n' r.1.1
  end.


(** The selection of the view screen is in order: the index is not
    negative, it points into the items or is 0, and a screen that shows
    items has a parameter. *)
Definition selection_ok `{ViewExternals} (m : ParameterViewModel.t) : bool :=
  (0 <=? ParameterViewModel.selectedIndex m)%Z
  && ((ParameterViewModel.selectedIndex m
       <? Z.of_nat (length (ParameterViewModel.jsonKeys m)))%Z
      || (ParameterViewModel.selectedIndex m =? 0)%Z)
  && (negb (ParameterViewModel.isJSON m
            && (0 <? length (ParameterViewModel.jsonKeys m))%nat)
      || bool_decide (is_Some (ParameterViewModel.parameter m))).

(** What the root model does with the view screen: it routes a message to
    it, loads a parameter into it, resizes it, sets its context. *)
Inductive ViewEvent `{ViewExternals} : Type :=
| OnMessage (msg : ParameterViewModel.ViewMsg)
| OnLoad (param : AwsParameter) (cl : option Client)
| OnResize (width height : Z)
| OnContext (profile region : string).

Definition view_step `{ViewExternals} (m : ParameterViewModel.t) (ev : ViewEvent)
  : go ParameterViewModel.t :=
  match ev with
  | OnMessage msg => r ← ParameterViewModel.Update m msg; Ret r.1
  | OnLoad param cl => Ret (ParameterViewModel.LoadParameter m param cl).1
  | OnResize w h => Ret (ParameterViewModel.SetSize m w h)
  | OnContext p r => Ret (ParameterViewModel.SetContext m p r)
  end.

Fixpoint view_run `{ViewExternals} (m : ParameterViewModel.t) (evs : list ViewEvent)
  : go ParameterViewModel.t :=
  match evs with
  | [] => Ret m
  | ev :: evs' => m' ← view_step m ev; view_run m' evs'
  end.

(** A key pressed on the view screen. *)
Definition pressed `{ViewExternals} (k : string) : ViewEvent :=
  OnMessage (ParameterViewModel.Shared (KeyMsg k)).

(** ** Values for the scenarios *)

(** The values the scenarios are run on. *)
Definition server_tree : json :=
  JObject [("server", JObject [("port", JFloat 8080); ("host", JString "x")])].

Definition items_tree : json :=
  JObject [("k", JArray [JString "a"; JString "b"; JString "c"]);
           ("k.items[abc]", JFloat 1); ("k.items[-1]", JFloat 2)].

(** The value of the indexed scenarios: one key that holds a slice. *)
Definition listed_items : json :=
  JObject [("items", JArray [JString "a"; JString "b"; JString "c"])].

Definition shuffled_tree : json :=
  JObject [("server", JObject [("port", JFloat 8080); ("host", JString "x")]);
           ("items", JArray [JString "a"; JObject [("z", JNull); ("y", JBool true)]])].

Definition shuffled_tree' : json :=
  JObject [("items", JArray [JString "a"; JObject [("y", JBool true); ("z", JNull)]]);
           ("server", JObject [("host", JString "x"); ("port", JFloat 8080)])].

(** A stand-in for the collaborators, on which the reducers run to a
    value: a text area that is its text, components without state, a codec
    that decodes nothing, a client for every profile and region. *)
Definition plain_externals : Externals :=
  {| textarea_Model := string;
     textarea_Value := fun ta => ta;
     textarea_SetValue := fun _ v => v;
     textarea_Focus := fun ta => ta;
     textarea_SetWidth := fun ta _ => ta;
     textarea_SetHeight := fun ta _ => ta;
     textarea_Update := fun ta _ => (ta, Nil);
     spinner_Model := unit;
     spinner_Update := fun s _ => (s, Nil);
     list_Model := unit;
     list_SetItems := fun l _ => l;
     list_SelectedItem := fun _ => None;
     list_SetTitle := fun l _ => l;
     list_SetWidth := fun l _ => l;
     list_SetHeight := fun l _ => l;
     list_Update := fun l _ => (l, Nil);
     textinput_Model := string;
     textinput_Value := fun ti => ti;
     textinput_SetValue := fun _ v => v;
     textinput_Focus := fun ti => ti;
     textinput_Blur := fun ti => ti;
     textinput_Update := fun ti _ => (ti, Nil);
     ToLower := fun s => s;
     Unmarshal := fun _ => None;
     MarshalIndent := fun _ => inl "{}";
     NewClientWithRegion :=
       fun p r => inl {| client_profile := p; client_region := r |};
     ProfileSelectorModel := unit;
     ProfileSelector_Update := fun s _ => (s, Nil);
     ProfileSelector_SetSize := fun s _ _ => s;
     RegionSelectorModel := unit;
     RegionSelector_Update := fun s _ => (s, Nil);
     RegionSelector_SetSize := fun s _ _ => s;
     RegionSelector_SetDefaultRegion := fun s _ => s;
     ParameterViewModel := unit;
     ParameterView_Update := fun s _ => (s, Nil);
     ParameterView_SetSize := fun s _ _ => s;
     ParameterView_SetContext := fun s _ _ => s;
     ParameterView_LoadParameter := fun s _ _ => (s, Nil) |}.

Definition dev_eu : RecentEntry := {| Profile := "dev"; Region := "eu-west-1" |}.
Definition prod_us : RecentEntry := {| Profile := "prod"; Region := "us-east-1" |}.

(** A list screen showing the parameters of dev in eu-west-1, with two
    recent entries. *)
Definition list_on_dev : @ParameterListModel.t plain_externals :=
  @ParameterListModel.Build_t plain_externals
    [] [] tt "" tt false false None None "dev" "eu-west-1" [prod_us; dev_eu].

Definition config_param : AwsParameter :=
  {| Name := "/app/config"; Type_ := "String"; Value := "old text"; ARN := "arn";
     Version := 3; LastModifiedDate := 0; DataType := "text" |}.

(** The edit screen on the path [items[5]] of a value with three items,
    the text area holding what the user typed. *)
Definition edit_on_items : @ParameterEditModel.t plain_externals :=
  @ParameterEditModel.Build_t plain_externals
    (Some config_param) None true
    (Some [("items", JArray [JString "a"; JString "b"; JString "c"])])
    "typed" "items[5]" tt false None 80 24 "dev" "eu-west-1".

(** The edit screen on the whole value. *)
Definition edit_on_whole : @ParameterEditModel.t plain_externals :=
  @ParameterEditModel.Build_t plain_externals
    (Some config_param) None false None "true" "" tt false None 80 24
    "dev" "eu-west-1".

Definition session_on_edit : @Ui.Model plain_externals :=
  @Ui.Build_Model plain_externals
    Ui.ParameterEditScreen tt tt list_on_dev tt edit_on_items ["dev"]
    "dev" "eu-west-1" ∅ ∅ [] false 80 24.

(** The session on the list screen of dev in eu-west-1, reached by the
    selection of a region: the flag of a recent switch is down. *)
Definition session_on_list : @Ui.Model plain_externals :=
  @Ui.Build_Model plain_externals
    Ui.ParameterListScreen tt tt list_on_dev tt edit_on_whole ["dev"; "prod"]
    "dev" "eu-west-1" ∅ ∅ [prod_us; dev_eu] false 80 24.

(** The collaborators [E] with another decoder of JSON texts. *)
Definition with_Unmarshal (E : Externals) (decode : string -> option json)
  : Externals :=
  {| textarea_Model := @textarea_Model E;
     textarea_Value := @textarea_Value E;
     textarea_SetValue := @textarea_SetValue E;
     textarea_Focus := @textarea_Focus E;
     textarea_SetWidth := @textarea_SetWidth E;
     textarea_SetHeight := @textarea_SetHeight E;
     textarea_Update := @textarea_Update E;
     spinner_Model := @spinner_Model E;
     spinner_Update := @spinner_Update E;
     list_Model := @list_Model E;
     list_SetItems := @list_SetItems E;
     list_SelectedItem := @list_SelectedItem E;
     list_SetTitle := @list_SetTitle E;
     list_SetWidth := @list_SetWidth E;
     list_SetHeight := @list_SetHeight E;
     list_Update := @list_Update E;
     textinput_Model := @textinput_Model E;
     textinput_Value := @textinput_Value E;
     textinput_SetValue := @textinput_SetValue E;
     textinput_Focus := @textinput_Focus E;
     textinput_Blur := @textinput_Blur E;
     textinput_Update := @textinput_Update E;
     ToLower := @ToLower E;
     Unmarshal := decode;
     MarshalIndent := @MarshalIndent E;
     NewClientWithRegion := @NewClientWithRegion E;
     ProfileSelectorModel := @ProfileSelectorModel E;
     ProfileSelector_Update := @ProfileSelector_Update E;
     ProfileSelector_SetSize := @ProfileSelector_SetSize E;
     RegionSelectorModel := @RegionSelectorModel E;
     RegionSelector_Update := @RegionSelector_Update E;
     RegionSelector_SetSize := @RegionSelector_SetSize E;
     RegionSelector_SetDefaultRegion := @RegionSelector_SetDefaultRegion E;
     ParameterViewModel := @ParameterViewModel E;
     ParameterView_Update := @ParameterView_Update E;
     ParameterView_SetSize := @ParameterView_SetSize E;
     ParameterView_SetContext := @ParameterView_SetContext E;
     ParameterView_LoadParameter := @ParameterView_LoadParameter E |}.

(** A stand-in that decodes one text, the document of the server. *)
Definition decoding_externals : Externals :=
  with_Unmarshal plain_externals
    (fun s => if String.eqb s "server document" then Some server_tree else None).

(** A viewport that is its content and styles that leave a text as it
    is. *)
Definition plain_view_externals : @ViewExternals decoding_externals :=
  @Build_ViewExternals decoding_externals
    string (fun _ _ => "") (fun _ content => content) (fun vp _ => vp)
    (fun vp _ => vp) (fun _ => 80%Z) (fun vp _ => (vp, Nil)) tt
    (fun s => s) (fun s => s) (fun _ s => s).

Definition server_param : AwsParameter :=
  {| Name := "/app/server"; Type_ := "String"; Value := "server document";
     ARN := "arn"; Version := 1; LastModifiedDate := 0; DataType := "text" |}.


(** * Properties *)

(** ** Strings *)

Lemma string_app_cons (c : ascii) (s t : string) :
  String c s ++ t = String c (s ++ t).
Proof. reflexivity. Qed.

Lemma string_app_nil_l (t : string) : "" ++ t = t.
Proof. reflexivity. Qed.

Lemma string_app_nil_r (s : string) : s ++ "" = s.
Proof.
  induction s as [|c s IH]; [reflexivity |].
  now rewrite string_app_cons, IH.
Qed.

Lemma string_app_assoc (a b c : string) : (a ++ b) ++ c = a ++ (b ++ c).
Proof.
  induction a as [|x a IH]; [reflexivity |].
  now rewrite !string_app_cons, IH.
Qed.

Lemma string_app_length (a b : string) :
  String.length (a ++ b) = (String.length a + String.length b)%nat.
Proof.
  induction a as [|x a IH]; [reflexivity |].
  rewrite string_app_cons. simpl. now rewrite IH.
Qed.

Lemma is_empty_false_iff (s : string) :
  GoStrings.is_empty s = false <-> s <> "".
Proof. destruct s; simpl; split; congruence. Qed.


Lemma substring_0_app (a b : string) :
  String.substring 0 (String.length a) (a ++ b) = a.
Proof.
  induction a as [|x a IH]; [now destruct b |].
  rewrite string_app_cons. simpl. now rewrite IH.
Qed.

(** ** The path grammar *)

Lemma plain_byte_string (c : ascii) :
  plain_byte c = true -> GoStrings.string_of_byte c = String c "".
Proof.
  unfold plain_byte, GoStrings.string_of_byte. intros H.
  destruct (GoStrings.byte_val c <? 128)%N; [reflexivity | discriminate].
Qed.

Lemma plain_byte_cases (c : ascii) :
  plain_byte c = true ->
  Ascii.eqb c "." = false /\ Ascii.eqb c "[" = false /\ Ascii.eqb c "]" = false.
Proof.
  unfold plain_byte. intros H.
  destruct (Ascii.eqb c "."), (Ascii.eqb c "["), (Ascii.eqb c "]");
    rewrite ?andb_false_r in H; simpl in H; try discriminate; auto.
Qed.

Section ParseLoop.
Import ParameterEdit.

(** Plain bytes are appended to the token being read. *)
Lemma parseLoop_plain (k rest : string) (parts : list pathPart) (current : string) :
  plain k = true ->
  parseLoop (k ++ rest) 0 parts current = parseLoop rest 0 parts (current ++ k).
Proof.
  revert current. induction k as [|c k IH]; intros current Hk.
  - now rewrite string_app_nil_l, string_app_nil_r.
  - unfold plain in Hk. simpl in Hk. apply andb_true_iff in Hk as [Hc Hk].
    destruct (plain_byte_cases c Hc) as (H1 & H2 & H3).
    rewrite string_app_cons. simpl.
    rewrite H1, H2, H3, (plain_byte_string c Hc), (IH _ Hk).
    now rewrite string_app_assoc.
Qed.

(** A jump over all that is left ends the parse. *)
Lemma parseLoop_skip_all (s : string) (parts : list pathPart) :
  parseLoop s (String.length s) parts "" = parts.
Proof. induction s as [|c s IH]; simpl; [reflexivity | exact IH]. Qed.


End ParseLoop.


(** [strings.Index(s, "]")] finds the first closing bracket. *)
Lemma Index_step (c : ascii) (s : string) :
  GoStrings.Index (String c s) "]"
  = if Ascii.eqb c "]" then Some 0%nat
    else match GoStrings.Index s "]" with
         | Some n => Some (S n)
         | None => None
         end.
Proof.
  unfold GoStrings.Index.
  change (String.index 0 "]" (String c s))
    with (if String.prefix "]" (String c s) then Some 0%nat
          else match String.index 0 "]" s with
               | Some n => Some (S n)
               | None => None
               end).
  change (String.prefix "]" (String c s))
    with (if ascii_dec "]" c then String.prefix "" s else false).
  destruct (ascii_dec "]" c) as [<-|Hne].
  - now destruct s.
  - destruct (Ascii.eqb_spec c "]") as [->|_]; [congruence | reflexivity].
Qed.

Lemma Index_close (a b : string) :
  unclosed a = true ->
  GoStrings.Index (a ++ String "]" b) "]" = Some (String.length a).
Proof.
  unfold unclosed. induction a as [|c a IH]; intros H.
  - now rewrite string_app_nil_l, Index_step.
  - simpl in H. apply andb_true_iff in H as [Hc Ha].
    apply negb_true_iff in Hc.
    rewrite string_app_cons, Index_step, Hc, (IH Ha). reflexivity.
Qed.


Section ParsePath.
Import ParameterEdit.



Lemma parseLoop_skip (s rest : string) (parts : list pathPart) (current : string) :
  parseLoop (s ++ rest) (String.length s) parts current
  = parseLoop rest 0 parts current.
Proof.
  induction s as [|c s IH]; [reflexivity |].
  rewrite string_app_cons. simpl. exact IH.
Qed.

(** The step of the loop at an opening bracket that follows a key. *)
Lemma parseLoop_open (rest : string) (parts : list pathPart) (current : string) :
  GoStrings.is_empty current = false ->
  parseLoop (String "[" rest) 0 parts current
  = match GoStrings.Index (String "[" rest) "]" with
    | None => []
    | Some endBracket =>
        parseLoop rest endBracket
          (app parts
             [arrayPart current
                (default 0%Z
                   (GoFmt.Sscanf_d (GoStrings.slice (String "[" rest) 1 endBracket)))])
          ""
    end.
Proof. intros H. cbn [parseLoop]. rewrite H. reflexivity. Qed.

(** The step at an opening bracket that follows no key: it is skipped. *)
Lemma parseLoop_open_skipped (rest : string) (parts : list pathPart) :
  parseLoop (String "[" rest) 0 parts "" = parseLoop rest 0 parts "".
Proof. reflexivity. Qed.

(** A key followed by a bracketed text is one array part: the text is
    scanned as an integer, 0 when the scan fails. *)
Lemma parseLoop_bracket (k ds rest : string) (parts : list pathPart) :
  key_token k = true -> unclosed ds = true ->
  parseLoop (k ++ "[" ++ ds ++ "]" ++ rest) 0 parts ""
  = parseLoop rest 0
      (app parts [arrayPart k (default 0%Z (GoFmt.Sscanf_d ds))]) "".
Proof.
  intros Hk Hds. unfold key_token in Hk. apply andb_true_iff in Hk as [Hne Hpl].
  apply negb_true_iff in Hne.
  rewrite (parseLoop_plain k _ parts "" Hpl), string_app_nil_l.
  rewrite string_app_cons, string_app_nil_l, (parseLoop_open _ _ _ Hne).
  rewrite Index_step. cbn [Ascii.eqb Bool.eqb].
  rewrite string_app_cons, string_app_nil_l, (Index_close ds rest Hds).
  unfold GoStrings.slice.
  replace (String.substring 1 (S (String.length ds) - 1) (String "[" (ds ++ String "]" rest)))
    with ds.
  2:{ replace (S (String.length ds) - 1)%nat with (String.length ds) by lia.
      cbn [String.substring]. symmetry. apply substring_0_app. }
  change (String "]" rest) with ("]" ++ rest).
  rewrite <- string_app_assoc.
  replace (S (String.length ds)) with (String.length (ds ++ "]")).
  2:{ rewrite string_app_length. simpl. lia. }
  apply parseLoop_skip.
Qed.






End ParsePath.

(** *** Brackets that hold a digit string *)

Lemma digits_nonneg (l : list ascii) :
  forall acc : Z,
    (0 <= acc)%Z -> forallb GoFmt.is_digit l = true ->
    (0 <= fold_left (fun a c => a * 10 + GoFmt.digit_val c) l acc)%Z.
Proof.
  induction l as [|c l IH]; intros acc Ha Hd; [exact Ha |].
  simpl in Hd. apply andb_true_iff in Hd as [Hc Hl]. simpl. apply IH; [| exact Hl].
  unfold GoFmt.is_digit in Hc. unfold GoFmt.digit_val.
  apply andb_true_iff in Hc as [Hc _]. apply N.leb_le in Hc. lia.
Qed.

(** No white space is skipped before a digit. *)
Lemma SkipSpace_digit (c : ascii) (r : string) :
  GoFmt.is_digit c = true -> GoFmt.SkipSpace (String c r) = Some (String c r).
Proof.
  intros Hc.
  destruct c as [[] [] [] [] [] [] [] []]; try discriminate Hc;
    destruct r as [|c2 [|c3 r3]]; reflexivity.
Qed.

Lemma accept_loop_all (ok inp : string) :
  forall b : string,
    forallb (fun c => GoStrings.mem c ok) (list_ascii_of_string inp) = true ->
    GoFmt.accept_loop ok b inp = {| GoFmt.buf := b ++ inp; GoFmt.input := "" |}.
Proof.
  induction inp as [|c inp IH]; intros b H; cbn [GoFmt.accept_loop].
  - now rewrite string_app_nil_r.
  - simpl in H. apply andb_true_iff in H as [-> H].
    rewrite (IH _ H). now rewrite string_app_assoc.
Qed.

Lemma is_digit_mem (c : ascii) :
  GoFmt.is_digit c = true ->
  GoStrings.mem c GoFmt.decimalDigits = true
  /\ GoStrings.mem c GoFmt.sign = false.
Proof.
  intros Hc.
  destruct c as [[] [] [] [] [] [] [] []]; try discriminate Hc; split; reflexivity.
Qed.

(** The scan of a text of decimal digits yields their value. *)
Lemma Sscanf_d_digits (c : ascii) (ds : string) :
  forallb GoFmt.is_digit (list_ascii_of_string (String c ds)) = true ->
  (GoFmt.digits_val (String c ds) <= GoFmt.MaxInt64)%Z ->
  GoFmt.Sscanf_d (String c ds) = Some (GoFmt.digits_val (String c ds)).
Proof.
  intros Hd Hmax. pose proof Hd as Hd0. simpl in Hd.
  apply andb_true_iff in Hd as [Hc Hds].
  destruct (is_digit_mem c Hc) as [Hm Hs].
  unfold GoFmt.Sscanf_d. rewrite (SkipSpace_digit c ds Hc).
  unfold GoFmt.accept. cbn [GoFmt.input GoFmt.buf]. rewrite Hs.
  cbn [GoFmt.input]. rewrite Hc.
  unfold GoFmt.accept_all. cbn [GoFmt.input GoFmt.buf].
  rewrite accept_loop_all.
  2:{ simpl. rewrite Hm. simpl.
      clear -Hds. induction (list_ascii_of_string ds) as [|d l IH]; [reflexivity |].
      simpl in *. apply andb_true_iff in Hds as [Hd Hl].
      rewrite (proj1 (is_digit_mem d Hd)). simpl. auto. }
  cbn [GoFmt.buf]. rewrite string_app_nil_l.
  unfold GoFmt.ParseInt.
  assert (Hsign : (match String c ds with
                   | String "-" r => (true, r)
                   | String "+" r => (false, r)
                   | _ => (false, String c ds)
                   end) = (false, String c ds)).
  { clear -Hc. destruct c as [[] [] [] [] [] [] [] []]; try discriminate Hc;
      reflexivity. }
  rewrite Hsign. cbn [GoStrings.is_empty orb]. rewrite Hd0. cbn [negb].
  assert (H0 : (0 <= GoFmt.digits_val (String c ds))%Z).
  { unfold GoFmt.digits_val. apply digits_nonneg; [lia | exact Hd0]. }
  destruct (Z.leb_spec GoFmt.MinInt64 (GoFmt.digits_val (String c ds)));
    [| unfold GoFmt.MinInt64 in *; lia].
  destruct (Z.leb_spec (GoFmt.digits_val (String c ds)) GoFmt.MaxInt64);
    [reflexivity | lia].
Qed.

Lemma digits_unclosed (s : string) :
  forallb GoFmt.is_digit (list_ascii_of_string s) = true -> unclosed s = true.
Proof.
  unfold unclosed. induction s as [|c s IH]; [reflexivity |].
  simpl. intros H. apply andb_true_iff in H as [Hc Hs]. rewrite (IH Hs), andb_true_r.
  destruct c as [[] [] [] [] [] [] [] []]; try discriminate Hc; reflexivity.
Qed.




(** ** Reading and writing at a path *)

Lemma obj_lookup_store (k : string) (v : json) (m : list (string * json)) :
  obj_lookup k (obj_store k v m) = Some v.
Proof.
  induction m as [|[k' x] m IH]; simpl.
  - now rewrite String.eqb_refl.
  - destruct (String.eqb k' k) eqn:E; simpl; now rewrite E.
Qed.

Lemma arr_index_Ret (arr : list json) (i : Z) (v : json) :
  arr_index arr i = Ret v <-> (0 <= i)%Z /\ arr !! Z.to_nat i = Some v.
Proof.
  unfold arr_index. destruct (Z.ltb_spec i 0).
  - split; [discriminate | lia].
  - destruct (arr !! Z.to_nat i) as [x|]; split.
    + intros [= ->]. auto.
    + intros [_ [= ->]]. reflexivity.
    + discriminate.
    + intros [_ [=]].
Qed.

Lemma arr_store_Ret (arr arr' : list json) (i : Z) (v : json) :
  arr_store arr i v = Ret arr' <->
  (0 <= i < Z.of_nat (length arr))%Z /\ arr' = <[Z.to_nat i := v]> arr.
Proof.
  unfold arr_store. destruct (Z.ltb_spec i 0); [split; [discriminate | lia] |].
  destruct (Z.leb_spec (Z.of_nat (length arr)) i).
  - split; [discriminate | lia].
  - split; [intros [= <-]; auto with lia | intros [_ ->]; reflexivity].
Qed.

Lemma arr_index_store (arr : list json) (i : Z) (v : json) :
  (0 <= i < Z.of_nat (length arr))%Z ->
  arr_index (<[Z.to_nat i := v]> arr) i = Ret v.
Proof.
  intros H. apply arr_index_Ret. split; [lia |].
  apply list_lookup_insert_eq. lia.
Qed.

Section ReadWrite.
Import ParameterEdit.

(** After a store that went through, the same parts lead to the stored
    value. *)
Lemma resolve_updateAt (rest : list pathPart) :
  forall (current : json) (part : pathPart) (v t' : json),
    updateAt current part rest v = Ret (Stored t') ->
    resolve t' (part :: rest) = Ret (Some v).
Proof.
  induction rest as [|next rest IH]; intros current part v t' H;
    cbn [updateAt] in H; cbn [resolve]; destruct (isArray part).
  - destruct current as [| | | | |arr|]; try discriminate.
    destruct (Z.leb_spec (Z.of_nat (length arr)) (index part)); [discriminate |].
    destruct (arr_store arr (index part) v) as [arr'|] eqn:E; [|discriminate].
    cbn in H. injection H as <-.
    apply arr_store_Ret in E as [Hi ->].
    rewrite length_insert.
    destruct (Z.leb_spec (Z.of_nat (length arr)) (index part)); [lia |].
    now rewrite arr_index_store.
  - destruct current as [| | | | | |obj]; try discriminate.
    injection H as <-. now rewrite obj_lookup_store.
  - destruct current as [| | | | |arr|]; try discriminate.
    destruct (Z.leb_spec (Z.of_nat (length arr)) (index part)); [discriminate |].
    destruct (arr_index arr (index part)) as [child|] eqn:Ec; [|discriminate].
    cbn in H.
    destruct (updateAt child next rest v) as [[child'|err]|] eqn:Eu;
      cbn in H; try discriminate.
    destruct (arr_store arr (index part) child') as [arr'|] eqn:E; [|discriminate].
    cbn in H. injection H as <-.
    apply arr_store_Ret in E as [Hi ->].
    rewrite length_insert.
    destruct (Z.leb_spec (Z.of_nat (length arr)) (index part)); [lia |].
    rewrite arr_index_store by assumption. cbn.
    exact (IH _ _ _ _ Eu).
  - destruct current as [| | | | | |obj]; try discriminate.
    destruct (obj_lookup (key part) obj) as [child|]; [|discriminate].
    destruct (updateAt child next rest v) as [[child'|err]|] eqn:Eu;
      cbn in H; try discriminate.
    injection H as <-. rewrite obj_lookup_store.
    exact (IH _ _ _ _ Eu).
Qed.

(** Where the parts lead to a value, a store along them goes through. *)
Lemma updateAt_resolved (rest : list pathPart) :
  forall (current : json) (part : pathPart) (v leaf : json),
    resolve current (part :: rest) = Ret (Some leaf) ->
    exists t', updateAt current part rest v = Ret (Stored t').
Proof.
  induction rest as [|next rest IH]; intros current part v leaf H;
    cbn [resolve] in H; cbn [updateAt]; destruct (isArray part).
  - destruct current as [| | | | |arr|]; try discriminate.
    destruct (Z.leb_spec (Z.of_nat (length arr)) (index part)); [discriminate |].
    destruct (arr_index arr (index part)) as [x|] eqn:Ex; [|discriminate].
    apply arr_index_Ret in Ex as [Hi _].
    destruct (arr_store arr (index part) v) as [arr'|] eqn:E.
    + eexists. reflexivity.
    + exfalso. enough (Hs : arr_store arr (index part) v = Ret (<[Z.to_nat (index part) := v]> arr))
        by congruence.
      apply arr_store_Ret. split; [lia | reflexivity].
  - destruct current as [| | | | | |obj]; try discriminate.
    eexists. reflexivity.
  - destruct current as [| | | | |arr|]; try discriminate.
    destruct (Z.leb_spec (Z.of_nat (length arr)) (index part)); [discriminate |].
    destruct (arr_index arr (index part)) as [child|] eqn:Ec; [|discriminate].
    cbn in H. destruct (IH child next v leaf H) as [child' Hc].
    cbn. rewrite Hc. cbn.
    apply arr_index_Ret in Ec as [Hi _].
    assert (Hs : arr_store arr (index part) child'
                 = Ret (<[Z.to_nat (index part) := child']> arr))
      by (apply arr_store_Ret; split; [lia | reflexivity]).
    rewrite Hs. eexists. reflexivity.
  - destruct current as [| | | | | |obj]; try discriminate.
    destruct (obj_lookup (key part) obj) as [child|]; [|discriminate].
    destruct (IH child next v leaf H) as [child' Hc].
    rewrite Hc. eexists. reflexivity.
Qed.

End ReadWrite.

(** After a write that went through, a read at the same path returns
    the written text as the type inference renders it; a write at a path
    that the walk of the code resolves to a value does go through; and
    "42" reads back as "42", "true" as "true", "hello" as "hello". *)
Theorem write_then_read (data : json) (path raw : string) :
  (forall data' : json,
      ParameterEdit.updateJSONValue data path raw = Ret (data', None) ->
      ParameterEdit.getJSONValue data' path
      = Ret (ParameterEdit.render (ParameterEdit.parsedValue raw)))
  /\ (forall leaf : json,
         ParameterEdit.parsePath path <> [] ->
         ParameterEdit.resolve data (ParameterEdit.parsePath path) = Ret (Some leaf) ->
         exists data',
           ParameterEdit.updateJSONValue data path raw = Ret (data', None))
  /\ ParameterEdit.render (ParameterEdit.parsedValue "42") = "42"
  /\ ParameterEdit.render (ParameterEdit.parsedValue "true") = "true"
  /\ ParameterEdit.render (ParameterEdit.parsedValue "hello") = "hello".
Proof.
  unfold ParameterEdit.updateJSONValue, ParameterEdit.getJSONValue.
  destruct (ParameterEdit.parsePath path) as [|part rest] eqn:Hp.
  - repeat split; try reflexivity; [discriminate | congruence].
  - split; [| split; [| repeat split; reflexivity]].
    + intros data'.
      destruct (ParameterEdit.updateAt data part rest _) as [[t|err]|] eqn:Hu;
        cbn [mbind go_bind]; try discriminate.
      intros [= <-]. now rewrite (resolve_updateAt rest data part _ t Hu).
    + intros leaf _ Hres.
      destruct (updateAt_resolved rest data part (ParameterEdit.parsedValue raw)
                  leaf Hres) as [data' Hu].
      exists data'. now rewrite Hu.
Qed.

(** The scenario of the port: writing "42" over 8080. *)
Lemma write_then_read_witness :
  ParameterEdit.updateJSONValue server_tree "server.port" "42"
  = Ret (JObject [("server", JObject [("port", JInt 42); ("host", JString "x")])],
         None)
  /\ ParameterEdit.getJSONValue
       (JObject [("server", JObject [("port", JInt 42); ("host", JString "x")])])
       "server.port"
     = Ret "42".
Proof.
  split; [reflexivity |].
  exact (proj1 (write_then_read server_tree "server.port" "42") _ eq_refl).
Defined.

(** C5, the code at the failing input: in the value with the slice
    ["a", "b", "c"] under the key [items], the view lists the leaf "b" at
    the path [items[1]], and the path parses to the array segment of key
    [items] and index 1. The walk applies that segment to the value at
    hand, the map, without looking the key up: the write is refused with
    an error and leaves the value as it is, and the read returns the empty
    string, where the claim has the written text read back. Where the
    write does go through, a text that only starts as a number is read
    back as that number: "10.0.0.1" as "10" and "5abc" as "5". *)
Theorem indexed_leaf_is_not_written :
  ParameterView.flattenJSONForView listed_items ""
  = [{| ParameterView.key := "items[0]"; ParameterView.value := "a" |};
     {| ParameterView.key := "items[1]"; ParameterView.value := "b" |};
     {| ParameterView.key := "items[2]"; ParameterView.value := "c" |}]
  /\ ParameterEdit.parsePath "items[1]" = [arrayPart "items" 1]
  /\ ParameterEdit.updateJSONValue listed_items "items[1]" "z"
     = Ret (listed_items, Some "expected array at final position")
  /\ ParameterEdit.getJSONValue listed_items "items[1]" = Ret ""
  /\ ParameterEdit.updateJSONValue listed_items "items[1]" "42"
     = Ret (listed_items, Some "expected array at final position")
  /\ ParameterEdit.updateJSONValue server_tree "server.host" "10.0.0.1"
     = Ret (JObject [("server", JObject [("port", JFloat 8080); ("host", JInt 10)])],
            None)
  /\ ParameterEdit.getJSONValue
       (JObject [("server", JObject [("port", JFloat 8080); ("host", JInt 10)])])
       "server.host"
     = Ret "10"
  /\ ParameterEdit.updateJSONValue server_tree "server.host" "5abc"
     = Ret (JObject [("server", JObject [("port", JFloat 8080); ("host", JInt 5)])],
            None)
  /\ ParameterEdit.getJSONValue
       (JObject [("server", JObject [("port", JFloat 8080); ("host", JInt 5)])])
       "server.host"
     = Ret "5".
Proof. repeat split; vm_compute; reflexivity. Qed.



(** C1, the code at the failing input: the index of [k.items[-1]] is
    scanned as -1, the bound check [part.index >= len(arr)] lets it
    through, and indexing the slice panics, in the read and in the write
    alike. An index past the end is answered without a panic. *)
Theorem negative_index_panics :
  ParameterEdit.parsePath "k.items[-1]" = [keyPart "k"; arrayPart "items" (-1)]
  /\ ParameterEdit.getJSONValue items_tree "k.items[-1]" = Panic
  /\ ParameterEdit.updateJSONValue items_tree "k.items[-1]" "z" = Panic
  /\ ParameterEdit.getJSONValue items_tree "k.items[5]" = Ret ""
  /\ ParameterEdit.updateJSONValue items_tree "k.items[5]" "z"
     = Ret (items_tree, Some "index out of range at final position").
Proof. repeat split; reflexivity. Qed.

(** C2, the code at the failing input: the bracket text [abc] is no
    integer, the failed scan leaves the index at 0, and the read returns
    the first element of the array where the claim has the empty string;
    a negative index panics (the defect of C1). A missing key, an index
    past the end and a mismatched shape do read as the empty string. *)
Theorem non_integer_index_reads_first :
  ParameterEdit.parsePath "k.items[abc]" = [keyPart "k"; arrayPart "items" 0]
  /\ ParameterEdit.getJSONValue items_tree "k.items[abc]" = Ret "a"
  /\ ParameterEdit.getJSONValue
       (JArray [JString "a"; JString "b"; JString "c"]) "items[abc]" = Ret "a"
  /\ ParameterEdit.getJSONValue items_tree "k.items[-1]" = Panic
  /\ ParameterEdit.getJSONValue
       (JArray [JString "a"; JString "b"; JString "c"]) "items[5]" = Ret ""
  /\ ParameterEdit.getJSONValue items_tree "missing" = Ret ""
  /\ ParameterEdit.getJSONValue items_tree "k.name" = Ret "".
Proof. repeat split; reflexivity. Qed.

(** Support for C2: where the loop stops short of a value, the read is
    the empty string. *)
Lemma getJSONValue_unresolved (data : json) (path : string) :
  ParameterEdit.resolve data (ParameterEdit.parsePath path) = Ret None ->
  ParameterEdit.getJSONValue data path = Ret "".
Proof.
  intros H. unfold ParameterEdit.getJSONValue. rewrite H.
  now destruct (length (ParameterEdit.parsePath path) =? 0)%nat.
Qed.

(** C3, the order of the inference is the claim's, and the code at the
    failing input: the scan of ["5abc"] as a number stops after the [5]
    and reports no error, so the integer 5 is stored and the text is
    lost; ["hello"] is stored as it is. *)
Theorem numeric_prefix_is_stored_as_number :
  (forall raw : string,
      ParameterEdit.parsedValue raw
      = if String.eqb raw "null" then JNull
        else if String.eqb raw "true" then JBool true
        else if String.eqb raw "false" then JBool false
        else match GoFmt.Sscanf_f raw with
             | Some f =>
                 if PrimFloat.eqb (GoFmt.float_of_int64 (GoFmt.int64_of_float f)) f
                 then JInt (GoFmt.int64_of_float f)
                 else JFloat f
             | None => JString raw
             end)
  /\ ParameterEdit.parsedValue "5abc" = JInt 5
  /\ ParameterEdit.parsedValue "hello" = JString "hello"
  /\ ParameterEdit.updateJSONValue server_tree "server.port" "5abc"
     = Ret (JObject [("server", JObject [("port", JInt 5); ("host", JString "x")])],
            None)
  /\ ParameterEdit.updateJSONValue server_tree "server.host" "hello"
     = Ret (JObject [("server", JObject [("port", JFloat 8080);
                                         ("host", JString "hello")])],
            None).
Proof.
  split.
  - intros raw. unfold ParameterEdit.parsedValue, ParameterEdit.parseNumber.
    destruct (String.eqb raw "null"), (String.eqb raw "true"),
      (String.eqb raw "false"); try reflexivity.
    destruct (GoFmt.Sscanf_f raw) as [f|]; [|reflexivity].
    now destruct (PrimFloat.eqb _ f).
  - repeat split; vm_compute; reflexivity.
Qed.

(** ** Flattening *)

(** Induction on structured values, with the hypothesis for every element
    of a slice and every value of a map. *)
Lemma json_ind (P : json -> Prop)
  (Hnull : P JNull)
  (Hbool : forall b, P (JBool b))
  (Hfloat : forall f, P (JFloat f))
  (Hint : forall i, P (JInt i))
  (Hstring : forall s, P (JString s))
  (Harray : forall l, Forall P l -> P (JArray l))
  (Hobject : forall m, Forall (fun e => P (snd e)) m -> P (JObject m)) :
  forall t, P t.
Proof.
  fix IH 1. intros [| b | f | i | s | l | m].
  - exact Hnull.
  - apply Hbool.
  - apply Hfloat.
  - apply Hint.
  - apply Hstring.
  - apply Harray. induction l as [|x l IHl]; constructor; [apply IH | exact IHl].
  - apply Hobject. induction m as [|[k x] m IHm]; constructor; [apply IH | exact IHm].
Qed.

Lemma flatten_array (l : list json) (prefix : string) :
  ParameterView.flattenJSONForView (JArray l) prefix = flattenFrom prefix l 0.
Proof.
  cbn [ParameterView.flattenJSONForView]. generalize 0%nat.
  induction l as [|v l IH]; intros i; [reflexivity |].
  cbn [flattenFrom]. now rewrite <- IH.
Qed.

Lemma flatten_object (m : list (string * json)) (prefix : string) :
  ParameterView.flattenJSONForView (JObject m) prefix
  = List.concat (List.map (flattenAt prefix m) (GoStrings.Strings (List.map fst m))).
Proof.
  cbn [ParameterView.flattenJSONForView]. f_equal.
  apply map_ext. intros k. fold (keyPrefix prefix k). unfold flattenAt.
  generalize (keyPrefix prefix k) as q. intros q.
  induction m as [|[k' v] m IH]; [reflexivity |].
  cbn [obj_lookup]. destruct (String.eqb k' k); [reflexivity | exact IH].
Qed.

Lemma Strings_sorted (l : list string) : Sorted String.le (GoStrings.Strings l).
Proof. apply Sorted_merge_sort; apply _. Qed.

Lemma Strings_permutation (l : list string) : Permutation (GoStrings.Strings l) l.
Proof. apply merge_sort_Permutation. Qed.

(** The sorted keys do not depend on the order of iteration. *)
Lemma Strings_order_free (l1 l2 : list string) :
  Permutation l1 l2 -> GoStrings.Strings l1 = GoStrings.Strings l2.
Proof.
  intros H. apply (Sorted_unique String.le); try apply Strings_sorted.
  now rewrite !Strings_permutation.
Qed.

Lemma unique_keys_array (l : list json) :
  unique_keys (JArray l) <-> Forall unique_keys l.
Proof.
  cbn [unique_keys]. induction l as [|x l IH].
  - split; auto.
  - rewrite Forall_cons. now rewrite <- IH.
Qed.

Lemma unique_keys_object (m : list (string * json)) :
  unique_keys (JObject m)
  <-> List.NoDup (List.map fst m) /\ Forall (fun e => unique_keys (snd e)) m.
Proof.
  cbn [unique_keys]. apply and_iff_compat_l.
  induction m as [|e m IH].
  - split; auto.
  - rewrite Forall_cons. now rewrite <- IH.
Qed.

Lemma obj_lookup_None (m : list (string * json)) (k : string) :
  obj_lookup k m = None <-> ~ In k (List.map fst m).
Proof.
  induction m as [|[k' v] m IH]; simpl; [tauto |].
  destruct (String.eqb_spec k' k) as [->|Hne].
  - split; [discriminate | tauto].
  - rewrite IH. tauto.
Qed.

Lemma obj_lookup_In (m : list (string * json)) (k : string) (v : json) :
  List.NoDup (List.map fst m) ->
  obj_lookup k m = Some v <-> In (k, v) m.
Proof.
  induction m as [|[k' x] m IH]; simpl; intros Hnd.
  - split; [discriminate | tauto].
  - apply List.NoDup_cons_iff in Hnd as [Hk' Hnd].
    destruct (String.eqb_spec k' k) as [->|Hne].
    + split.
      * intros [= ->]. now left.
      * intros [[= ->]|Hin]; [reflexivity |].
        exfalso. apply Hk'. apply in_map_iff. now exists (k, v).
    + rewrite (IH Hnd). split; [tauto |].
      intros [[= -> ->]|Hin]; [congruence | exact Hin].
Qed.

(** A lookup does not depend on the order of the entries. *)
Lemma obj_lookup_order_free (m m' : list (string * json)) (k : string) :
  List.NoDup (List.map fst m) -> Permutation m m' ->
  obj_lookup k m = obj_lookup k m'.
Proof.
  intros Hnd Hp.
  assert (Hnd' : List.NoDup (List.map fst m')).
  { eapply Permutation_NoDup; [apply Permutation_map, Hp | exact Hnd]. }
  destruct (obj_lookup k m) as [v|] eqn:E.
  - symmetry. apply obj_lookup_In; [exact Hnd' |].
    eapply Permutation_in; [exact Hp |]. now apply obj_lookup_In.
  - symmetry. apply obj_lookup_None. apply obj_lookup_None in E.
    intros Hin. apply E. eapply Permutation_in; [| exact Hin].
    apply Permutation_map. now symmetry.
Qed.

(** Flattening does not see the order of the entries of any map. *)
Lemma flatten_reordered (t1 : json) :
  forall t2 : json,
    unique_keys t1 -> reordered t1 t2 ->
    forall prefix : string,
      ParameterView.flattenJSONForView t1 prefix
      = ParameterView.flattenJSONForView t2 prefix.
Proof.
  induction t1 as [| b | f | i | s | l IHl | m IHm] using json_ind;
    intros t2 Hu Hr prefix; inversion Hr as [t | l1 l2 HF | m1 m2 m3 HF Hp];
    subst; try reflexivity.
  - rewrite !flatten_array. apply unique_keys_array in Hu. clear Hr.
    generalize 0%nat. induction HF as [|x y l l' Hxy HF IH]; intros i.
    + reflexivity.
    + apply Forall_cons_1 in IHl as [Hx IHl]. apply Forall_cons_1 in Hu as [Hux Hu].
      cbn [flattenFrom]. f_equal.
      * now apply Hx.
      * now apply IH.
  - rewrite !flatten_object. apply unique_keys_object in Hu as [Hnd Hall].
    assert (Hkeys : List.map fst m = List.map fst m2).
    { clear -HF. induction HF as [|e1 e2 m m2 [He _] _ IH]; [reflexivity |].
      simpl. now rewrite He, IH. }
    assert (Hsame : GoStrings.Strings (List.map fst m)
                    = GoStrings.Strings (List.map fst m3)).
    { apply Strings_order_free. rewrite Hkeys. now apply Permutation_map. }
    rewrite <- Hsame. f_equal. apply map_ext. intros k. unfold flattenAt.
    rewrite <- (obj_lookup_order_free m2 m3 k); [| now rewrite <- Hkeys | exact Hp].
    clear -IHm Hall HF. generalize (keyPrefix prefix k) as q. intros q.
    induction HF as [|[k1 v1] [k2 v2] m m2 [He Hv] HF IH]; [reflexivity |].
    apply Forall_cons_1 in IHm as [Hx IHm]. apply Forall_cons_1 in Hall as [Hux Hall].
    simpl in He, Hv, Hx, Hux. subst k2. cbn [obj_lookup].
    destruct (String.eqb k1 k).
    + now apply Hx.
    + now apply IH.
Qed.

(** C7: flattening is a function of the value, and the value is the same
    after the call as before (the source reads [data] and writes only
    its own result slice, so the embedding is a pure function). Its result
    does not depend on the order in which the entries of the maps come:
    two values that differ in that order only, at any depth, flatten to
    the same sequence. The output is built depth first: a leaf yields its
    one pair, a map the outputs of its values one after another in the
    sorted (byte-wise lexicographic) order of the keys, a slice the outputs
    of its elements in the order of the indices. *)
Theorem flatten_deterministic (t1 t2 : json) (prefix : string) :
  unique_keys t1 -> reordered t1 t2 ->
  ParameterView.flattenJSONForView t1 prefix
  = ParameterView.flattenJSONForView t2 prefix
  /\ (forall (m : list (string * json)) (p : string),
         ParameterView.flattenJSONForView (JObject m) p
         = List.concat
             (List.map (flattenAt p m) (GoStrings.Strings (List.map fst m)))
         /\ Sorted String.le (GoStrings.Strings (List.map fst m))
         /\ Permutation (GoStrings.Strings (List.map fst m)) (List.map fst m))
  /\ (forall (l : list json) (p : string),
         ParameterView.flattenJSONForView (JArray l) p = flattenFrom p l 0)
  /\ (forall (s p : string),
         ParameterView.flattenJSONForView (JString s) p
         = [{| ParameterView.key := p; ParameterView.value := s |}])
  /\ (forall p : string,
         ParameterView.flattenJSONForView JNull p
         = [{| ParameterView.key := p; ParameterView.value := "null" |}])
  /\ (forall (v : json) (p : string),
         match v with JBool _ | JFloat _ | JInt _ => True | _ => False end ->
         ParameterView.flattenJSONForView v p
         = [{| ParameterView.key := p; ParameterView.value := Sprintf_v v |}]).
Proof.
  intros Hu Hr. split; [now apply flatten_reordered |].
  repeat apply conj.
  - intros m p. split; [apply flatten_object |].
    split; [apply Strings_sorted | apply Strings_permutation].
  - apply flatten_array.
  - reflexivity.
  - reflexivity.
  - intros [| | | | | |] p H; try contradiction; reflexivity.
Qed.

Lemma shuffled_unique_keys : unique_keys shuffled_tree.
Proof.
  cbn. repeat split; repeat constructor; cbn; intuition discriminate.
Qed.

Lemma shuffled_reordered : reordered shuffled_tree shuffled_tree'.
Proof.
  assert (Hyz : reordered (JObject [("z", JNull); ("y", JBool true)])
                  (JObject [("y", JBool true); ("z", JNull)])).
  { apply (reordered_object _ [("z", JNull); ("y", JBool true)]);
      [| apply perm_swap].
    repeat (constructor; [split; [reflexivity | apply reordered_refl] |]).
    constructor. }
  assert (Hsrv : reordered (JObject [("port", JFloat 8080); ("host", JString "x")])
                   (JObject [("host", JString "x"); ("port", JFloat 8080)])).
  { apply (reordered_object _ [("port", JFloat 8080); ("host", JString "x")]);
      [| apply perm_swap].
    repeat (constructor; [split; [reflexivity | apply reordered_refl] |]).
    constructor. }
  unfold shuffled_tree, shuffled_tree'.
  apply (reordered_object _
           [("server", JObject [("host", JString "x"); ("port", JFloat 8080)]);
            ("items", JArray [JString "a"; JObject [("y", JBool true); ("z", JNull)]])]);
    [| apply perm_swap].
  constructor; [split; [reflexivity | exact Hsrv] |].
  constructor; [split; [reflexivity |] | constructor].
  apply reordered_array.
  constructor; [apply reordered_refl |].
  constructor; [exact Hyz | constructor].
Qed.

Lemma flatten_deterministic_witness :
  ParameterView.flattenJSONForView shuffled_tree ""
  = ParameterView.flattenJSONForView shuffled_tree' "".
Proof.
  exact (proj1 (flatten_deterministic shuffled_tree shuffled_tree' ""
                  shuffled_unique_keys shuffled_reordered)).
Defined.

(** ** The screens *)

Lemma recentIndex_keys (k : string) (idx : nat) :
  ParameterListModel.recentIndex k = Some idx ->
  k = "1" \/ k = "2" \/ k = "3" \/ k = "4" \/ k = "5".
Proof.
  unfold ParameterListModel.recentIndex.
  repeat match goal with
         | |- context [String.eqb k ?s] =>
             destruct (String.eqb_spec k s); [subst; tauto |]
         end.
  discriminate.
Qed.

(** C8: on the list screen, neither loading nor searching, a key "1" to
    "5" that selects a recent entry equal to the current profile and region
    returns the screen as it is and no command; the root model, with the
    list screen active, returns itself, no command, and writes nothing. *)
Theorem recent_current_is_noop `{Externals} (m : ParameterListModel.t)
  (k : string) (idx : nat) (e : RecentEntry) :
  ParameterListModel.searchActive m = false ->
  ParameterListModel.loading m = false ->
  ParameterListModel.recentIndex k = Some idx ->
  ParameterListModel.recents m !! idx = Some e ->
  Profile e = ParameterListModel.currentProfile m ->
  Region e = ParameterListModel.currentRegion m ->
  ParameterListModel.Update m (KeyMsg k) = (m, Nil)
  /\ forall M : Ui.Model,
       Ui.currentScreen M = Ui.ParameterListScreen ->
       Ui.parameterList M = m ->
       Ui.Update M (KeyMsg k) = Ret (M, Nil, []).
Proof.
  intros Hs Hl Hk Hr Hp Hg.
  assert (Hu : ParameterListModel.Update m (KeyMsg k) = (m, Nil)).
  { unfold ParameterListModel.Update, ParameterListModel.navigate.
    rewrite Hs, Hl, Hk, Hr, Hp, Hg, !String.eqb_refl.
    destruct (recentIndex_keys k idx Hk) as [-> | [-> | [-> | [-> | ->]]]];
      reflexivity. }
  split; [exact Hu |].
  intros M HM <-. unfold Ui.Update, Ui.updateCurrentScreen.
  rewrite HM, Hu.
  destruct (recentIndex_keys k idx Hk) as [-> | [-> | [-> | [-> | ->]]]];
    destruct M; reflexivity.
Qed.

Lemma recent_current_is_noop_witness :
  ParameterListModel.Update list_on_dev (KeyMsg "2") = (list_on_dev, Nil)
  /\ forall M : Ui.Model,
       Ui.currentScreen M = Ui.ParameterListScreen ->
       Ui.parameterList M = list_on_dev ->
       Ui.Update M (KeyMsg "2") = Ret (M, Nil, []).
Proof.
  apply (recent_current_is_noop list_on_dev "2" 1%nat dev_eu); reflexivity.
Defined.

(** Routing a message to the active screen leaves the shared state of the
    root model as it is. *)
Lemma updateCurrentScreen_shared `{Externals} (m m' : Ui.Model) (msg : Msg) (cmd : Cmd) :
  Ui.updateCurrentScreen m msg = Ret (m', cmd) ->
  Ui.currentScreen m' = Ui.currentScreen m
  /\ Ui.recents m' = Ui.recents m
  /\ Ui.switchingToRecent m' = Ui.switchingToRecent m
  /\ Ui.currentProfile m' = Ui.currentProfile m
  /\ Ui.currentRegion m' = Ui.currentRegion m.
Proof.
  unfold Ui.updateCurrentScreen. destruct (Ui.currentScreen m) eqn:Hs.
  - destruct (ProfileSelector_Update _ msg). intros [= <- <-]. cbn. auto.
  - destruct (RegionSelector_Update _ msg). intros [= <- <-]. cbn. auto.
  - destruct (ParameterListModel.Update _ msg). intros [= <- <-]. cbn. auto.
  - destruct (ParameterView_Update _ msg). intros [= <- <-]. cbn. auto.
  - destruct (ParameterEditModel.Update _ msg) as [[e c]|]; [|discriminate].
    intros [= <- <-]. cbn. auto.
Qed.

(** A completed listing is routed without a panic, and the list screen
    keeps its recent entries through it. *)
Lemma updateCurrentScreen_loaded `{Externals} (m : Ui.Model) (params : list AwsParameter) :
  exists m' cmd,
    Ui.updateCurrentScreen m (ParametersLoadedMsg params) = Ret (m', cmd)
    /\ ParameterListModel.recents (Ui.parameterList m')
       = ParameterListModel.recents (Ui.parameterList m).
Proof.
  unfold Ui.updateCurrentScreen. destruct (Ui.currentScreen m).
  - destruct (ProfileSelector_Update _ _). eexists _, _. split; reflexivity.
  - destruct (RegionSelector_Update _ _). eexists _, _. split; reflexivity.
  - cbn [ParameterListModel.Update]. eexists _, _. split; [reflexivity |].
    cbn. unfold ParameterListModel.updateListTitle.
    now destruct (negb _).
  - destruct (ParameterView_Update _ _). eexists _, _. split; reflexivity.
  - cbn [ParameterEditModel.Update].
    destruct (ParameterEditModel.saving _);
      [destruct (spinner_Update _ _) |]; eexists _, _; split; reflexivity.
Qed.

(** The list screen keeps its recent entries through every message of
    its own [Update]. *)
Lemma list_Update_recents `{Externals} (l : ParameterListModel.t) (msg : Msg) :
  ParameterListModel.recents (ParameterListModel.Update l msg).1
  = ParameterListModel.recents l.
Proof.
  assert (Hcomp : forall msg',
             ParameterListModel.recents (ParameterListModel.updateComponents l msg').1
             = ParameterListModel.recents l).
  { intros msg'. unfold ParameterListModel.updateComponents.
    destruct (ParameterListModel.loading l);
      [destruct (spinner_Update _ _) | destruct (list_Update _ _)]; reflexivity. }
  assert (Htitle : forall l' : ParameterListModel.t,
             ParameterListModel.recents (ParameterListModel.updateListTitle l')
             = ParameterListModel.recents l').
  { intros l'. unfold ParameterListModel.updateListTitle. now destruct (negb _). }
  destruct msg; try apply Hcomp; cbn [ParameterListModel.Update]; try reflexivity.
  - destruct (String.eqb key "/" && negb (ParameterListModel.searchActive l)
              && negb (ParameterListModel.loading l)); [reflexivity |].
    destruct (ParameterListModel.searchActive l).
    + destruct (String.eqb key "esc"); [reflexivity |].
      destruct (String.eqb key "enter"); [reflexivity |].
      destruct (textinput_Update _ _) as [ti cmd]. cbn [fst].
      unfold ParameterListModel.filterParameters. rewrite Htitle.
      now destruct (GoStrings.is_empty _).
    + destruct (negb (ParameterListModel.loading l)); [| apply Hcomp].
      unfold ParameterListModel.navigate.
      repeat match goal with
             | |- context [if ?b then _ else _] => destruct b
             | |- context [match ?x with Some _ => _ | None => _ end] => destruct x
             end;
        try reflexivity; apply Hcomp.
  - cbn [fst]. now rewrite Htitle.
Qed.

(** Routing a message to the active screen leaves the recent entries of
    the list screen as they are. *)
Lemma updateCurrentScreen_list_recents `{Externals} (m m' : Ui.Model) (msg : Msg)
  (cmd : Cmd) :
  Ui.updateCurrentScreen m msg = Ret (m', cmd) ->
  ParameterListModel.recents (Ui.parameterList m')
  = ParameterListModel.recents (Ui.parameterList m).
Proof.
  unfold Ui.updateCurrentScreen. destruct (Ui.currentScreen m).
  - destruct (ProfileSelector_Update _ msg). now intros [= <- <-].
  - destruct (RegionSelector_Update _ msg). now intros [= <- <-].
  - pose proof (list_Update_recents (Ui.parameterList m) msg) as Hl.
    destruct (ParameterListModel.Update _ msg). now intros [= <- <-].
  - destruct (ParameterView_Update _ msg). now intros [= <- <-].
  - destruct (ParameterEditModel.Update _ msg) as [[e c]|]; [|discriminate].
    now intros [= <- <-].
Qed.

(** Setting the context and starting a listing leave the recent entries
    of the list screen as they are. *)
Lemma LoadParameters_recents `{Externals} (l : ParameterListModel.t)
  (profile region : string) (cl : Client) :
  ParameterListModel.recents
    (ParameterListModel.LoadParameters
       (ParameterListModel.SetContext l profile region) cl).1
  = ParameterListModel.recents l.
Proof.
  unfold ParameterListModel.LoadParameters, ParameterListModel.SetContext,
    ParameterListModel.updateListTitle.
  cbn [fst ParameterListModel.filtered ParameterListModel.parameters].
  now destruct (negb _).
Qed.

(** Recency is touched by two messages only. Any other message leaves the
    recent entries of the root model and of the list screen and the switch
    flag as they are, and writes no recent entries to their file. *)
Lemma update_keeps_recency `{Externals} (m m' : Ui.Model) (msg : Msg) (cmd : Cmd)
  (effs : list Effect) :
  keeps_recency msg = true ->
  Ui.Update m msg = Ret (m', cmd, effs) ->
  Ui.recents m' = Ui.recents m
  /\ Ui.switchingToRecent m' = Ui.switchingToRecent m
  /\ ParameterListModel.recents (Ui.parameterList m')
     = ParameterListModel.recents (Ui.parameterList m)
  /\ existsb saves_recents effs = false.
Proof.
  intros Hk.
  assert (Hroute : forall M : Ui.Model,
             Ui.recents M = Ui.recents m ->
             Ui.switchingToRecent M = Ui.switchingToRecent m ->
             ParameterListModel.recents (Ui.parameterList M)
             = ParameterListModel.recents (Ui.parameterList m) ->
             (r ← Ui.updateCurrentScreen M msg; Ret (r, [])) = Ret (m', cmd, effs) ->
             Ui.recents m' = Ui.recents m
             /\ Ui.switchingToRecent m' = Ui.switchingToRecent m
             /\ ParameterListModel.recents (Ui.parameterList m')
                = ParameterListModel.recents (Ui.parameterList m)
             /\ existsb saves_recents effs = false).
  { intros M H1 H2 H3.
    destruct (Ui.updateCurrentScreen M msg) as [[M' c]|] eqn:E; [| discriminate].
    cbn [mbind go_bind]. intros [= <- <- <-].
    destruct (updateCurrentScreen_shared _ _ _ _ E) as (_ & Hr & Hf & _).
    pose proof (updateCurrentScreen_list_recents _ _ _ _ E) as Hl.
    rewrite Hr, Hf, Hl. auto. }
  destruct msg; try discriminate Hk; cbn [Ui.Update].
  - apply Hroute; reflexivity.
  - destruct (String.eqb key "ctrl+c"); [intros [= <- <- <-]; auto |].
    now apply Hroute.
  - destruct (Ui.regionMapping m !! profile); intros [= <- <- <-]; cbn; auto.
  - destruct (NewClientWithRegion _ _) as [cl|e].
    + cbn [Ui.with_screen Ui.with_shared Ui.parameterList Ui.currentProfile].
      pose proof (LoadParameters_recents (Ui.parameterList m) (Ui.currentProfile m)
                    region cl) as Hl.
      destruct (ParameterListModel.LoadParameters _ cl) as [l c].
      intros [= <- <- <-]. cbn. auto.
    + intros [= <- <- <-]. cbn. auto.
  - destruct (ParameterView_LoadParameter _ _ _). intros [= <- <- <-]. cbn. auto.
  - destruct (ParameterEditModel.LoadParameter _ _ _ _) as [[e c]|]; [| discriminate].
    cbn [mbind go_bind]. intros [= <- <- <-]. cbn. auto.
  - destruct (Ui.currentScreen m); intros [= <- <- <-]; cbn; auto.
  - destruct (ParameterView_LoadParameter _ _ _). intros [= <- <- <-]. cbn. auto.
  - now apply Hroute.
  - now apply Hroute.
  - intros [= <- <- <-]. cbn. auto.
  - now apply Hroute.
Qed.

(** A run of messages that holds neither a listing nor a recent switch
    keeps recency. *)
Lemma after_messages_keeps_recency `{Externals} (msgs : list Msg) :
  forall m m' : Ui.Model,
    forallb keeps_recency msgs = true ->
    after_messages m msgs = Ret m' ->
    Ui.recents m' = Ui.recents m
    /\ Ui.switchingToRecent m' = Ui.switchingToRecent m
    /\ ParameterListModel.recents (Ui.parameterList m')
       = ParameterListModel.recents (Ui.parameterList m).
Proof.
  induction msgs as [|msg msgs IH]; intros m m' Hk; cbn [after_messages].
  - intros [= <-]. auto.
  - simpl in Hk. apply andb_true_iff in Hk as [Hmsg Hk].
    destruct (Ui.Update m msg) as [[[m1 c] effs]|] eqn:E; [| discriminate].
    cbn [mbind go_bind fst]. intros Hrun.
    destruct (update_keeps_recency _ _ _ _ _ Hmsg E) as (H1 & H2 & H3 & _).
    destruct (IH _ _ Hk Hrun) as (H4 & H5 & H6).
    rewrite H4, H5, H6. auto.
Qed.

(** C6: a completed listing always clears the switch flag. When the
    listing is empty or the flag says it came from a recent switch, the
    recent entries of the root model and of the list screen stay as they
    are and nothing is saved; a listing that is not empty and comes with
    the flag down promotes the current pair and saves the list. Recency is
    touched by nothing else: every message other than a listing and a
    recent switch keeps the recent entries, the flag and the file. A
    recent switch raises the flag and keeps the recent entries; so the
    listing it starts, handled at once or after any run of other messages
    (the tick of the spinner that the load batches with it, keys, window
    sizes), finds the flag up and leaves every entry at its rank. *)
Theorem recents_change_only_on_selection `{Externals} (m : Ui.Model)
  (params : list AwsParameter) :
  exists m' cmd effs,
    Ui.Update m (ParametersLoadedMsg params) = Ret (m', cmd, effs)
    /\ Ui.switchingToRecent m' = false
    /\ (params = [] \/ Ui.switchingToRecent m = true ->
        Ui.recents m' = Ui.recents m
        /\ effs = []
        /\ ParameterListModel.recents (Ui.parameterList m')
           = ParameterListModel.recents (Ui.parameterList m))
    /\ (params <> [] -> Ui.switchingToRecent m = false ->
        Ui.recents m'
        = AddRecentEntry (Ui.recents m)
            {| Profile := Ui.currentProfile m; Region := Ui.currentRegion m |} 5
        /\ effs = [SaveRecentEntries (Ui.recents m')]
        /\ ParameterListModel.recents (Ui.parameterList m') = Ui.recents m')
    /\ (forall (profile region : string) (cl : Client) (m1 : Ui.Model)
               (cmd1 : Cmd) (effs1 : list Effect),
           NewClientWithRegion profile region = inl cl ->
           Ui.Update m (SwitchRecentMsg profile region) = Ret (m1, cmd1, effs1) ->
           Ui.switchingToRecent m1 = true
           /\ Ui.recents m1 = Ui.recents m
           /\ forall (m2 : Ui.Model) (cmd2 : Cmd) (effs2 : list Effect),
                Ui.Update m1 (ParametersLoadedMsg params) = Ret (m2, cmd2, effs2) ->
                Ui.recents m2 = Ui.recents m /\ effs2 = [])
    /\ (forall (M M' : Ui.Model) (msg : Msg) (c : Cmd) (effs0 : list Effect),
           keeps_recency msg = true ->
           Ui.Update M msg = Ret (M', c, effs0) ->
           Ui.recents M' = Ui.recents M
           /\ Ui.switchingToRecent M' = Ui.switchingToRecent M
           /\ ParameterListModel.recents (Ui.parameterList M')
              = ParameterListModel.recents (Ui.parameterList M)
           /\ existsb saves_recents effs0 = false)
    /\ (forall (profile region : string) (cl : Client) (m1 m2 m3 : Ui.Model)
               (cmd1 cmd3 : Cmd) (effs1 effs3 : list Effect) (msgs : list Msg),
           NewClientWithRegion profile region = inl cl ->
           Ui.Update m (SwitchRecentMsg profile region) = Ret (m1, cmd1, effs1) ->
           forallb keeps_recency msgs = true ->
           after_messages m1 msgs = Ret m2 ->
           Ui.Update m2 (ParametersLoadedMsg params) = Ret (m3, cmd3, effs3) ->
           Ui.recents m3 = Ui.recents m
           /\ effs3 = []
           /\ ParameterListModel.recents (Ui.parameterList m3)
              = ParameterListModel.recents (Ui.parameterList m)
           /\ existsb saves_recents effs1 = false).
Proof.
  assert (Hload : forall (M M' : Ui.Model) (c : Cmd) (effs : list Effect),
             Ui.switchingToRecent M = true ->
             Ui.Update M (ParametersLoadedMsg params) = Ret (M', c, effs) ->
             Ui.recents M' = Ui.recents M /\ effs = []
             /\ ParameterListModel.recents (Ui.parameterList M')
                = ParameterListModel.recents (Ui.parameterList M)).
  { intros M M' c effs Hflag. cbn [Ui.Update]. rewrite Hflag, andb_false_r.
    destruct (Ui.updateCurrentScreen _ _) as [[M'' c']|] eqn:E; [|discriminate].
    intros [= <- <- <-].
    destruct (updateCurrentScreen_shared _ _ _ _ E) as (_ & -> & _).
    rewrite (updateCurrentScreen_list_recents _ _ _ _ E). auto. }
  assert (Hswitch : forall (profile region : string) (cl : Client) (m1 : Ui.Model)
                           (cmd1 : Cmd) (effs1 : list Effect),
             NewClientWithRegion profile region = inl cl ->
             Ui.Update m (SwitchRecentMsg profile region) = Ret (m1, cmd1, effs1) ->
             Ui.switchingToRecent m1 = true
             /\ Ui.recents m1 = Ui.recents m
             /\ ParameterListModel.recents (Ui.parameterList m1)
                = ParameterListModel.recents (Ui.parameterList m)
             /\ existsb saves_recents effs1 = false).
  { intros profile region cl m1 cmd1 effs1 Hcl. cbn [Ui.Update]. rewrite Hcl.
    cbn [Ui.with_shared Ui.parameterList].
    pose proof (LoadParameters_recents (Ui.parameterList m) profile region cl) as Hl.
    destruct (ParameterListModel.LoadParameters _ cl) as [l c].
    intros [= <- <- <-]. cbn. auto. }
  cbn [Ui.Update].
  set (promote := (0 <? length params)%nat && negb (Ui.switchingToRecent m)).
  match goal with
  | |- context [Ui.updateCurrentScreen ?M ?msg] =>
      destruct (updateCurrentScreen_loaded M params) as (m' & cmd & E & Hl);
      destruct (updateCurrentScreen_shared _ _ _ _ E) as (_ & Hr & Hf & _)
  end.
  exists m', cmd, (if promote then [SaveRecentEntries
                                      (AddRecentEntry (Ui.recents m)
                                         {| Profile := Ui.currentProfile m;
                                            Region := Ui.currentRegion m |} 5)]
                   else []).
  rewrite E. cbn [mbind go_bind mret go_ret].
  split; [destruct promote; reflexivity |].
  split; [exact Hf |].
  split; [| split; [| split; [| split]]].
  - intros Hcase.
    assert (Hp : promote = false).
    { unfold promote. destruct Hcase as [-> | ->]; [reflexivity |].
      apply andb_false_r. }
    rewrite Hr, Hl, Hp. cbn. auto.
  - intros Hne Hflag.
    assert (Hp : promote = true).
    { unfold promote. rewrite Hflag. destruct params; [congruence | reflexivity]. }
    rewrite Hr, Hl, Hp. cbn. auto.
  - intros profile region cl m1 cmd1 effs1 Hcl H1.
    destruct (Hswitch _ _ _ _ _ _ Hcl H1) as (Hf1 & Hr1 & _).
    split; [exact Hf1 |]. split; [exact Hr1 |].
    intros m2 cmd2 effs2 H2.
    destruct (Hload _ _ _ _ Hf1 H2) as (H3 & H4 & _). rewrite H3, Hr1. auto.
  - intros M M' msg c effs0. apply update_keeps_recency.
  - intros profile region cl m1 m2 m3 cmd1 cmd3 effs1 effs3 msgs Hcl H1 Hk Hrun H3.
    destruct (Hswitch _ _ _ _ _ _ Hcl H1) as (Hf1 & Hr1 & Hl1 & He1).
    destruct (after_messages_keeps_recency msgs m1 m2 Hk Hrun) as (Hr2 & Hf2 & Hl2).
    rewrite Hf1 in Hf2.
    destruct (Hload _ _ _ _ Hf2 H3) as (Hr3 & He3 & Hl3).
    rewrite Hr3, Hr2, Hr1, Hl3, Hl2, Hl1. auto.
Qed.

(** A listing of one parameter reaches the session after a region was
    selected: dev in eu-west-1 moves to the front and the list is saved.
    After a switch to the recent entry of prod, a tick of the spinner and a
    key, the listing leaves the entries at their ranks and saves nothing. *)
Lemma recents_change_only_on_selection_witness :
  (exists (m' : @Ui.Model plain_externals) (cmd : Cmd) (effs : list Effect),
      Ui.Update session_on_list (ParametersLoadedMsg [config_param])
      = Ret (m', cmd, effs)
      /\ Ui.recents m' = [dev_eu; prod_us]
      /\ effs = [SaveRecentEntries [dev_eu; prod_us]])
  /\ (forall (m1 m2 m3 : @Ui.Model plain_externals) (cmd1 cmd3 : Cmd)
             (effs1 effs3 : list Effect),
         Ui.Update session_on_list (SwitchRecentMsg "prod" "us-east-1")
         = Ret (m1, cmd1, effs1) ->
         after_messages m1 [LibMsg "spinner.TickMsg"; KeyMsg "down"] = Ret m2 ->
         Ui.Update m2 (ParametersLoadedMsg [config_param]) = Ret (m3, cmd3, effs3) ->
         Ui.recents m3 = [prod_us; dev_eu] /\ effs3 = []).
Proof.
  destruct (recents_change_only_on_selection (H := plain_externals)
              session_on_list [config_param])
    as (m' & cmd & effs & E & _ & _ & Hp & _ & _ & Hrun).
  split.
  - exists m', cmd, effs.
    destruct (Hp ltac:(discriminate) eq_refl) as (Hr & He & _).
    split; [exact E |]. rewrite He, Hr. split; reflexivity.
  - intros m1 m2 m3 cmd1 cmd3 effs1 effs3 H1 H2 H3.
    destruct (Hrun "prod" "us-east-1" _ m1 m2 m3 cmd1 cmd3 effs1 effs3
                [LibMsg "spinner.TickMsg"; KeyMsg "down"] eq_refl H1 eq_refl H2 H3)
      as (Hr & He & _).
    split; [exact Hr | exact He].
Defined.

(** An error message reaches the edit screen when it is the active one:
    the screen stays, the text area and the selected path are untouched,
    the error is kept for display and no command follows. *)
Lemma edit_error_stays `{Externals} (M : Ui.Model) (e : string) :
  Ui.currentScreen M = Ui.ParameterEditScreen ->
  exists M',
    Ui.Update M (ErrorMsg e) = Ret (M', Nil, [])
    /\ Ui.currentScreen M' = Ui.ParameterEditScreen
    /\ ParameterEditModel.textarea (Ui.parameterEdit M')
       = ParameterEditModel.textarea (Ui.parameterEdit M)
    /\ ParameterEditModel.selectedKey (Ui.parameterEdit M')
       = ParameterEditModel.selectedKey (Ui.parameterEdit M)
    /\ ParameterEditModel.jsonData (Ui.parameterEdit M')
       = ParameterEditModel.jsonData (Ui.parameterEdit M)
    /\ ParameterEditModel.saving (Ui.parameterEdit M') = false
    /\ ParameterEditModel.err (Ui.parameterEdit M') = Some e.
Proof.
  intros Hs. eexists. cbn [Ui.Update]. unfold Ui.updateCurrentScreen.
  rewrite Hs. cbn. repeat split; try reflexivity. exact Hs.
Qed.

(** C9: with the edit screen active on a selected path of a JSON value, a
    save whose write fails with a path error calls the parameter store not
    at all: the only command is the one that delivers the error. Through
    the save and through the error message that follows it, the session
    stays on the edit screen and the text area, the selected path and the
    parsed value are untouched; the error is kept for display. The same
    holds for any error message that reaches the edit screen. *)
Theorem failed_save_keeps_edit_buffer `{Externals} (M : Ui.Model)
  (d : option (list (string * json))) (e : string) :
  Ui.currentScreen M = Ui.ParameterEditScreen ->
  ParameterEditModel.saving (Ui.parameterEdit M) = false ->
  ParameterEditModel.isJSON (Ui.parameterEdit M) = true ->
  GoStrings.is_empty (ParameterEditModel.selectedKey (Ui.parameterEdit M)) = false ->
  ParameterEditModel.updateJSONData
    (ParameterEditModel.jsonData (Ui.parameterEdit M))
    (ParameterEditModel.selectedKey (Ui.parameterEdit M))
    (textarea_Value (ParameterEditModel.textarea (Ui.parameterEdit M)))
  = Ret (d, Some e) ->
  (exists M1 M2,
      Ui.Update M (KeyMsg "ctrl+s")
      = Ret (M1, Send (ErrorMsg ("failed to update JSON: " ++ e)), [])
      /\ Ui.Update M1 (ErrorMsg ("failed to update JSON: " ++ e)) = Ret (M2, Nil, [])
      /\ Ui.currentScreen M1 = Ui.ParameterEditScreen
      /\ Ui.currentScreen M2 = Ui.ParameterEditScreen
      /\ ParameterEditModel.textarea (Ui.parameterEdit M2)
         = ParameterEditModel.textarea (Ui.parameterEdit M)
      /\ ParameterEditModel.selectedKey (Ui.parameterEdit M2)
         = ParameterEditModel.selectedKey (Ui.parameterEdit M)
      /\ ParameterEditModel.jsonData (Ui.parameterEdit M2)
         = ParameterEditModel.jsonData (Ui.parameterEdit M)
      /\ ParameterEditModel.saving (Ui.parameterEdit M2) = false
      /\ ParameterEditModel.err (Ui.parameterEdit M2)
         = Some ("failed to update JSON: " ++ e))
  /\ (forall (M' : Ui.Model) (e' : string),
         Ui.currentScreen M' = Ui.ParameterEditScreen ->
         exists M'',
           Ui.Update M' (ErrorMsg e') = Ret (M'', Nil, [])
           /\ Ui.currentScreen M'' = Ui.ParameterEditScreen
           /\ ParameterEditModel.textarea (Ui.parameterEdit M'')
              = ParameterEditModel.textarea (Ui.parameterEdit M')
           /\ ParameterEditModel.selectedKey (Ui.parameterEdit M'')
              = ParameterEditModel.selectedKey (Ui.parameterEdit M')
           /\ ParameterEditModel.saving (Ui.parameterEdit M'') = false
           /\ ParameterEditModel.err (Ui.parameterEdit M'') = Some e').
Proof.
  intros Hs Hsav Hj Hk Hu. split.
  - assert (H1 : exists M1,
               Ui.Update M (KeyMsg "ctrl+s")
               = Ret (M1, Send (ErrorMsg ("failed to update JSON: " ++ e)), [])
               /\ Ui.currentScreen M1 = Ui.ParameterEditScreen
               /\ ParameterEditModel.textarea (Ui.parameterEdit M1)
                  = ParameterEditModel.textarea (Ui.parameterEdit M)
               /\ ParameterEditModel.selectedKey (Ui.parameterEdit M1)
                  = ParameterEditModel.selectedKey (Ui.parameterEdit M)
               /\ ParameterEditModel.jsonData (Ui.parameterEdit M1)
                  = ParameterEditModel.jsonData (Ui.parameterEdit M)).
    { exists (Ui.with_parameterEdit
                (ParameterEditModel.with_saving true None (Ui.parameterEdit M)) M).
      cbn [Ui.Update String.eqb Ascii.eqb Bool.eqb].
      unfold Ui.updateCurrentScreen. rewrite Hs.
      cbn [ParameterEditModel.Update String.eqb Ascii.eqb Bool.eqb].
      rewrite Hsav. unfold ParameterEditModel.saveParameter.
      cbn [ParameterEditModel.with_saving ParameterEditModel.isJSON
             ParameterEditModel.selectedKey ParameterEditModel.textarea
             ParameterEditModel.jsonData].
      rewrite Hj, Hk, Hu. cbn. repeat split; try reflexivity. all: exact Hs. }
    destruct H1 as (M1 & E1 & Hs1 & Ht1 & Hk1 & Hd1).
    destruct (edit_error_stays M1 ("failed to update JSON: " ++ e) Hs1)
      as (M2 & E2 & Hs2 & Ht2 & Hk2 & Hd2 & Hsv2 & He2).
    exists M1, M2. repeat split; try assumption; congruence.
  - intros M' e' Hs'.
    destruct (edit_error_stays M' e' Hs') as (M'' & E & H1 & H2 & H3 & _ & H4 & H5).
    exists M''. repeat split; assumption.
Qed.

Lemma failed_save_keeps_edit_buffer_witness :
  exists M1 M2 : @Ui.Model plain_externals,
    Ui.Update session_on_edit (KeyMsg "ctrl+s")
    = Ret (M1,
           Send (ErrorMsg "failed to update JSON: expected array at final position"),
           [])
    /\ Ui.Update M1
         (ErrorMsg "failed to update JSON: expected array at final position")
       = Ret (M2, Nil, [])
    /\ Ui.currentScreen M2 = Ui.ParameterEditScreen
    /\ ParameterEditModel.textarea (Ui.parameterEdit M2) = "typed"
    /\ ParameterEditModel.selectedKey (Ui.parameterEdit M2) = "items[5]".
Proof.
  destruct (failed_save_keeps_edit_buffer (H := plain_externals) session_on_edit
              (Some [("items", JArray [JString "a"; JString "b"; JString "c"])])
              "expected array at final position"
              eq_refl eq_refl eq_refl eq_refl eq_refl)
    as [(M1 & M2 & E1 & E2 & _ & Hs & Ht & Hk & _) _].
  exists M1, M2. repeat split; assumption.
Defined.

(** C10: when the screen does not hold a selected path of a JSON value
    (the value was not loaded as JSON, or no path is selected), a save
    hands the text of the text area to the parameter store as it is, and
    the saved parameter carries that text as its value; no inference runs.
    A load marks the value as JSON only for a valid JSON text with a path
    selected, and otherwise puts the raw value in the text area. With a
    path selected on a JSON value, the save writes the text through
    [updateJSONValue] and stores the document marshalled from the result. *)
Theorem whole_value_is_saved_verbatim `{Externals} (m : ParameterEditModel.t) :
  ParameterEditModel.isJSON m
  && negb (GoStrings.is_empty (ParameterEditModel.selectedKey m)) = false ->
  ParameterEditModel.saveParameter m
  = Ret (ParameterEditModel.with_saving true None m,
         Batch [Lib "spinner.Tick";
                PutParameter (ParameterEditModel.client m)
                  (ParameterEditModel.parameter m)
                  (textarea_Value (ParameterEditModel.textarea m))])
  /\ (forall param : AwsParameter,
         exists saved,
           putResult param (textarea_Value (ParameterEditModel.textarea m)) None
           = SaveSuccessMsg saved
           /\ Value saved = textarea_Value (ParameterEditModel.textarea m)
           /\ Name saved = Name param)
  /\ (forall (m0 m' : ParameterEditModel.t) (param : AwsParameter)
             (cl : option Client) (jsonKey : string) (cmd : Cmd),
         ParameterEditModel.LoadParameter m0 param cl jsonKey = Ret (m', cmd) ->
         ParameterEditModel.selectedKey m' = jsonKey
         /\ (ParameterEditModel.isJSON m' = true ->
             isValidJSON (Value param) = true
             /\ GoStrings.is_empty jsonKey = false
             /\ Unmarshal_map (Value param) = Some (ParameterEditModel.jsonData m'))
         /\ (ParameterEditModel.isJSON m' = false ->
             ParameterEditModel.textarea m'
             = textarea_Focus
                 (textarea_SetValue (ParameterEditModel.textarea m0) (Value param))))
  /\ (forall (m1 : ParameterEditModel.t) (data' : option (list (string * json)))
             (text : string),
         ParameterEditModel.isJSON m1 = true ->
         GoStrings.is_empty (ParameterEditModel.selectedKey m1) = false ->
         ParameterEditModel.updateJSONData (ParameterEditModel.jsonData m1)
           (ParameterEditModel.selectedKey m1)
           (textarea_Value (ParameterEditModel.textarea m1))
         = Ret (data', None) ->
         MarshalIndent (ParameterEditModel.as_value data') = inl text ->
         ParameterEditModel.saveParameter m1
         = Ret (ParameterEditModel.with_jsonData data'
                  (ParameterEditModel.with_saving true None m1),
                Batch [Lib "spinner.Tick";
                       PutParameter (ParameterEditModel.client m1)
                         (ParameterEditModel.parameter m1) text])).
Proof.
  intros Hwhole. repeat apply conj.
  - unfold ParameterEditModel.saveParameter.
    cbn [ParameterEditModel.with_saving ParameterEditModel.isJSON
           ParameterEditModel.selectedKey ParameterEditModel.textarea
           ParameterEditModel.client ParameterEditModel.parameter].
    now rewrite Hwhole.
  - intros param. eexists. cbn. repeat split.
  - intros m0 m' param cl jsonKey cmd.
    unfold ParameterEditModel.LoadParameter.
    destruct (isValidJSON (Value param)) eqn:Ev;
      destruct (GoStrings.is_empty jsonKey) eqn:Ek; cbn [andb negb];
      try (intros [= <- <-]; cbn; repeat split; try reflexivity; discriminate).
    destruct (Unmarshal_map (Value param)) as [data|] eqn:Eu.
    + destruct (ParameterEdit.getJSONValue _ jsonKey) as [v|]; [|discriminate].
      cbn. intros [= <- <-]. cbn. repeat split; try reflexivity. discriminate.
    + intros [= <- <-]. cbn. repeat split; try reflexivity; discriminate.
  - intros m1 data' text Hj Hk Hu Hm.
    unfold ParameterEditModel.saveParameter.
    cbn [ParameterEditModel.with_saving ParameterEditModel.isJSON
           ParameterEditModel.selectedKey ParameterEditModel.textarea
           ParameterEditModel.jsonData].
    rewrite Hj, Hk, Hu. cbn [andb negb mbind go_bind]. now rewrite Hm.
Qed.

Lemma whole_value_is_saved_verbatim_witness :
  ParameterEditModel.saveParameter edit_on_whole
  = Ret (ParameterEditModel.with_saving true None edit_on_whole,
         Batch [Lib "spinner.Tick"; PutParameter None (Some config_param) "true"]).
Proof.
  exact (proj1 (whole_value_is_saved_verbatim (H := plain_externals)
                  edit_on_whole eq_refl)).
Defined.

(** * Further properties

    Properties of the code beyond the claims: the path engine, the two
    forms of the flattening, the screens, the root model, the pool of
    clients and the profiles of the environment. *)

(** ** The parts of a path *)

Lemma string_of_byte_unreserved (c : ascii) :
  reserved c = false -> unreserved (GoStrings.string_of_byte c) = true.
Proof.
  destruct c as [[] [] [] [] [] [] [] []]; intros H; try discriminate H;
    vm_compute; reflexivity.
Qed.

Lemma unreserved_app (a b : string) :
  unreserved a = true -> unreserved b = true -> unreserved (a ++ b) = true.
Proof.
  unfold unreserved. induction a as [|c a IH]; intros Ha Hb; [exact Hb |].
  rewrite string_app_cons. simpl in *. apply andb_true_iff in Ha as [-> Ha].
  simpl. auto.
Qed.

Lemma forallb_snoc {A : Type} (f : A -> bool) (l : list A) (x : A) :
  forallb f l = true -> f x = true -> forallb f (app l [x]) = true.
Proof. intros Hl Hx. rewrite forallb_app, Hl. simpl. now rewrite Hx. Qed.

Lemma part_ok_intro (k : string) (a : bool) (i : Z) :
  GoStrings.is_empty k = false -> unreserved k = true ->
  a || (i =? 0)%Z = true ->
  part_ok {| ParameterEdit.key := k; ParameterEdit.isArray := a;
             ParameterEdit.index := i |} = true.
Proof.
  intros H1 H2 H3. unfold part_ok.
  cbn [ParameterEdit.key ParameterEdit.isArray ParameterEdit.index].
  now rewrite H1, H2, H3.
Qed.

Lemma parseLoop_parts_ok (rest : string) :
  forall (skip : nat) (parts : list ParameterEdit.pathPart) (current : string),
    forallb part_ok parts = true -> unreserved current = true ->
    forallb part_ok (ParameterEdit.parseLoop rest skip parts current) = true.
Proof.
  induction rest as [|ch rest IH]; intros skip parts current Hp Hc;
    cbn [ParameterEdit.parseLoop].
  - destruct (GoStrings.is_empty current) eqn:E; [exact Hp |].
    apply forallb_snoc; [exact Hp |]. now apply part_ok_intro.
  - destruct skip as [|skip]; [| now apply IH].
    destruct (Ascii.eqb ch ".") eqn:E1.
    { destruct (GoStrings.is_empty current) eqn:E; [now apply IH |].
      apply IH; [| reflexivity].
      apply forallb_snoc; [exact Hp |]. now apply part_ok_intro. }
    destruct (Ascii.eqb ch "[") eqn:E2.
    { destruct (GoStrings.is_empty current) eqn:E; [now apply IH |].
      destruct (GoStrings.Index _ _); [| reflexivity].
      apply IH; [| reflexivity].
      apply forallb_snoc; [exact Hp |]. now apply part_ok_intro. }
    destruct (Ascii.eqb ch "]") eqn:E3; [now apply IH |].
    apply IH; [exact Hp |].
    apply unreserved_app; [exact Hc |].
    apply string_of_byte_unreserved. unfold reserved. now rewrite E1, E2, E3.
Qed.

(** Every part that [parsePath] returns has a key that is not empty and
    holds none of the bytes [.], [[] and []]; a key part has index 0. *)
Theorem parsePath_parts_well_formed (path : string) :
  forallb part_ok (ParameterEdit.parsePath path) = true.
Proof. apply parseLoop_parts_ok; reflexivity. Qed.

(** ** What a write leaves alone *)

Lemma obj_lookup_store_ne (k k' : string) (v : json) (m : list (string * json)) :
  k <> k' -> obj_lookup k' (obj_store k v m) = obj_lookup k' m.
Proof.
  intros Hne. induction m as [|[k0 x] m IH]; simpl.
  - destruct (String.eqb_spec k k'); [congruence | reflexivity].
  - destruct (String.eqb_spec k0 k) as [->|H0]; simpl.
    + destruct (String.eqb_spec k k'); [congruence | reflexivity].
    + destruct (String.eqb k0 k'); [reflexivity | exact IH].
Qed.

Lemma arr_index_store_ne (arr : list json) (i j : Z) (v : json) :
  (0 <= i)%Z -> i <> j ->
  arr_index (<[Z.to_nat i := v]> arr) j = arr_index arr j.
Proof.
  intros Hi Hne. unfold arr_index. destruct (Z.ltb_spec j 0); [reflexivity |].
  rewrite list_lookup_insert_ne by lia. reflexivity.
Qed.

Section Frame.
Import ParameterEdit.

(** The value one step down from [current] along [q]. *)
Lemma resolve_step_store_array (arr : list json) (p q : pathPart) (x : json)
  (qs : list pathPart) :
  isArray p = true -> same_child p q = false ->
  (0 <= index p)%Z ->
  resolve (JArray (<[Z.to_nat (index p) := x]> arr)) (q :: qs)
  = resolve (JArray arr) (q :: qs).
Proof.
  intros Hp Hd Hi. unfold same_child in Hd. rewrite Hp in Hd.
  cbn [resolve]. destruct (isArray q); [| reflexivity].
  simpl in Hd. apply Z.eqb_neq in Hd.
  rewrite length_insert.
  destruct (Z.of_nat (length arr) <=? index q)%Z; [reflexivity |].
  now rewrite arr_index_store_ne.
Qed.

Lemma resolve_step_store_object (obj : list (string * json)) (p q : pathPart)
  (x : json) (qs : list pathPart) :
  isArray p = false -> same_child p q = false ->
  resolve (JObject (obj_store (key p) x obj)) (q :: qs)
  = resolve (JObject obj) (q :: qs).
Proof.
  intros Hp Hd. unfold same_child in Hd. rewrite Hp in Hd.
  cbn [resolve]. destruct (isArray q); [reflexivity |].
  simpl in Hd. apply String.eqb_neq in Hd.
  now rewrite obj_lookup_store_ne.
Qed.

Lemma updateAt_frame_here (p q : pathPart) (ps qs : list pathPart) :
  same_child p q = false ->
  forall (current v t' : json),
    updateAt current p ps v = Ret (Stored t') ->
    resolve t' (q :: qs) = resolve current (q :: qs).
Proof.
  intros Hd current v t' H.
  destruct ps as [|next ps]; cbn [updateAt] in H; destruct (isArray p) eqn:Hp.
  - destruct current as [| | | | |arr|]; try discriminate.
    destruct (Z.leb_spec (Z.of_nat (length arr)) (index p)); [discriminate |].
    destruct (arr_store arr (index p) v) as [arr'|] eqn:E; [|discriminate].
    cbn in H. injection H as <-. apply arr_store_Ret in E as [Hi ->].
    apply resolve_step_store_array; [assumption | assumption | lia].
  - destruct current as [| | | | | |obj]; try discriminate.
    injection H as <-. now apply resolve_step_store_object.
  - destruct current as [| | | | |arr|]; try discriminate.
    destruct (Z.leb_spec (Z.of_nat (length arr)) (index p)); [discriminate |].
    destruct (arr_index arr (index p)) as [child|] eqn:Ec; [|discriminate].
    cbn in H.
    destruct (updateAt child next ps v) as [[child'|err]|] eqn:Eu;
      cbn in H; try discriminate.
    destruct (arr_store arr (index p) child') as [arr'|] eqn:E; [|discriminate].
    cbn in H. injection H as <-. apply arr_store_Ret in E as [Hi ->].
    apply resolve_step_store_array; [assumption | assumption | lia].
  - destruct current as [| | | | | |obj]; try discriminate.
    destruct (obj_lookup (key p) obj) as [child|]; [|discriminate].
    destruct (updateAt child next ps v) as [[child'|err]|] eqn:Eu;
      cbn in H; try discriminate.
    injection H as <-. now apply resolve_step_store_object.
Qed.

Lemma updateAt_frame (p q : pathPart) (ps qs : list pathPart) :
  same_child p q = false ->
  forall (common : list pathPart) (current : json) (part : pathPart)
         (rest : list pathPart) (v t' : json),
    part :: rest = app common (p :: ps) ->
    updateAt current part rest v = Ret (Stored t') ->
    resolve t' (app common (q :: qs)) = resolve current (app common (q :: qs)).
Proof.
  intros Hd. induction common as [|c common IH];
    intros current part rest v t' Hsplit H.
  - injection Hsplit as -> ->. now apply (updateAt_frame_here p q ps qs Hd current v).
  - injection Hsplit as -> ->.
    destruct (app common (p :: ps)) as [|next rest'] eqn:Er.
    { now destruct common. }
    cbn [updateAt] in H. cbn [app resolve]. destruct (isArray c).
    + destruct current as [| | | | |arr|]; try discriminate.
      destruct (Z.leb_spec (Z.of_nat (length arr)) (index c)); [discriminate |].
      destruct (arr_index arr (index c)) as [child|] eqn:Ec; [|discriminate].
      cbn in H.
      destruct (updateAt child next rest' v) as [[child'|err]|] eqn:Eu;
        cbn in H; try discriminate.
      destruct (arr_store arr (index c) child') as [arr'|] eqn:E; [|discriminate].
      cbn in H. injection H as <-. apply arr_store_Ret in E as [Hi ->].
      rewrite length_insert.
      destruct (Z.leb_spec (Z.of_nat (length arr)) (index c)); [lia |].
      rewrite arr_index_store by assumption. cbn.
      exact (IH child next rest' v child' eq_refl Eu).
    + destruct current as [| | | | | |obj]; try discriminate.
      destruct (obj_lookup (key c) obj) as [child|]; [|discriminate].
      destruct (updateAt child next rest' v) as [[child'|err]|] eqn:Eu;
        cbn in H; try discriminate.
      injection H as <-. rewrite obj_lookup_store.
      exact (IH child next rest' v child' eq_refl Eu).
Qed.

End Frame.

(** A write that goes through changes nothing that is read along a path
    that branches off the written one: where the two paths part, they name
    different children (another key, another index, or a key against an
    index). The read at such a path returns what it returned before. *)
Theorem write_leaves_other_paths (data data' : json) (written other raw : string)
  (common ps qs : list ParameterEdit.pathPart) (p q : ParameterEdit.pathPart) :
  ParameterEdit.parsePath written = app common (p :: ps) ->
  ParameterEdit.parsePath other = app common (q :: qs) ->
  same_child p q = false ->
  ParameterEdit.updateJSONValue data written raw = Ret (data', None) ->
  ParameterEdit.getJSONValue data' other = ParameterEdit.getJSONValue data other.
Proof.
  intros Hw Ho Hd. unfold ParameterEdit.updateJSONValue, ParameterEdit.getJSONValue.
  rewrite Ho. destruct (ParameterEdit.parsePath written) as [|part rest]; [now destruct common |].
  destruct (ParameterEdit.updateAt data part rest _) as [[t|err]|] eqn:Hu;
    cbn [mbind go_bind]; try discriminate.
  intros [= <-].
  now rewrite (updateAt_frame p q ps qs Hd common data part rest _ t Hw Hu).
Qed.

Lemma write_leaves_other_paths_witness :
  ParameterEdit.getJSONValue
    (JObject [("server", JObject [("port", JInt 42); ("host", JString "x")])])
    "server.host"
  = ParameterEdit.getJSONValue server_tree "server.host".
Proof.
  apply (write_leaves_other_paths server_tree _ "server.port" "server.host" "42"
           [keyPart "server"] [] [] (keyPart "port") (keyPart "host"));
    reflexivity.
Defined.

(** ** An index on a key of the root *)

(** Once a part is in the result, it stays its head, unless the parse
    ends with no part at all. *)
Lemma parseLoop_head (rest : string) :
  forall (skip : nat) (p0 : ParameterEdit.pathPart)
         (parts : list ParameterEdit.pathPart) (current : string),
    ParameterEdit.parseLoop rest skip (p0 :: parts) current = []
    \/ exists parts', ParameterEdit.parseLoop rest skip (p0 :: parts) current
                      = p0 :: parts'.
Proof.
  induction rest as [|ch rest IH]; intros skip p0 parts current;
    cbn [ParameterEdit.parseLoop].
  - destruct (GoStrings.is_empty current); right; eexists; reflexivity.
  - destruct skip as [|skip]; [| apply IH].
    destruct (Ascii.eqb ch ".").
    { destruct (GoStrings.is_empty current); apply IH. }
    destruct (Ascii.eqb ch "[").
    { destruct (GoStrings.is_empty current); [apply IH |].
      destruct (GoStrings.Index _ _); [apply IH | now left]. }
    destruct (Ascii.eqb ch "]"); apply IH.
Qed.

(** The value the edit screen reads and writes in is a map. A path that
    opens with an indexed key ([items[1]], [items[0].name]) is answered
    against that map itself, which is no array: the key is not looked up,
    the read returns the empty string, and the write is refused and leaves
    the value as it is. *)
Theorem indexed_root_key_is_not_resolved (m : list (string * json))
  (k ds rest raw : string) :
  key_token k = true -> unclosed ds = true ->
  ParameterEdit.getJSONValue (JObject m) (k ++ "[" ++ ds ++ "]" ++ rest) = Ret ""
  /\ exists err,
       ParameterEdit.updateJSONValue (JObject m) (k ++ "[" ++ ds ++ "]" ++ rest) raw
       = Ret (JObject m, Some err).
Proof.
  intros Hk Hds.
  unfold ParameterEdit.getJSONValue, ParameterEdit.updateJSONValue,
    ParameterEdit.parsePath.
  rewrite (parseLoop_bracket k ds rest [] Hk Hds). cbn [app].
  destruct (parseLoop_head rest 0 (arrayPart k (default 0%Z (GoFmt.Sscanf_d ds))) [] "")
    as [-> | [parts' ->]].
  - split; [reflexivity | eexists; reflexivity].
  - split; [reflexivity |].
    destruct parts'; eexists; reflexivity.
Qed.

Lemma indexed_root_key_is_not_resolved_witness :
  ParameterEdit.getJSONValue
    (JObject [("items", JArray [JString "a"; JString "b"; JString "c"])])
    "items[1]" = Ret ""
  /\ exists err,
       ParameterEdit.updateJSONValue
         (JObject [("items", JArray [JString "a"; JString "b"; JString "c"])])
         "items[1]" "z"
       = Ret (JObject [("items", JArray [JString "a"; JString "b"; JString "c"])],
              Some err).
Proof.
  exact (indexed_root_key_is_not_resolved
           [("items", JArray [JString "a"; JString "b"; JString "c"])]
           "items" "1" "" "z" eq_refl eq_refl).
Defined.

(** ** Texts that scan as a number *)

(** The scan of a number accepts the words [nan] and [inf] in any letter
    case and stops after them. A text that begins with one of them
    ([nano], [Information], [-inf]) is therefore stored as the float NaN or
    as an infinity, and not as the text. *)
Theorem special_float_prefix_is_stored_as_float (caps : list bool) (rest : string) :
  ParameterEdit.parsedValue (in_case caps "nan" ++ rest) = JFloat nan
  /\ ParameterEdit.parsedValue (in_case caps "inf" ++ rest) = JFloat infinity
  /\ ParameterEdit.parsedValue ("+" ++ in_case caps "inf" ++ rest) = JFloat infinity
  /\ ParameterEdit.parsedValue ("-" ++ in_case caps "inf" ++ rest)
     = JFloat neg_infinity.
Proof.
  destruct caps as [|[] [|[] [|[] caps]]]; repeat split; vm_compute; reflexivity.
Qed.

(** ** Where the path engine can panic *)













(** ** The two forms of the flattening *)

(** [flattenJSON] yields the items of [flattenJSONForView], each printed
    as its key, a colon, a blank and its value. *)
Theorem flattenJSON_lines (data : json) :
  forall prefix : string,
    flattenJSON data prefix
    = List.map line_of (ParameterView.flattenJSONForView data prefix).
Proof.
  induction data as [| b | f | i | s | l IHl | m IHm] using json_ind;
    intros prefix; try reflexivity.
  - cbn [flattenJSON ParameterView.flattenJSONForView]. generalize 0%nat.
    induction l as [|v l IH]; intros i; [reflexivity |].
    apply Forall_cons_1 in IHl as [Hv IHl].
    rewrite map_app, <- (IH IHl), <- Hv. reflexivity.
  - cbn [flattenJSON ParameterView.flattenJSONForView].
    rewrite concat_map, map_map. f_equal. apply map_ext. intros k.
    generalize (if GoStrings.is_empty prefix then k else prefix ++ "." ++ k) as q.
    intros q. induction m as [|[k' v] m IH]; [reflexivity |].
    apply Forall_cons_1 in IHm as [Hv IHm].
    destruct (String.eqb k' k); [apply Hv | exact (IH IHm)].
Qed.

(** ** Keys with bytes outside ASCII *)

Lemma parseLoop_unreserved (k : string) :
  forall (parts : list ParameterEdit.pathPart) (current : string),
    unreserved k = true ->
    ParameterEdit.parseLoop k 0 parts current
    = ParameterEdit.parseLoop "" 0 parts (current ++ widen k).
Proof.
  induction k as [|c k IH]; intros parts current Hk.
  - now rewrite string_app_nil_r.
  - unfold unreserved in Hk. simpl in Hk. apply andb_true_iff in Hk as [Hc Hk].
    apply negb_true_iff in Hc. unfold reserved in Hc.
    apply orb_false_iff in Hc as [Hc H3]. apply orb_false_iff in Hc as [H1 H2].
    cbn [ParameterEdit.parseLoop widen]. rewrite H1, H2, H3.
    rewrite (IH _ _ Hk). now rewrite string_app_assoc.
Qed.

Lemma widen_length (s : string) :
  (String.length s <= String.length (widen s))%nat.
Proof.
  induction s as [|c s IH]; [reflexivity |].
  cbn [widen]. rewrite string_app_length. unfold GoStrings.string_of_byte.
  destruct (GoStrings.byte_val c <? 128)%N; simpl; lia.
Qed.

Lemma widen_ascii (s : string) : ascii_only s = true -> widen s = s.
Proof.
  unfold ascii_only. induction s as [|c s IH]; [reflexivity |].
  simpl. intros H. apply andb_true_iff in H as [Hc Hs].
  unfold GoStrings.string_of_byte. rewrite Hc, (IH Hs). reflexivity.
Qed.

Lemma widen_high (s : string) :
  ascii_only s = false -> (String.length s < String.length (widen s))%nat.
Proof.
  unfold ascii_only. induction s as [|c s IH]; [discriminate |].
  simpl. intros H. rewrite string_app_length. unfold GoStrings.string_of_byte.
  destruct (GoStrings.byte_val c <? 128)%N; simpl in *.
  - specialize (IH H). lia.
  - pose proof (widen_length s). lia.
Qed.

Lemma widen_nonempty (s : string) :
  GoStrings.is_empty s = false -> GoStrings.is_empty (widen s) = false.
Proof.
  destruct s as [|c s]; [discriminate |]. intros _. cbn [widen].
  unfold GoStrings.string_of_byte. now destruct (GoStrings.byte_val c <? 128)%N.
Qed.

(** [parsePath] appends the bytes of a key one by one, each converted to
    a string of its own: a byte from 0x80 on is read as a code point and
    becomes two bytes. A key of ASCII bytes is kept as it is; a key with
    any other byte is looked up under a longer, different name, so that a
    map holding just that key reads as the empty string at it. *)
Theorem parsePath_widens_bytes (k : string) (v : json) :
  GoStrings.is_empty k = false -> unreserved k = true ->
  ParameterEdit.parsePath k = [keyPart (widen k)]
  /\ (ascii_only k = true -> widen k = k)
  /\ (ascii_only k = false ->
      widen k <> k
      /\ ParameterEdit.getJSONValue (JObject [(k, v)]) k = Ret "").
Proof.
  intros Hne Hk.
  assert (Hp : ParameterEdit.parsePath k = [keyPart (widen k)]).
  { unfold ParameterEdit.parsePath. rewrite (parseLoop_unreserved k [] "" Hk).
    rewrite string_app_nil_l. cbn [ParameterEdit.parseLoop].
    now rewrite (widen_nonempty k Hne). }
  split; [exact Hp |]. split; [apply widen_ascii |].
  intros Hhigh.
  assert (Hd : widen k <> k).
  { intros E. pose proof (widen_high k Hhigh) as Hl. rewrite E in Hl. lia. }
  split; [exact Hd |].
  unfold ParameterEdit.getJSONValue. rewrite Hp.
  cbn [length Nat.eqb ParameterEdit.resolve keyPart ParameterEdit.isArray
         ParameterEdit.key obj_lookup].
  destruct (String.eqb_spec k (widen k)) as [E|_]; [congruence | reflexivity].
Qed.

(** The key of one letter outside ASCII, in its two bytes. *)
Lemma parsePath_widens_bytes_witness :
  ParameterEdit.parsePath (String "195" (String "169" ""))
  = [keyPart (String "195" (String "131" (String "194" (String "169" ""))))]
  /\ ParameterEdit.getJSONValue
       (JObject [(String "195" (String "169" ""), JString "v")])
       (String "195" (String "169" ""))
     = Ret "".
Proof.
  destruct (parsePath_widens_bytes (String "195" (String "169" "")) (JString "v")
              eq_refl eq_refl) as (Hp & _ & Hhigh).
  destruct (Hhigh eq_refl) as [_ Hread].
  split; [exact Hp | exact Hread].
Defined.

(** ** The index of a flattened key *)

Lemma pretty_N_char_digit (d : N) :
  (d < 10)%N ->
  GoFmt.is_digit (pretty_N_char d) = true
  /\ GoFmt.digit_val (pretty_N_char d) = Z.of_N d.
Proof.
  intros H.
  assert (Hc : (d = 0 \/ d = 1 \/ d = 2 \/ d = 3 \/ d = 4 \/ d = 5 \/ d = 6
                \/ d = 7 \/ d = 8 \/ d = 9)%N) by lia.
  destruct Hc as [-> | [-> | [-> | [-> | [-> | [-> | [-> | [-> | [-> | ->]]]]]]]]];
    split; reflexivity.
Qed.

Lemma list_ascii_app (a b : string) :
  list_ascii_of_string (a ++ b)
  = app (list_ascii_of_string a) (list_ascii_of_string b).
Proof.
  induction a as [|c a IH]; [reflexivity |].
  rewrite string_app_cons. simpl. now rewrite IH.
Qed.

(** [pretty_N_go x s] puts the decimal digits of [x] before [s]. *)
Lemma pretty_N_go_digits (x : N) :
  forall s : string,
    exists ds,
      pretty_N_go x s = ds ++ s
      /\ forallb GoFmt.is_digit (list_ascii_of_string ds) = true
      /\ GoFmt.digits_val ds = Z.of_N x
      /\ ((0 < x)%N -> GoStrings.is_empty ds = false).
Proof.
  induction x as [x IH] using (well_founded_induction N.lt_wf_0). intros s.
  destruct (decide (0 < x)%N) as [Hx|Hx].
  - rewrite pretty_N_go_step by exact Hx.
    destruct (IH (x `div` 10)%N ltac:(now apply N.div_lt)
                (String (pretty_N_char (x `mod` 10)) s))
      as (ds & E & Hd & Hv & _).
    destruct (pretty_N_char_digit (x `mod` 10)%N ltac:(now apply N.mod_lt))
      as [Hc Hcv].
    exists (ds ++ String (pretty_N_char (x `mod` 10)) "").
    split; [now rewrite E, string_app_assoc |].
    split; [rewrite list_ascii_app, forallb_app, Hd; simpl; now rewrite Hc |].
    split.
    + unfold GoFmt.digits_val in *. rewrite list_ascii_app, fold_left_app, Hv.
      simpl. rewrite Hcv. pose proof (N.div_mod x 10 ltac:(lia)). lia.
    + intros _. destruct ds; reflexivity.
  - replace x with 0%N by lia. exists "". rewrite pretty_N_go_0.
    repeat split. lia.
Qed.

Lemma FormatInt_digits (i : nat) :
  exists c ds,
    GoFmt.FormatInt (Z.of_nat i) = String c ds
    /\ forallb GoFmt.is_digit (list_ascii_of_string (String c ds)) = true
    /\ GoFmt.digits_val (String c ds) = Z.of_nat i.
Proof.
  unfold GoFmt.FormatInt. destruct i as [|i].
  - exists "0"%char, "". repeat split.
  - change (pretty (Z.of_nat (S i))) with (pretty_N_go (N.pos (Pos.of_succ_nat i)) "").
    destruct (pretty_N_go_digits (N.pos (Pos.of_succ_nat i)) "")
      as (ds & E & Hd & Hv & Hne).
    rewrite string_app_nil_r in E. rewrite E.
    destruct ds as [|c ds]; [now specialize (Hne ltac:(lia)) |].
    exists c, ds. repeat split; [exact Hd |]. rewrite Hv. lia.
Qed.

(** The index that the view prints into a flattened key ([k[i]]) is the
    index that the path parser of the edit screen reads back from it, as
    one array part under the key [k]. *)
Theorem printed_index_is_parsed_back (k : string) (i : nat) :
  key_token k = true -> (Z.of_nat i <= GoFmt.MaxInt64)%Z ->
  GoFmt.Sscanf_d (GoFmt.FormatInt (Z.of_nat i)) = Some (Z.of_nat i)
  /\ ParameterEdit.parsePath (indexPrefix k i) = [arrayPart k (Z.of_nat i)].
Proof.
  intros Hk Hmax.
  destruct (FormatInt_digits i) as (c & ds & E & Hd & Hv).
  assert (Hs : GoFmt.Sscanf_d (GoFmt.FormatInt (Z.of_nat i)) = Some (Z.of_nat i)).
  { rewrite E, <- Hv. apply Sscanf_d_digits; [exact Hd | now rewrite Hv]. }
  split; [exact Hs |].
  unfold indexPrefix, ParameterEdit.parsePath.
  rewrite <- (string_app_nil_r "]").
  rewrite parseLoop_bracket; [| exact Hk | rewrite E; now apply digits_unclosed].
  rewrite Hs. reflexivity.
Qed.

Lemma printed_index_is_parsed_back_witness :
  GoFmt.Sscanf_d (GoFmt.FormatInt (Z.of_nat 12)) = Some (Z.of_nat 12)
  /\ ParameterEdit.parsePath (indexPrefix "items" 12) = [arrayPart "items" (Z.of_nat 12)].
Proof.
  apply (printed_index_is_parsed_back "items" 12); [reflexivity |].
  unfold GoFmt.MaxInt64. lia.
Defined.

(** ** The view and the edit screen on nested maps *)












(** ** A write as the view shows it *)








(** ** The list screen: what it shows *)

Lemma updateListTitle_fields `{Externals} (m : ParameterListModel.t) :
  ParameterListModel.parameters (ParameterListModel.updateListTitle m)
  = ParameterListModel.parameters m
  /\ ParameterListModel.filtered (ParameterListModel.updateListTitle m)
     = ParameterListModel.filtered m.
Proof.
  unfold ParameterListModel.updateListTitle. now destruct (negb _).
Qed.

Lemma updateComponents_fields `{Externals} (m : ParameterListModel.t) (msg : Msg) :
  ParameterListModel.parameters (ParameterListModel.updateComponents m msg).1
  = ParameterListModel.parameters m
  /\ ParameterListModel.filtered (ParameterListModel.updateComponents m msg).1
     = ParameterListModel.filtered m.
Proof.
  unfold ParameterListModel.updateComponents.
  destruct (ParameterListModel.loading m);
    [destruct (spinner_Update _ _) | destruct (list_Update _ _)]; split; reflexivity.
Qed.

Lemma navigate_fields `{Externals} (m : ParameterListModel.t) (k : string) (msg : Msg) :
  ParameterListModel.parameters (ParameterListModel.navigate m k msg).1
  = ParameterListModel.parameters m
  /\ ParameterListModel.filtered (ParameterListModel.navigate m k msg).1
     = ParameterListModel.filtered m.
Proof.
  unfold ParameterListModel.navigate.
  repeat match goal with
         | |- context [if ?b then _ else _] => destruct b
         | |- context [match ?x with Some _ => _ | None => _ end] => destruct x
         end;
    try (split; reflexivity); apply updateComponents_fields.
Qed.

Lemma sublist_List_filter {A : Type} (f : A -> bool) (l : list A) :
  sublist (List.filter f l) l.
Proof.
  induction l as [|x l IH]; [constructor |].
  simpl. destruct (f x); now constructor.
Qed.

(** The parameters the list screen offers are always among the loaded
    ones, in their order: whatever the message, the filtered list stays a
    sublist of the loaded list. The loaded list itself changes only when a
    listing arrives. *)
Theorem list_offers_loaded_parameters `{Externals} (m : ParameterListModel.t)
  (msg : Msg) :
  sublist (ParameterListModel.filtered m) (ParameterListModel.parameters m) ->
  sublist (ParameterListModel.filtered (ParameterListModel.Update m msg).1)
          (ParameterListModel.parameters (ParameterListModel.Update m msg).1)
  /\ ParameterListModel.parameters (ParameterListModel.Update m msg).1
     = match msg with
       | ParametersLoadedMsg params => params
       | _ => ParameterListModel.parameters m
       end.
Proof.
  intros Hsub.
  assert (Hcomp : forall msg',
             sublist (ParameterListModel.filtered
                        (ParameterListModel.updateComponents m msg').1)
                     (ParameterListModel.parameters
                        (ParameterListModel.updateComponents m msg').1)
             /\ ParameterListModel.parameters
                  (ParameterListModel.updateComponents m msg').1
                = ParameterListModel.parameters m).
  { intros msg'. destruct (updateComponents_fields m msg') as [-> ->]. auto. }
  destruct msg; try apply Hcomp; cbn [ParameterListModel.Update].
  - split; [exact Hsub | reflexivity].
  - destruct (String.eqb key "/" && negb (ParameterListModel.searchActive m)
              && negb (ParameterListModel.loading m)).
    { split; [exact Hsub | reflexivity]. }
    destruct (ParameterListModel.searchActive m).
    + destruct (String.eqb key "esc"); [split; reflexivity |].
      destruct (String.eqb key "enter"); [split; [exact Hsub | reflexivity] |].
      destruct (textinput_Update _ _) as [ti cmd]. cbn [fst].
      unfold ParameterListModel.filterParameters.
      match goal with
      | |- context [ParameterListModel.updateListTitle ?x] =>
          destruct (updateListTitle_fields x) as [-> ->]
      end.
      destruct (GoStrings.is_empty _); cbn; split; try reflexivity.
      apply sublist_List_filter.
    + destruct (negb (ParameterListModel.loading m)); [| apply Hcomp].
      destruct (navigate_fields m key (KeyMsg key)) as [-> ->]. auto.
  - split; [exact Hsub | reflexivity].
  - cbn [fst].
    match goal with
    | |- context [ParameterListModel.updateListTitle ?x] =>
        destruct (updateListTitle_fields x) as [-> ->]
    end.
    cbn. split; reflexivity.
Qed.

Lemma list_offers_loaded_parameters_witness :
  sublist (ParameterListModel.filtered
             (ParameterListModel.Update list_on_dev (ParametersLoadedMsg [config_param])).1)
          (ParameterListModel.parameters
             (ParameterListModel.Update list_on_dev (ParametersLoadedMsg [config_param])).1)
  /\ ParameterListModel.parameters
       (ParameterListModel.Update list_on_dev (ParametersLoadedMsg [config_param])).1
     = [config_param].
Proof.
  apply (list_offers_loaded_parameters (H := plain_externals) list_on_dev
           (ParametersLoadedMsg [config_param])).
  reflexivity.
Defined.

(** ** The root model: navigation and memory *)

(** A Back message changes the screen and nothing else, issues no command
    and writes nothing: edit leads to view, view to the list, the list to
    the region selector, that one to the profile selector, which stays.
    Four Back messages in a row end on the profile selector from any
    screen. *)
Theorem back_leads_to_the_profile_selector `{Externals} (m : Ui.Model) :
  (exists s, Ui.Update m BackMsg = Ret (Ui.with_screen s m, Nil, [])
             /\ s = match Ui.currentScreen m with
                    | Ui.ParameterEditScreen => Ui.ParameterViewScreen
                    | Ui.ParameterViewScreen => Ui.ParameterListScreen
                    | Ui.ParameterListScreen => Ui.RegionSelectorScreen
                    | _ => Ui.ProfileSelectorScreen
                    end)
  /\ after_backs 4 m = Ret (Ui.with_screen Ui.ProfileSelectorScreen m).
Proof.
  destruct m as [s ps rs pl pv pe profs cp cr cl rm rc fl w h].
  destruct s; split; try (eexists; split; reflexivity); reflexivity.
Qed.


(** ** Where the root model can panic *)





(** ** The view screen: the selection *)

Section View.
Context `{ViewExternals}.
Import ParameterViewModel.

Lemma selection_ok_intro (m : t) :
  (0 <= selectedIndex m)%Z ->
  (selectedIndex m < Z.of_nat (length (jsonKeys m)))%Z \/ selectedIndex m = 0%Z ->
  (isJSON m && (0 <? length (jsonKeys m))%nat = true -> is_Some (parameter m)) ->
  selection_ok m = true.
Proof.
  intros H1 H2 H3. unfold selection_ok.
  apply andb_true_iff. split; [apply andb_true_iff; split |].
  - now apply Z.leb_le.
  - apply orb_true_iff. destruct H2 as [H2 | H2];
      [left; now apply Z.ltb_lt | right; now apply Z.eqb_eq].
  - destruct (isJSON m && (0 <? length (jsonKeys m))%nat); [| reflexivity].
    cbn [negb orb]. apply bool_decide_eq_true. now apply H3.
Qed.

Lemma selection_ok_elim (m : t) :
  selection_ok m = true ->
  (0 <= selectedIndex m)%Z
  /\ ((selectedIndex m < Z.of_nat (length (jsonKeys m)))%Z \/ selectedIndex m = 0%Z)
  /\ (isJSON m && (0 <? length (jsonKeys m))%nat = true -> is_Some (parameter m)).
Proof.
  unfold selection_ok. intros Hs.
  apply andb_true_iff in Hs as [Hs H3]. apply andb_true_iff in Hs as [H1 H2].
  apply Z.leb_le in H1. apply orb_true_iff in H2.
  split; [exact H1 |]. split.
  - destruct H2 as [H2 | H2]; [left; now apply Z.ltb_lt | right; now apply Z.eqb_eq].
  - intros Hj. rewrite Hj in H3. cbn [negb orb] in H3.
    now apply bool_decide_eq_true in H3.
Qed.

(** With items on the screen and the selection in order, the selected
    item is there. *)
Lemma selected_item (m : t) :
  selection_ok m = true ->
  isJSON m && (0 <? length (jsonKeys m))%nat = true ->
  exists item,
    jsonKeys m !! Z.to_nat (selectedIndex m) = Some item
    /\ slice_index (jsonKeys m) (selectedIndex m) = Ret item.
Proof.
  intros Hs Hj. destruct (selection_ok_elim m Hs) as (H1 & H2 & _).
  apply andb_true_iff in Hj as [_ Hlen]. apply Nat.ltb_lt in Hlen.
  destruct (lookup_lt_is_Some_2 (jsonKeys m) (Z.to_nat (selectedIndex m)))
    as [item Hitem]; [lia |].
  exists item. split; [exact Hitem |]. unfold slice_index.
  destruct (Z.ltb_spec (selectedIndex m) 0); [lia |]. now rewrite Hitem.
Qed.

Lemma updateComponents_selection (m : t) (msg : Msg) :
  selection_ok m = true -> selection_ok (updateComponents m msg).1 = true.
Proof.
  unfold updateComponents.
  destruct (loading m); [destruct (spinner_Update _ _) | destruct (viewport_Update _ _)];
    intros Hs; exact Hs.
Qed.

Lemma handleKey_selection (m : t) (k : string) :
  selection_ok m = true ->
  exists m' cmd, handleKey m k = Ret (m', cmd) /\ selection_ok m' = true.
Proof.
  intros Hs. destruct (selection_ok_elim m Hs) as (H1 & H2 & H3).
  unfold handleKey.
  destruct (isJSON m && (0 <? length (jsonKeys m))%nat) eqn:Hj.
  - destruct (selected_item m Hs Hj) as (item & _ & Hitem).
    destruct (H3 eq_refl) as [p Hp].
    pose proof Hj as Hj0. apply andb_true_iff in Hj0 as [_ Hlen].
    apply Nat.ltb_lt in Hlen.
    destruct (String.eqb k "e").
    { rewrite Hitem. eexists _, _. split; [reflexivity | exact Hs]. }
    destruct (String.eqb k "c").
    { rewrite Hp, Hitem. eexists _, _. split; [reflexivity | exact Hs]. }
    destruct (String.eqb k "up" || String.eqb k "k"); cbn [andb].
    { destruct (Z.ltb_spec 0 (selectedIndex m)).
      - unfold refresh. cbn [parameter with_selectedIndex]. rewrite Hp.
        eexists _, _. split; [reflexivity |].
        apply selection_ok_intro; cbn; [lia | lia |]. intros _. now rewrite Hp.
      - eexists _, _. split; [reflexivity | exact Hs]. }
    destruct (String.eqb k "down" || String.eqb k "j"); cbn [andb].
    { destruct (Z.ltb_spec (selectedIndex m) (Z.of_nat (length (jsonKeys m)) - 1)).
      - unfold refresh. cbn [parameter with_selectedIndex]. rewrite Hp.
        eexists _, _. split; [reflexivity |].
        apply selection_ok_intro; cbn; [lia | lia |]. intros _. now rewrite Hp.
      - eexists _, _. split; [reflexivity | exact Hs]. }
    destruct (String.eqb k "backspace" || String.eqb k "esc");
      [eexists _, _; split; [reflexivity | exact Hs] |].
    destruct (String.eqb k "q" || String.eqb k "ctrl+c");
      [eexists _, _; split; [reflexivity | exact Hs] |].
    pose proof (updateComponents_selection m (KeyMsg k) Hs).
    destruct (updateComponents m (KeyMsg k)). eexists _, _. split; [reflexivity | assumption].
  - destruct (String.eqb k "e");
      [eexists _, _; split; [reflexivity | exact Hs] |].
    destruct (String.eqb k "c").
    { destruct (parameter m); eexists _, _; (split; [reflexivity | exact Hs]). }
    rewrite !andb_false_r.
    destruct (String.eqb k "backspace" || String.eqb k "esc");
      [eexists _, _; split; [reflexivity | exact Hs] |].
    destruct (String.eqb k "q" || String.eqb k "ctrl+c");
      [eexists _, _; split; [reflexivity | exact Hs] |].
    pose proof (updateComponents_selection m (KeyMsg k) Hs).
    destruct (updateComponents m (KeyMsg k)). eexists _, _. split; [reflexivity | assumption].
Qed.

Lemma Update_selection (m : t) (msg : ViewMsg) :
  selection_ok m = true ->
  exists m' cmd, Update m msg = Ret (m', cmd) /\ selection_ok m' = true.
Proof.
  intros Hs. pose proof (selection_ok_elim m Hs) as (H1 & H2 & H3).
  assert (Hcomp : forall msg', exists m' cmd,
             Ret (updateComponents m msg') = Ret (m', cmd) /\ selection_ok m' = true).
  { intros msg'. pose proof (updateComponents_selection m msg' Hs).
    destruct (updateComponents m msg'). eexists _, _. split; [reflexivity | assumption]. }
  destruct msg as [msg | e text |]; [| eexists _, _; split; [reflexivity | exact Hs] ..].
  destruct msg; cbn [Update]; try apply Hcomp.
  - destruct (negb (ready m)).
    + destruct (parameter m) eqn:Hp; cbn [with_viewport parameter]; rewrite ?Hp;
        eexists _, _; (split; [reflexivity |]);
        apply selection_ok_intro; cbn; try assumption; rewrite ?Hp; auto.
    + eexists _, _. split; [reflexivity | exact Hs].
  - destruct (loading m); [eexists _, _; split; [reflexivity | exact Hs] |].
    now apply handleKey_selection.
  - eexists _, _. split; [reflexivity | exact Hs].
  - eexists _, _. split; [reflexivity |].
    apply selection_ok_intro; cbn; [lia | now right | intros _; eexists; reflexivity].
Qed.

Lemma view_step_selection (m : t) (ev : ViewEvent) :
  selection_ok m = true ->
  exists m', view_step m ev = Ret m' /\ selection_ok m' = true.
Proof.
  intros Hs. destruct ev as [msg | param cl | w h | p r]; cbn [view_step].
  - destruct (Update_selection m msg Hs) as (m' & cmd & -> & Hs').
    exists m'. split; [reflexivity | exact Hs'].
  - eexists. split; [reflexivity |].
    destruct (selection_ok_elim m Hs) as (H1 & H2 & _).
    apply selection_ok_intro; cbn; try assumption. intros _. eexists; reflexivity.
  - eexists. split; [reflexivity | exact Hs].
  - eexists. split; [reflexivity | exact Hs].
Qed.

End View.

(** The view screen never panics. From the fresh screen, through any
    sequence of messages, loads, resizes and context changes, every step
    returns, and the selection stays in order: the index is never negative
    and always points at an item (or is 0 when there is none), so that
    [jsonKeys[selectedIndex]] is in range whenever the keys [e] and [c]
    read it, and the parameter is there whenever the lines are redrawn. *)
Theorem view_selection_stays_in_range `{ViewExternals} (evs : list ViewEvent) :
  exists m,
    view_run ParameterViewModel.NewParameterView evs = Ret m
    /\ selection_ok m = true
    /\ (ParameterViewModel.isJSON m
        && (0 <? length (ParameterViewModel.jsonKeys m))%nat = true ->
        exists item,
          ParameterViewModel.jsonKeys m
            !! Z.to_nat (ParameterViewModel.selectedIndex m) = Some item
          /\ slice_index (ParameterViewModel.jsonKeys m)
               (ParameterViewModel.selectedIndex m) = Ret item).
Proof.
  assert (Hrun : forall (evs' : list ViewEvent) (m0 : ParameterViewModel.t),
             selection_ok m0 = true ->
             exists m, view_run m0 evs' = Ret m /\ selection_ok m = true).
  { induction evs' as [|ev evs' IH]; intros m0 Hs; cbn [view_run].
    - exists m0. auto.
    - destruct (view_step_selection m0 ev Hs) as (m1 & -> & Hs1).
      cbn [mbind go_bind]. now apply IH. }
  destruct (Hrun evs ParameterViewModel.NewParameterView eq_refl) as (m & Hm & Hs).
  exists m. split; [exact Hm |]. split; [exact Hs |]. now apply selected_item.
Qed.

(** ** The pool of clients *)

Lemma poolLoop_inl `{Externals} (profiles : list string) (region : string) :
  forall pool pool' : gmap string Client,
    poolLoop profiles region pool = inl pool' ->
    Forall (fun p => exists cl, NewClientWithRegion p region = inl cl) profiles
    /\ forall p : string,
         pool' !! p
         = if bool_decide (p ∈ profiles)
           then match NewClientWithRegion p region with
                | inl cl => Some cl
                | inr _ => None
                end
           else pool !! p.
Proof.
  induction profiles as [|q profiles IH]; intros pool pool'; cbn [poolLoop].
  - intros [= <-]. split; [constructor |]. intros p.
    rewrite bool_decide_eq_false_2 by apply not_elem_of_nil. reflexivity.
  - destruct (NewClientWithRegion q region) as [cl|e] eqn:Eq; [| discriminate].
    intros Hl. destruct (IH _ _ Hl) as [Hall Hlook].
    split; [constructor; [now exists cl | exact Hall] |].
    intros p. rewrite Hlook.
    destruct (decide (p ∈ profiles)) as [Hin|Hnin].
    + rewrite bool_decide_eq_true_2 by exact Hin.
      rewrite bool_decide_eq_true_2 by (apply elem_of_cons; now right). reflexivity.
    + rewrite (bool_decide_eq_false_2 _ Hnin).
      destruct (decide (q = p)) as [->|Hne].
      * rewrite bool_decide_eq_true_2 by (apply elem_of_cons; now left).
        now rewrite lookup_insert_eq, Eq.
      * rewrite bool_decide_eq_false_2
          by (intros Hin; apply elem_of_cons in Hin as [?|?]; congruence).
        now apply lookup_insert_ne.
Qed.

Lemma poolLoop_inr `{Externals} (profiles : list string) (region : string) :
  forall (pool : gmap string Client) (e : string),
    poolLoop profiles region pool = inr e ->
    exists (before after : list string) (p err : string),
      profiles = app before (p :: after)
      /\ Forall (fun q => exists cl, NewClientWithRegion q region = inl cl) before
      /\ NewClientWithRegion p region = inr err
      /\ e = "failed to create client for profile " ++ p ++ ": " ++ err.
Proof.
  induction profiles as [|q profiles IH]; intros pool e; cbn [poolLoop];
    [discriminate |].
  destruct (NewClientWithRegion q region) as [cl|err] eqn:Eq.
  - intros Hl. destruct (IH _ _ Hl) as (before & after & p & err & -> & Hb & Hp & He).
    exists (q :: before), after, p, err. repeat split; try assumption.
    constructor; [now exists cl | exact Hb].
  - intros [= <-]. exists [], profiles, q, err. repeat split; auto.
Qed.

(** The pool of clients holds, for every profile of the list, the client
    created for it with the region, and nothing else; it is built only if
    every client can be created. Otherwise the error names the first
    profile whose client cannot be created, and carries its error. *)
Theorem client_pool_covers_the_profiles `{Externals} (profiles : list string)
  (region : string) :
  match NewClientPoolWithRegion profiles region with
  | inl pool =>
      Forall (fun p => exists cl, NewClientWithRegion p region = inl cl) profiles
      /\ forall p : string,
           pool !! p
           = if bool_decide (p ∈ profiles)
             then match NewClientWithRegion p region with
                  | inl cl => Some cl
                  | inr _ => None
                  end
             else None
  | inr e =>
      exists (before after : list string) (p err : string),
        profiles = app before (p :: after)
        /\ Forall (fun q => exists cl, NewClientWithRegion q region = inl cl) before
        /\ NewClientWithRegion p region = inr err
        /\ e = "failed to create client for profile " ++ p ++ ": " ++ err
  end.
Proof.
  unfold NewClientPoolWithRegion.
  destruct (poolLoop profiles region ∅) as [pool|e] eqn:E.
  - destruct (poolLoop_inl _ _ _ _ E) as [Hall Hlook]. split; [exact Hall |].
    intros p. rewrite Hlook. now rewrite lookup_empty.
  - now apply poolLoop_inr in E.
Qed.

(** ** The profiles of the environment *)

Lemma splitLoop_no_sep (sep : ascii) (s : string) :
  forall piece : string,
    forallb (fun c => negb (Ascii.eqb c sep)) (list_ascii_of_string piece) = true ->
    Forall (fun p => forallb (fun c => negb (Ascii.eqb c sep))
                       (list_ascii_of_string p) = true)
      (splitLoop sep s piece).
Proof.
  induction s as [|c s IH]; intros piece Hp; cbn [splitLoop].
  - repeat constructor. exact Hp.
  - destruct (Ascii.eqb c sep) eqn:E.
    + constructor; [exact Hp | now apply IH].
    + apply IH. rewrite list_ascii_app, forallb_app, Hp. simpl. now rewrite E.
Qed.

Lemma splitLoop_nonempty (sep : ascii) (s piece : string) :
  splitLoop sep s piece <> [].
Proof.
  revert piece. induction s as [|c s IH]; intros piece; cbn [splitLoop];
    [discriminate |].
  destruct (Ascii.eqb c sep); [discriminate | apply IH].
Qed.

(** Joining the pieces with the separator gives the text back. *)
Lemma splitLoop_join (sep : ascii) (s : string) :
  forall piece : string,
    String.concat (String sep "") (splitLoop sep s piece) = piece ++ s.
Proof.
  induction s as [|c s IH]; intros piece; cbn [splitLoop].
  - cbn. now rewrite string_app_nil_r.
  - destruct (Ascii.eqb_spec c sep) as [->|Hne].
    + pose proof (splitLoop_nonempty sep s "") as Hn.
      specialize (IH ""). destruct (splitLoop sep s "") as [|x l]; [congruence |].
      change (String.concat (String sep "") (piece :: x :: l))
        with (piece ++ String sep "" ++ String.concat (String sep "") (x :: l)).
      rewrite IH. reflexivity.
    + rewrite IH, string_app_assoc. reflexivity.
Qed.

(** The profiles come from the environment: without PS9S_AWS_PROFILES,
    the one profile of AWS_PROFILE, or [default]; with it, the pieces
    between its commas, each trimmed, the empty ones dropped and the order
    kept. The list returned is never empty and holds no empty name; the
    call fails exactly when the variable is set and nothing is left of its
    pieces. The pieces hold no comma, and joined by commas they are the
    value of the variable. *)
Theorem profiles_come_from_the_environment `{StringsPackage}
  (getenv : string -> string) :
  (getenv "PS9S_AWS_PROFILES" = "" ->
   GetProfilesFromEnv getenv
   = inl [if GoStrings.is_empty (getenv "AWS_PROFILE") then "default"
          else getenv "AWS_PROFILE"])
  /\ (getenv "PS9S_AWS_PROFILES" <> "" ->
      let names :=
        List.filter (fun p => negb (GoStrings.is_empty p))
          (List.map TrimSpace (Split (getenv "PS9S_AWS_PROFILES") ",")) in
      GetProfilesFromEnv getenv
      = if bool_decide (names = [])
        then inr "no valid profiles found in PS9S_AWS_PROFILES"
        else inl names)
  /\ (forall profiles : list string,
         GetProfilesFromEnv getenv = inl profiles ->
         profiles <> [] /\ Forall (fun p => p <> "") profiles)
  /\ Forall (fun piece => forallb (fun c => negb (Ascii.eqb c ","))
                            (list_ascii_of_string piece) = true)
       (Split (getenv "PS9S_AWS_PROFILES") ",")
  /\ String.concat "," (Split (getenv "PS9S_AWS_PROFILES") ",")
     = getenv "PS9S_AWS_PROFILES".
Proof.
  unfold GetProfilesFromEnv. repeat apply conj.
  - intros ->. reflexivity.
  - intros Hne. apply is_empty_false_iff in Hne. rewrite Hne. cbn zeta.
    destruct (List.filter _ _) as [|p ps] eqn:E; reflexivity.
  - intros profiles.
    destruct (GoStrings.is_empty (getenv "PS9S_AWS_PROFILES")).
    + intros [= <-]. split; [discriminate |]. repeat constructor.
      destruct (GoStrings.is_empty (getenv "AWS_PROFILE")) eqn:E; [discriminate |].
      now apply is_empty_false_iff.
    + destruct (List.filter _ _) as [|p ps] eqn:E; [discriminate |].
      cbn [length Nat.eqb]. intros [= <-]. split; [discriminate |].
      rewrite <- E. apply List.Forall_forall. intros x Hx.
      apply filter_In in Hx as [_ Hx]. apply negb_true_iff in Hx.
      now apply is_empty_false_iff.
  - apply splitLoop_no_sep. reflexivity.
  - apply (splitLoop_join "," _ "").
Qed.

(** ** From the view screen to the edit screen *)

Section ViewKeys.
Context `{ViewExternals}.
Import ParameterViewModel.

(** One [down] on a screen that shows its items. *)
Lemma down_step (m : t) (p : AwsParameter) :
  loading m = false -> isJSON m = true -> jsonKeys m <> [] ->
  parameter m = Some p ->
  exists m',
    Update m (Shared (KeyMsg "down")) = Ret (m', Plain Nil)
    /\ loading m' = false /\ isJSON m' = true /\ jsonKeys m' = jsonKeys m
    /\ parameter m' = Some p
    /\ selectedIndex m'
       = if (selectedIndex m <? Z.of_nat (length (jsonKeys m)) - 1)%Z
         then (selectedIndex m + 1)%Z else selectedIndex m.
Proof.
  intros Hl Hj Hk Hp. cbn [Update]. rewrite Hl. unfold handleKey.
  assert (Hon : isJSON m && (0 <? length (jsonKeys m))%nat = true).
  { rewrite Hj. destruct (jsonKeys m); [congruence | reflexivity]. }
  rewrite Hon. cbn [String.eqb Ascii.eqb Bool.eqb orb andb].
  destruct (selectedIndex m <? Z.of_nat (length (jsonKeys m)) - 1)%Z.
  - unfold refresh. cbn [parameter with_selectedIndex]. rewrite Hp.
    eexists. split; [reflexivity |]. cbn. auto.
  - eexists. split; [reflexivity |]. auto.
Qed.

Lemma downs (n : nat) :
  forall (m : t) (p : AwsParameter),
    loading m = false -> isJSON m = true -> jsonKeys m <> [] ->
    parameter m = Some p ->
    (0 <= selectedIndex m < Z.of_nat (length (jsonKeys m)))%Z ->
    exists m',
      view_run m (repeat (pressed "down") n) = Ret m'
      /\ loading m' = false /\ isJSON m' = true /\ jsonKeys m' = jsonKeys m
      /\ parameter m' = Some p
      /\ selectedIndex m'
         = Z.min (selectedIndex m + Z.of_nat n)
             (Z.of_nat (length (jsonKeys m)) - 1).
Proof.
  induction n as [|n IH]; intros m p Hl Hj Hk Hp Hi.
  - exists m. cbn. repeat split; try assumption. lia.
  - cbn [repeat view_run view_step pressed].
    destruct (down_step m p Hl Hj Hk Hp) as (m1 & -> & Hl1 & Hj1 & Hk1 & Hp1 & Hi1).
    cbn [mbind go_bind fst].
    destruct (IH m1 p Hl1 Hj1 ltac:(now rewrite Hk1) Hp1) as (m2 & Hrun & H1 & H2 & H3 & H4 & H5).
    { rewrite Hk1, Hi1.
      destruct (Z.ltb_spec (selectedIndex m) (Z.of_nat (length (jsonKeys m)) - 1)); lia. }
    exists m2. split; [exact Hrun |]. repeat split; try assumption; [congruence |].
    rewrite H5, Hk1, Hi1.
    destruct (Z.ltb_spec (selectedIndex m) (Z.of_nat (length (jsonKeys m)) - 1)); lia.
Qed.

End ViewKeys.

(** The keys [e] and [c] act on the highlighted line. After a JSON value
    is loaded into the view and [down] is pressed [n] times, the selection
    stands on line [n] of the flattened value, or on the last line if there
    are fewer; [e] then asks for the edit screen with the parameter and the
    key of that line, and [c] copies the value of that line. *)
Theorem keys_act_on_the_selected_line `{ViewExternals} (m : ParameterViewModel.t)
  (param : AwsParameter) (data : json) (n : nat)
  (item : ParameterView.jsonKeyItem) :
  Unmarshal (Value param) = Some data ->
  ParameterView.flattenJSONForView data ""
    !! Nat.min n (length (ParameterView.flattenJSONForView data "") - 1)
  = Some item ->
  exists m1 m2,
    ParameterViewModel.Update m
      (ParameterViewModel.Shared (ParameterValueLoadedMsg param))
    = Ret (m1, ParameterViewModel.Plain Nil)
    /\ view_run m1 (repeat (pressed "down") n) = Ret m2
    /\ ParameterViewModel.selectedIndex m2
       = Z.of_nat (Nat.min n (length (ParameterView.flattenJSONForView data "") - 1))
    /\ ParameterViewModel.Update m2 (ParameterViewModel.Shared (KeyMsg "e"))
       = Ret (m2, ParameterViewModel.SendEdit (Some param) (ParameterView.key item))
    /\ ParameterViewModel.Update m2 (ParameterViewModel.Shared (KeyMsg "c"))
       = Ret (m2, ParameterViewModel.CopyThenClear (ParameterView.value item)).
Proof.
  intros Hdec Hitem.
  set (keys := ParameterView.flattenJSONForView data "") in *.
  assert (Hne : keys <> []).
  { intros E. rewrite E in Hitem. discriminate. }
  assert (Hlen : (0 < length keys)%nat) by (destruct keys; [congruence | simpl; lia]).
  eexists. cbn [ParameterViewModel.Update]. unfold isValidJSON. rewrite Hdec.
  fold keys.
  match goal with
  | |- exists m2, Ret (?M, _) = _ /\ _ =>
      destruct (downs n M param eq_refl eq_refl Hne eq_refl)
        as (m2 & Hrun & Hl & Hj & Hk & Hp & Hi);
      [cbn; lia |]
  end.
  cbn [ParameterViewModel.jsonKeys ParameterViewModel.with_viewport
         ParameterViewModel.selectedIndex] in Hk, Hi.
  exists m2. split; [reflexivity |]. split; [exact Hrun |].
  assert (Hidx : ParameterViewModel.selectedIndex m2
                 = Z.of_nat (Nat.min n (length keys - 1))) by lia.
  split; [exact Hidx |].
  assert (Hon : ParameterViewModel.isJSON m2
                && (0 <? length (ParameterViewModel.jsonKeys m2))%nat = true).
  { rewrite Hj, Hk. now apply Nat.ltb_lt in Hlen as ->. }
  assert (Hsel : slice_index (ParameterViewModel.jsonKeys m2)
                   (ParameterViewModel.selectedIndex m2) = Ret item).
  { unfold slice_index. rewrite Hk, Hidx.
    destruct (Z.ltb_spec (Z.of_nat (Nat.min n (length keys - 1))) 0); [lia |].
    now rewrite Nat2Z.id, Hitem. }
  cbn [ParameterViewModel.Update]. rewrite Hl.
  unfold ParameterViewModel.handleKey. rewrite Hon, Hsel, Hp.
  cbn [String.eqb Ascii.eqb Bool.eqb]. split; reflexivity.
Qed.

Lemma keys_act_on_the_selected_line_witness :
  exists m1 m2 : @ParameterViewModel.t decoding_externals plain_view_externals,
    ParameterViewModel.Update ParameterViewModel.NewParameterView
      (ParameterViewModel.Shared (ParameterValueLoadedMsg server_param))
    = Ret (m1, ParameterViewModel.Plain Nil)
    /\ view_run m1 (repeat (pressed "down") 5) = Ret m2
    /\ ParameterViewModel.selectedIndex m2 = 1%Z
    /\ ParameterViewModel.Update m2 (ParameterViewModel.Shared (KeyMsg "e"))
       = Ret (m2, ParameterViewModel.SendEdit (Some server_param) "server.port")
    /\ ParameterViewModel.Update m2 (ParameterViewModel.Shared (KeyMsg "c"))
       = Ret (m2, ParameterViewModel.CopyThenClear "8080").
Proof.
  exact (keys_act_on_the_selected_line (H0 := plain_view_externals)
           ParameterViewModel.NewParameterView server_param server_tree 5
           {| ParameterView.key := "server.port"; ParameterView.value := "8080" |}
           eq_refl eq_refl).
Defined.



